(** * safaribooks: the book assembly pipeline

    A shallow embedding of the Go sources of the downloader
    (pkg/utils, internal/html, internal/http, internal/models and
    internal/downloader) together with the properties of the written
    specification that were checked against them.

    Conventions of the embedding
    - a Go [string] is a [string] of bytes; [strings.ToLower],
      [strings.TrimSpace] and [strings.Fields] are the restrictions of
      the Go functions to ASCII (exact on inputs without bytes >= 0x80);
    - a Go [int] that only ever holds a length or an index is a [nat];
      the result of [strings.Index], which may be -1, is a [Z];
    - [net/url], the HTML front end (goquery) and [encoding/json] are
      libraries outside the repository: they are interfaces (classes)
      the repository's functions are parameterised by;
    - the network and the file system are explicit state. *)

From Stdlib Require Import ZArith Lia Bool List Ascii String.
From stdpp Require Import base option list strings pretty gmap sorting.

Local Open Scope Z_scope.
Local Open Scope string_scope.

(** ** Package [strings] of the Go library, on byte strings *)

Module strings.

Definition HasPrefix (s p : string) : bool := String.prefix p s.

Fixpoint HasSuffix (s suffix : string) : bool :=
  if String.eqb s suffix then true
  else match s with
       | EmptyString => false
       | String _ s' => HasSuffix s' suffix
       end.

Fixpoint Contains (s substr : string) : bool :=
  if String.prefix substr s then true
  else match s with
       | EmptyString => false
       | String _ s' => Contains s' substr
       end.

(** [Index] is the position of the first occurrence, or -1. *)
Fixpoint Index (s substr : string) : Z :=
  if String.prefix substr s then 0
  else match s with
       | EmptyString => -1
       | String _ s' => let r := Index s' substr in
                        if (r <? 0)%Z then -1 else r + 1
       end.

Fixpoint mem_ascii (c : ascii) (chars : string) : bool :=
  match chars with
  | EmptyString => false
  | String d chars' => if Ascii.eqb c d then true else mem_ascii c chars'
  end.

Fixpoint IndexAny (s chars : string) : Z :=
  match s with
  | EmptyString => -1
  | String c s' => if mem_ascii c chars then 0
                   else let r := IndexAny s' chars in
                        if (r <? 0)%Z then -1 else r + 1
  end.

(** The slice expression [s[:n]]. *)
Definition slice_to (s : string) (n : Z) : string :=
  String.substring 0 (Z.to_nat n) s.

(** The slice expression [s[n:]]. *)
Fixpoint slice_from (s : string) (n : nat) : string :=
  match n, s with
  | O, _ => s
  | S n', String _ s' => slice_from s' n'
  | S _, EmptyString => EmptyString
  end.

Definition lower_ascii (c : ascii) : ascii :=
  let n := nat_of_ascii c in
  if ((65 <=? n) && (n <=? 90))%nat then ascii_of_nat (n + 32) else c.

(** [strings.ToLower] on bytes: the letters A to Z are mapped, as Go
    does on ASCII text; Go maps the other runes by the Unicode tables,
    which are not modelled. *)
Fixpoint ToLower (s : string) : string :=
  match s with
  | EmptyString => EmptyString
  | String c s' => String (lower_ascii c) (ToLower s')
  end.

(** The white space of [strings.TrimSpace] and [strings.Fields] below
    0x80: tab, line feed, vertical tab, form feed, carriage return and
    space. Go also counts the spaces of Unicode beyond 0x80 (U+0085,
    U+00A0 and others), which are not modelled: the functions below are
    those of Go on ASCII text. *)
Definition isSpace (c : ascii) : bool :=
  let n := nat_of_ascii c in
  ((9 <=? n) && (n <=? 13) || (n =? 32))%nat.

Fixpoint TrimLeftFunc (f : ascii -> bool) (s : string) : string :=
  match s with
  | EmptyString => EmptyString
  | String c s' => if f c then TrimLeftFunc f s' else s
  end.

Fixpoint TrimRightFunc (f : ascii -> bool) (s : string) : string :=
  match s with
  | EmptyString => EmptyString
  | String c s' =>
      match TrimRightFunc f s' with
      | EmptyString => if f c then EmptyString else String c EmptyString
      | t => String c t
      end
  end.

Definition TrimSpace (s : string) : string :=
  TrimLeftFunc isSpace (TrimRightFunc isSpace s).

Definition Trim (s cutset : string) : string :=
  TrimLeftFunc (fun c => mem_ascii c cutset)
    (TrimRightFunc (fun c => mem_ascii c cutset) s).

Definition TrimPrefix (s p : string) : string :=
  if HasPrefix s p then slice_from s (String.length p) else s.

Definition TrimSuffix (s suffix : string) : string :=
  if HasSuffix s suffix
  then String.substring 0 (String.length s - String.length suffix) s
  else s.

(** [ReplaceAll s old new]: the non-overlapping occurrences of [old],
    left to right.  With an empty [old] Go inserts [new] before every
    character and at the end. *)
Fixpoint ReplaceAll_go (fuel : nat) (s old new : string) : string :=
  match fuel with
  | O => s
  | S fuel' =>
      if String.prefix old s
      then new +:+ ReplaceAll_go fuel' (slice_from s (String.length old)) old new
      else match s with
           | EmptyString => EmptyString
           | String c s' => String c (ReplaceAll_go fuel' s' old new)
           end
  end.

Fixpoint ReplaceAll_empty (s new : string) : string :=
  match s with
  | EmptyString => new
  | String c s' => new +:+ String c (ReplaceAll_empty s' new)
  end.

Definition ReplaceAll (s old new : string) : string :=
  match old with
  | EmptyString => ReplaceAll_empty s new
  | _ => ReplaceAll_go (S (String.length s)) s old new
  end.

(** [Split s sep] for a separator of one byte, the only use in the
    repository. *)
Fixpoint SplitByte (s : string) (sep : ascii) : list string :=
  match s with
  | EmptyString => [EmptyString]
  | String c s' =>
      if Ascii.eqb c sep then EmptyString :: SplitByte s' sep
      else match SplitByte s' sep with
           | [] => [String c EmptyString]
           | x :: xs => String c x :: xs
           end
  end.

Fixpoint Fields_go (cur : option string) (s : string) : list string :=
  match s with
  | EmptyString => match cur with Some w => [w] | None => [] end
  | String c s' =>
      if isSpace c
      then match cur with
           | Some w => w :: Fields_go None s'
           | None => Fields_go None s'
           end
      else Fields_go (Some (default EmptyString cur +:+ String c EmptyString)) s'
  end.

Definition Fields (s : string) : list string := Fields_go None s.

Definition Join (elems : list string) (sep : string) : string :=
  String.concat sep elems.

(** A [strings.Replacer] all of whose old strings are single bytes:
    every byte is looked up in the table, the first pair of the
    argument list that matches wins. *)
Fixpoint replacer_lookup (table : list (ascii * string)) (c : ascii) : option string :=
  match table with
  | [] => None
  | (o, n) :: table' => if Ascii.eqb c o then Some n else replacer_lookup table' c
  end.

Fixpoint Replace (table : list (ascii * string)) (s : string) : string :=
  match s with
  | EmptyString => EmptyString
  | String c s' =>
      match replacer_lookup table c with
      | Some n => n +:+ Replace table s'
      | None => String c (Replace table s')
      end
  end.

End strings.

(** ** Packages [path] and [path/filepath] (Unix) *)

Module path.

Definition slash : ascii := "/"%char.

Definition isSlash (c : ascii) : bool := Ascii.eqb c slash.

Fixpoint hasSlash (s : string) : bool :=
  match s with
  | EmptyString => false
  | String c s' => isSlash c || hasSlash s'
  end.

Fixpoint afterLastSlash (s : string) : string :=
  match s with
  | EmptyString => EmptyString
  | String c s' =>
      if hasSlash s' then afterLastSlash s'
      else if isSlash c then s' else s
  end.

(** [path.Base]: the last element of the path, after removing the
    trailing slashes. *)
Definition Base (p : string) : string :=
  match p with
  | EmptyString => "."
  | _ =>
      match afterLastSlash (strings.TrimRightFunc isSlash p) with
      | EmptyString => "/"
      | name => name
      end
  end.

(** [Clean]: the lexical normal form of a path. The elements are
    processed left to right on a stack ([out], most recent first). *)
Fixpoint clean_elems (rooted : bool) (elems out : list string) : list string :=
  match elems with
  | [] => rev out
  | e :: elems' =>
      if String.eqb e EmptyString || String.eqb e "." then clean_elems rooted elems' out
      else if String.eqb e ".." then
        match out with
        | top :: out' =>
            if String.eqb top ".." then clean_elems rooted elems' (e :: out)
            else clean_elems rooted elems' out'
        | [] =>
            if rooted then clean_elems rooted elems' out
            else clean_elems rooted elems' [e]
        end
      else clean_elems rooted elems' (e :: out)
  end.

Definition Clean (p : string) : string :=
  match p with
  | EmptyString => "."
  | String c _ =>
      let rooted := isSlash c in
      let body := strings.Join (clean_elems rooted (strings.SplitByte p slash) []) "/" in
      let r := if rooted then "/" +:+ body else body in
      match r with
      | EmptyString => "."
      | _ => r
      end
  end.

(** [filepath.Join]: the elements from the first non-empty one on,
    joined with the separator and cleaned. *)
Fixpoint Join (elems : list string) : string :=
  match elems with
  | [] => EmptyString
  | e :: elems' =>
      if String.eqb e EmptyString then Join elems'
      else Clean (strings.Join elems "/")
  end.

(** [filepath.Dir]: all but the last element, cleaned. *)
Definition Dir (p : string) : string :=
  Clean (String.substring 0 (String.length p - String.length (afterLastSlash p)) p).

(** [filepath.Ext]: the suffix from the last dot of the last element. *)
Fixpoint Ext (p : string) : string :=
  match p with
  | EmptyString => EmptyString
  | String c p' =>
      match Ext p' with
      | EmptyString =>
          if hasSlash p' then EmptyString
          else if Ascii.eqb c "."%char then p else EmptyString
      | e => e
      end
  end.

End path.

(** ** Package [net/url]: an interface

    [url.Parse] and [URL.ResolveReference] belong to the Go library.
    The repository reads the fields [Scheme], [Host] and [Path] of a
    parsed URL and prints a resolved reference with [String]; nothing
    else is assumed about the library. [Parse] returns [None] where the
    Go function returns an error. *)

Class NetURL := {
  URL : Type;
  url_Parse : string -> option URL;
  url_Scheme : URL -> string;
  url_Host : URL -> string;
  url_Path : URL -> string;
  (** the string of [base.ResolveReference(ref)] *)
  url_ResolveReference : URL -> URL -> string
}.

(** ** Package [pkg/utils] *)

Section Utils.

Context `{NetURL}.

(** utils.go, ResolveURL *)
Definition ResolveURL (base href : string) : string :=
  if String.eqb href EmptyString then EmptyString
  else if strings.HasPrefix href "//" then "https:" +:+ href
  else if strings.HasPrefix href "http://" || strings.HasPrefix href "https://" then href
  else if String.eqb base EmptyString then href
  else match url_Parse base with
       | None => href
       | Some baseURL =>
           match url_Parse href with
           | None => href
           | Some ref => url_ResolveReference baseURL ref
           end
       end.

(** utils.go, IsAbsoluteURL *)
Definition IsAbsoluteURL (raw : string) : bool :=
  if String.eqb raw EmptyString then false
  else match url_Parse raw with
       | None => false
       | Some u => negb (String.eqb (url_Scheme u) EmptyString) && negb (String.eqb (url_Host u) EmptyString)
       end.

(** utils.go, StripQueryFragment *)
Definition StripQueryFragment (link : string) : string :=
  let idx := strings.IndexAny link "?#" in
  if (0 <=? idx)%Z then strings.slice_to link idx else link.

(** utils.go, FilenameFromURL *)
Definition FilenameFromURL (raw : string) : string :=
  if String.eqb raw EmptyString then EmptyString
  else
    let fallback :=
      let name := path.Base (StripQueryFragment raw) in
      let name := strings.Trim name "/" in
      if String.eqb name EmptyString then EmptyString else name in
    match url_Parse raw with
    | Some parsed =>
        let name := path.Base (url_Path parsed) in
        if negb (String.eqb name EmptyString) && negb (String.eqb name ".") && negb (String.eqb name "/")
        then name
        else fallback
    | None => fallback
    end.

(** utils.go, BaseName *)
Definition BaseName (link : string) : string :=
  let clean := StripQueryFragment link in
  let name := path.Base clean in
  if String.eqb name "." || String.eqb name "/" then EmptyString else name.

End Utils.

Definition dquote : ascii := ascii_of_nat 34.

(** The table of [strings.NewReplacer] in EscapeDirname, in argument
    order. *)
Definition escapeDirnameTable : list (ascii * string) :=
  [ ("~"%char, "_"); ("#"%char, "_"); ("%"%char, "_"); ("&"%char, "_"); ("*"%char, "_");
    ("{"%char, "_"); ("}"%char, "_"); ("\"%char, "_"); ("<"%char, "_"); (">"%char, "_");
    ("?"%char, "_"); ("/"%char, "_"); ("`"%char, "_"); ("'"%char, "_"); (dquote, "_");
    ("|"%char, "_"); ("+"%char, "_"); (":"%char, "_") ].

(** utils.go, EscapeDirname *)
Definition EscapeDirname (name : string) : string :=
  let idx := strings.Index name ":" in
  let name := if (15 <? idx)%Z then strings.slice_to name idx else name in
  strings.Replace escapeDirnameTable name.

(** ** Package [internal/models] *)

Record namedEntity := { Name : string }.

Record BookInfo := {
  Title : string;
  Description : string;
  WebURL : string;
  Identifier : string;
  ISBN : string;
  Issued : string;
  Rights : string;
  Cover : string;
  Authors : list namedEntity;
  Publishers : list namedEntity;
  Subjects : list namedEntity
}.

Record ChapterStylesheet := { sheet_URL : string }.

(** The fields of [models.Chapter] the pipeline reads or writes
    ([Fragment], [ID], [Depth] and [Children] are only decoded). *)
Record Chapter := {
  ch_Title : string;
  ch_Filename : string;
  ch_Content : string;
  ch_AssetBaseURL : string;
  ch_Images : list string;
  ch_Stylesheets : list ChapterStylesheet;
  ch_SiteStyles : list string
}.

(** [Next] is a [*string]: [None] is the JSON null. *)
Record ChapterResponse := {
  Count : Z;
  Next : option string;
  Results : list Chapter
}.

(** ** Package [golang.org/x/net/html]: the node tree *)

Inductive NodeType :=
  ErrorNode | TextNode | DocumentNode | ElementNode | CommentNode | DoctypeNode | RawNode.

Record Attribute := { Key : string; Val : string }.

(** A node with its children in order ([FirstChild], [NextSibling]). *)
#[warnings="-register-all"]
Inductive Node :=
  mkNode (Type_ : NodeType) (Data : string) (Attr : list Attribute) (Children : list Node).

(** What [ParseChapter] obtains from goquery on the chapter's HTML,
    after its own changes of the tree (the stylesheet links removed,
    the [data-template] styles expanded, the [image] elements
    unwrapped):
    - [dom_links]: the [href] of every [link[rel='stylesheet']] element
      that has one, in document order;
    - [dom_styles]: [nodeToString] of every [style] element that
      renders, in document order;
    - [dom_content]: the first [div#sbo-rt-content], if any. *)
Record ChapterDOM := {
  dom_links : list string;
  dom_styles : list string;
  dom_content : option Node
}.

(** [goquery.NewDocumentFromReader] and the selections; [None] is the
    reader's error. *)
Class HTMLFrontEnd := { goquery_NewDocument : string -> option ChapterDOM }.

(** ** Package [internal/html] *)

Definition nl : string := String (ascii_of_nat 10) EmptyString.

Definition quote : string := String dquote EmptyString.

(** [attr k v] is the text [k="v"]. *)
Definition attr (k v : string) : string := k +:+ "=" +:+ quote +:+ v +:+ quote.

(** parser.go, the constant baseHTMLTemplate, applied to its three
    arguments (the verbs are all [%s]). *)
Definition baseHTMLTemplate (css style body : string) : string :=
  "<!DOCTYPE html>" +:+ nl +:+
  "<html " +:+ attr "lang" "en" +:+ " " +:+ attr "xml:lang" "en" +:+ " " +:+
    attr "xmlns" "http://www.w3.org/1999/xhtml" +:+ " " +:+
    attr "xmlns:xsi" "http://www.w3.org/2001/XMLSchema-instance" +:+ " " +:+
    attr "xsi:schemaLocation"
      "http://www.w3.org/2002/06/xhtml2/ http://www.w3.org/MarkUp/SCHEMA/xhtml2.xsd" +:+ " " +:+
    attr "xmlns:epub" "http://www.idpf.org/2007/ops" +:+ ">" +:+ nl +:+
  "<head>" +:+ nl +:+
  css +:+ nl +:+
  "<style " +:+ attr "type" "text/css" +:+ ">" +:+ style +:+ "</style></head>" +:+ nl +:+
  "<body>" +:+ body +:+ "</body>" +:+ nl +:+
  "</html>".

Definition baseStyleCSS : string :=
  "body{margin:1em;background-color:transparent!important;}#sbo-rt-content *{text-indent:0pt!important;}#sbo-rt-content .bq{margin-right:1em!important;}".

Definition kindleCSS : string :=
  "#sbo-rt-content *{word-wrap:break-word!important;word-break:break-word!important;}#sbo-rt-content table,#sbo-rt-content pre{overflow-x:unset!important;overflow:unset!important;overflow-y:unset!important;white-space:pre-wrap!important;}".

Record Parser := {
  bookURL : string;
  kindleMode : bool;
  baseHTMLStyle : string;
  cssIndex : gmap string nat;
  cssList : list string
}.

(** parser.go, NewParser *)
Definition NewParser (bookURL : string) (kindleMode : bool) : Parser :=
  let baseStyle := baseStyleCSS in
  let baseStyle := if negb kindleMode then baseStyle +:+ kindleCSS else baseStyle in
  {| bookURL := bookURL;
     kindleMode := kindleMode;
     baseHTMLStyle := baseStyle;
     cssIndex := ∅;
     cssList := [] |}.

(** parser.go, ensureCSS: the index of the URL and the parser after
    the call. *)
Definition ensureCSS (url : string) (p : Parser) : nat * Parser :=
  if String.eqb url EmptyString then (0%nat, p)
  else match cssIndex p !! url with
       | Some idx => (idx, p)
       | None =>
           let idx := length (cssList p) in
           (idx, {| bookURL := bookURL p;
                    kindleMode := kindleMode p;
                    baseHTMLStyle := baseHTMLStyle p;
                    cssIndex := <[url := idx]> (cssIndex p);
                    cssList := (cssList p ++ [url])%list |})
       end.

(** The verb [%02d] on a non-negative integer. *)
Definition fmt_02d (n : nat) : string :=
  if (n <? 10)%nat then "0" +:+ pretty n else pretty n.

(** The [<link>] line written for the stylesheet of index [idx]. *)
Definition cssLink (idx : nat) : string :=
  "<link " +:+ attr "href" ("Styles/Style" +:+ fmt_02d idx +:+ ".css") +:+ " " +:+
    attr "rel" "stylesheet" +:+ " " +:+ attr "type" "text/css" +:+ " />" +:+ nl.

(** parser.go, isImageLink *)
Definition isImageLink (raw : string) : bool :=
  let raw := strings.ToLower raw in
  existsb (fun ext => strings.HasSuffix raw ext)
    [".jpg"; ".jpeg"; ".png"; ".gif"; ".webp"; ".svg"].

(** [html.EscapeString] of the Go library. *)
Definition EscapeString (s : string) : string :=
  strings.Replace
    [ ("&"%char, "&amp;"); ("'"%char, "&#39;"); ("<"%char, "&lt;");
      (">"%char, "&gt;"); (dquote, "&#34;") ] s.

(** parser.go, rewriteSrcset *)
Definition rewriteSrcset (value : string) (repl : string -> string) : string :=
  let parts := strings.SplitByte value ","%char in
  let parts :=
    map (fun part0 =>
           let part := strings.TrimSpace part0 in
           if String.eqb part EmptyString then part0
           else match strings.Fields part with
                | [] => part0
                | seg0 :: segments => strings.Join (repl seg0 :: segments) " "
                end) parts in
  strings.Join parts ", ".

Definition rewriteAttr (repl : string -> string) (a : Attribute) : Attribute :=
  let k := Key a in
  if String.eqb k "href" || String.eqb k "src" || String.eqb k "data" || String.eqb k "poster"
  then {| Key := k; Val := repl (Val a) |}
  else if String.eqb k "srcset"
  then {| Key := k; Val := rewriteSrcset (Val a) repl |}
  else a.

(** parser.go, rewriteLinks: the tree after the in-place rewrite. *)
Fixpoint rewriteLinks (repl : string -> string) (node : Node) : Node :=
  match node with
  | mkNode ty data attrs children =>
      mkNode ty data
        (match ty with
         | ElementNode => map (rewriteAttr repl) attrs
         | _ => attrs
         end)
        (map (rewriteLinks repl) children)
  end.

Definition renderAttr (a : Attribute) : string :=
  " " +:+ Key a +:+ "=" +:+ quote +:+ EscapeString (Val a) +:+ quote.

(** parser.go, renderXHTML: the text written to the buffer (the
    function returns no error of its own). *)
Fixpoint renderXHTML (node : Node) : string :=
  match node with
  | mkNode ty data attrs children =>
      match ty with
      | DocumentNode => String.concat EmptyString (map renderXHTML children)
      | ElementNode =>
          "<" +:+ data +:+ String.concat EmptyString (map renderAttr attrs) +:+
          match children with
          | [] => "/>"
          | _ => ">" +:+ String.concat EmptyString (map renderXHTML children) +:+
                 "</" +:+ data +:+ ">"
          end
      | TextNode => EscapeString data
      | CommentNode => "<!--" +:+ data +:+ "-->"
      | DoctypeNode => EmptyString
      | RawNode => data
      | ErrorNode => EmptyString
      end
  end.

(** parser.go, nodeToXHTML *)
Definition nodeToXHTML (node : Node) : string := renderXHTML node.

Inductive ParseError :=
  | ErrUnableToParse     (* unable to parse HTML for ... *)
  | ErrContentMissing.   (* parser: book content missing for ... *)

Section HtmlParser.

Context `{NetURL} `{HTMLFrontEnd}.

(** parser.go, linkReplace *)
Definition linkReplace (p : Parser) (link : string) : string :=
  let link := strings.TrimSpace link in
  if String.eqb link EmptyString || strings.HasPrefix link "mailto:" then link
  else if negb (IsAbsoluteURL link) then
    let lower := strings.ToLower link in
    if strings.Contains lower "cover" || strings.Contains lower "images"
       || strings.Contains lower "graphics" || isImageLink link
    then
      let name := BaseName link in
      let name := if String.eqb name EmptyString then FilenameFromURL link else name in
      if String.eqb name EmptyString then link
      else "Images/" +:+ name
    else strings.ReplaceAll link ".html" ".xhtml"
  else link.

(** One registration of [ParseChapter]: [ensureCSS] on the absolute
    URL, then the [<link>] line appended to [pageCSS]. *)
Definition registerCSS (abs : string) (st : Parser * string) : Parser * string :=
  let '(idx, p) := ensureCSS abs (fst st) in
  (p, snd st +:+ cssLink idx).

(** parser.go, ParseChapter: the parser after the call and either the
    error or the pair (pageCSS, pageHTML). *)
Definition ParseChapter (p : Parser) (chapter : Chapter) (isFirst : bool)
  : Parser * (ParseError + string * string) :=
  match goquery_NewDocument (ch_Content chapter) with
  | None => (p, inl ErrUnableToParse)
  | Some doc =>
      let st := (p, EmptyString) in
      (* Process stylesheets *)
      let st :=
        if (0 <? length (ch_Stylesheets chapter))%nat || (0 <? length (ch_SiteStyles chapter))%nat
        then
          let st :=
            fold_left (fun st sheet =>
                         if String.eqb (sheet_URL sheet) EmptyString then st
                         else registerCSS (ResolveURL (ch_AssetBaseURL chapter) (sheet_URL sheet)) st)
                      (ch_Stylesheets chapter) st in
          fold_left (fun st sheet =>
                       if String.eqb sheet EmptyString then st
                       else registerCSS (ResolveURL (ch_AssetBaseURL chapter) sheet) st)
                    (ch_SiteStyles chapter) st
        else st in
      (* Process link tags in the document *)
      let st :=
        fold_left (fun st href => registerCSS (ResolveURL (bookURL (fst st)) href) st)
                  (dom_links doc) st in
      (* Process style tags *)
      let pageCSS :=
        fold_left (fun acc css => acc +:+ css +:+ nl) (dom_styles doc) (snd st) in
      let p := fst st in
      (* Find the main content *)
      match dom_content doc with
      | None => (p, inl ErrContentMissing)
      | Some contentNode =>
          let xhtml := nodeToXHTML (rewriteLinks (linkReplace p) contentNode) in
          (p, inr (pageCSS, baseHTMLTemplate pageCSS (baseHTMLStyle p) xhtml))
      end
  end.

End HtmlParser.

(** ** The file system and the network as state *)

(** What a file holds: bytes, or a zip archive with its entries in
    order (a directory entry has no content). *)
#[warnings="-register-all"]
Inductive Content :=
  | Bytes (data : string)
  | Archive (entries : list (string * option Content)).

(** The world of one run: the files, the directories and the URLs
    requested so far (oldest first). Paths are clean ([path.Clean]);
    the directories [.] and [/] always exist. A write fails when the
    parent directory is missing or the path is a directory; permissions
    and full disks are not modelled. *)
Record World := {
  fs_files : gmap string Content;
  fs_dirs : gset string;
  net_log : list string
}.

Definition is_dir (w : World) (p : string) : bool :=
  String.eqb p "." || String.eqb p "/" || bool_decide (p ∈ fs_dirs w).

Definition is_file (w : World) (p : string) : bool :=
  bool_decide (is_Some (fs_files w !! p)).

Definition put_file (p : string) (c : Content) (w : World) : World :=
  {| fs_files := <[p := c]> (fs_files w); fs_dirs := fs_dirs w; net_log := net_log w |}.

(** utils.go, FileExists ([os.Stat] succeeds) *)
Definition FileExists (p : string) (w : World) : bool :=
  let p := path.Clean p in is_dir w p || is_file w p.

(** [os.WriteFile] (and [os.Create]): whether it succeeded, and the
    world after. *)
Definition WriteFile (p : string) (c : Content) (w : World) : bool * World :=
  let p := path.Clean p in
  if is_dir w (path.Dir p) && negb (is_dir w p) then (true, put_file p c w)
  else (false, w).

Fixpoint MkdirAll_go (fuel : nat) (p : string) (w : World) : bool * World :=
  if is_dir w p then (true, w)
  else if is_file w p then (false, w)
  else match fuel with
       | O => (false, w)
       | S fuel' =>
           let '(ok, w) := MkdirAll_go fuel' (path.Dir p) w in
           if ok
           then (true, {| fs_files := fs_files w;
                          fs_dirs := {[ p ]} ∪ fs_dirs w;
                          net_log := net_log w |})
           else (false, w)
       end.

(** [os.MkdirAll] *)
Definition MkdirAll (p : string) (w : World) : bool * World :=
  let p := path.Clean p in MkdirAll_go (String.length p) p w.

(** [os.ReadDir]: the entries of a directory, sorted by name, each with
    its [IsDir]; [None] when there is no such directory. *)
Definition ReadDir (dir : string) (w : World) : option (list (string * bool)) :=
  let dir := path.Clean dir in
  if is_dir w dir then
    let all := elements (fs_dirs w ∪ dom (fs_files w)) in
    let inside := List.filter (fun p => negb (String.eqb p dir) && String.eqb (path.Dir p) dir) all in
    Some (map (fun n => (n, is_dir w (path.Join [dir; n])))
              (merge_sort String.le (map path.Base inside)))
  else None.

(** [os.Rename] of a file. *)
Definition Rename (old new : string) (w : World) : bool * World :=
  let old := path.Clean old in
  let new := path.Clean new in
  match fs_files w !! old with
  | Some c =>
      if is_dir w (path.Dir new) && negb (is_dir w new)
      then (true, {| fs_files := <[new := c]> (delete old (fs_files w));
                     fs_dirs := fs_dirs w;
                     net_log := net_log w |})
      else (false, w)
  | None => (false, w)
  end.

(** [filepath.WalkDir] below [dir], as ZipDirectory uses it: the zip
    entries of what lies under [dir], named relative to [root]. The
    fuel bounds the depth. *)
Fixpoint walkEntries (fuel : nat) (w : World) (rel dir : string)
  : list (string * option Content) :=
  match fuel with
  | O => []
  | S fuel' =>
      match ReadDir dir w with
      | None => []
      | Some entries =>
          flat_map (fun e : string * bool =>
                      let name := if String.eqb rel EmptyString then fst e
                                  else rel +:+ "/" +:+ fst e in
                      let full := path.Join [dir; fst e] in
                      if snd e
                      then (name +:+ "/", None) :: walkEntries fuel' w name full
                      else match fs_files w !! full with
                           | Some c => [(name, Some c)]
                           | None => []
                           end)
                   entries
      end
  end.

(** utils.go, ZipDirectory *)
Definition ZipDirectory (srcDir destZip : string) (w : World) : bool * World :=
  let '(created, w) := WriteFile destZip (Archive []) w in
  if negb created then (false, w)
  else if negb (FileExists srcDir w) then (false, w)
  else
    let entries := walkEntries (S (size (fs_dirs w))) w EmptyString (path.Clean srcDir) in
    (true, put_file (path.Clean destZip) (Archive entries) w).

(** A resty response: the status code and the body. *)
Record Response := { StatusCode : nat; Body : string }.

(** [resty.Response.IsSuccess]: the status is above 199 and below 300. *)
Definition IsSuccess (r : Response) : bool :=
  (199 <? StatusCode r)%nat && (StatusCode r <? 300)%nat.

(** [resty.Response.String]: the body, trimmed. *)
Definition resp_String (r : Response) : string :=
  match Body r with
  | EmptyString => EmptyString
  | b => strings.TrimSpace b
  end.

(** The upstream site as the client sees it: the answer to a GET of a
    URL, [None] when the request itself fails (the [err] of resty).
    The site answers the same URL the same way during one run. *)
Definition Server := string -> option Response.

Section Network.

Variable server : Server.

(** [d.client.Get]: the request is logged and answered by the site. *)
Definition GET (url : string) (w : World) : option Response * World :=
  (server url,
   {| fs_files := fs_files w; fs_dirs := fs_dirs w; net_log := (net_log w ++ [url])%list |}).

End Network.

(** ** Package [internal/http] *)

(** [json.Unmarshal] into the two schemas; [None] is its error. *)
Class JSONDecoder := {
  json_BookInfo : string -> option BookInfo;
  json_ChapterResponse : string -> option ChapterResponse
}.

(** The errors of the program, one constructor per place that makes
    one. *)
Inductive error :=
  | ErrRequest (op : string)             (* the GET itself failed *)
  | ErrUnexpectedStatus (code : nat)     (* http.go: unexpected status *)
  | ErrInvalidResponse                   (* http.go: invalid response *)
  | ErrNoChapters                        (* client.go: unable to retrieve book chapters *)
  | ErrAuthStatus (code : nat)           (* client.go: expected 200, got ... *)
  | ErrAuthExpired                       (* client.go: account subscription expired *)
  | ErrChapterStatus (code : nat)        (* downloader: status ... for chapter *)
  | ErrParseChapter (e : ParseError)     (* downloader: parse chapter *)
  | ErrWriteChapter                      (* downloader: write chapter *)
  | ErrCreateDirectory (dir : string)    (* downloader: create directory *)
  | ErrCreateZip                         (* downloader: create zip *)
  | ErrRename.                           (* os.Rename *)

Definition safariBaseURL : string := "https://learning.oreilly.com".

Definition profileURL : string := safariBaseURL +:+ "/profile/".

(** The marker of an expired subscription: the text user_type, a
    double quote, a colon, a double quote, Expired, a double quote. *)
Definition expiredMarker : string :=
  "user_type" +:+ quote +:+ ":" +:+ quote +:+ "Expired" +:+ quote.

(** client.go, the predicate of the first [lo.Filter]. *)
Definition isCoverChapter (chapter : Chapter) : bool :=
  strings.Contains (strings.ToLower (ch_Filename chapter)) "cover"
  || strings.Contains (strings.ToLower (ch_Title chapter)) "cover".

(** client.go, the predicate of the second [lo.Filter]. *)
Definition isRemainingChapter (chapter : Chapter) : bool :=
  negb (strings.Contains (strings.ToLower (ch_Filename chapter)) "cover")
  && negb (strings.Contains (strings.ToLower (ch_Title chapter)) "cover").

Section Client.

Context `{JSONDecoder}.
Variable server : Server.

(** http.go, HandleJSONResponse, at the chapter schema *)
Definition HandleJSONResponse_chapters (resp : Response) : error + ChapterResponse :=
  if negb (IsSuccess resp) then inl (ErrUnexpectedStatus (StatusCode resp))
  else match json_ChapterResponse (Body resp) with
       | None => inl ErrInvalidResponse
       | Some payload => inr payload
       end.

(** http.go, HandleJSONResponseWithClient, at the book schema *)
Definition HandleJSONResponse_book (url : string) (w : World) : (error + BookInfo) * World :=
  let '(resp, w) := GET server url w in
  match resp with
  | None => (inl (ErrRequest "API: unable to retrieve book info"), w)
  | Some resp =>
      if negb (IsSuccess resp) then (inl (ErrUnexpectedStatus (StatusCode resp)), w)
      else match json_BookInfo (Body resp) with
           | None => (inl ErrInvalidResponse, w)
           | Some info => (inr info, w)
           end
  end.

(** client.go, GetBookInfo *)
Definition GetBookInfo (bookID : string) (w : World) : (error + BookInfo) * World :=
  let apiURL := safariBaseURL +:+ "/api/v1/book/" +:+ bookID +:+ "/" in
  HandleJSONResponse_book apiURL w.

(** client.go, GetBookChapters: the loop over the cursor [pageURL]. The
    cursor of the site may never end, so the loop takes fuel: [None]
    means that the fuel ran out before the loop ended. *)
Fixpoint GetBookChapters_loop (fuel : nat) (pageURL : string) (all : list Chapter) (w : World)
  : option (error + list Chapter) * World :=
  if String.eqb pageURL EmptyString then (Some (inr all), w)
  else match fuel with
       | O => (None, w)
       | S fuel' =>
           let '(resp, w) := GET server pageURL w in
           match resp with
           | None => (Some (inl (ErrRequest "API: retrieve book chapters")), w)
           | Some resp =>
               match HandleJSONResponse_chapters resp with
               | inl e => (Some (inl e), w)
               | inr payload =>
                   if (length (Results payload) =? 0)%nat then (Some (inl ErrNoChapters), w)
                   else
                     let covers := List.filter isCoverChapter (Results payload) in
                     let remaining := List.filter isRemainingChapter (Results payload) in
                     let all := (all ++ covers)%list in
                     let all := (all ++ remaining)%list in
                     let pageURL :=
                       match Next payload with
                       | Some next => if negb (String.eqb next EmptyString) then next else EmptyString
                       | None => EmptyString
                       end in
                     GetBookChapters_loop fuel' pageURL all w
               end
           end
       end.

Definition chaptersURL (bookID : string) : string :=
  safariBaseURL +:+ "/api/v1/book/" +:+ bookID +:+ "/" +:+ "chapter/?page=1".

(** client.go, GetBookChapters *)
Definition GetBookChapters (fuel : nat) (bookID : string) (w : World)
  : option (error + list Chapter) * World :=
  GetBookChapters_loop fuel (chaptersURL bookID) [] w.

(** client.go, ensureAuthenticated: [None] is the nil error. *)
Definition ensureAuthenticated (w : World) : option error * World :=
  let '(resp, w) := GET server profileURL w in
  match resp with
  | None => (Some (ErrRequest "authentication check failed"), w)
  | Some resp =>
      if negb (StatusCode resp =? 200)%nat then (Some (ErrAuthStatus (StatusCode resp)), w)
      else if strings.Contains (resp_String resp) expiredMarker then (Some ErrAuthExpired, w)
      else (None, w)
  end.

End Client.

(** ** Package [internal/downloader] *)

Record Downloader := {
  bookID : string;
  cookiesPath : string;
  booksDir : string;
  d_kindleMode : bool;
  siteURL : string
}.

(** downloader, escapeXML *)
Definition escapeXML (s : string) : string :=
  let s := strings.ReplaceAll s "&" "&amp;" in
  let s := strings.ReplaceAll s "<" "&lt;" in
  let s := strings.ReplaceAll s ">" "&gt;" in
  let s := strings.ReplaceAll s quote "&quot;" in
  let s := strings.ReplaceAll s "'" "&apos;" in
  s.

(** downloader, firstNonEmpty *)
Fixpoint firstNonEmpty (strs : list string) : string :=
  match strs with
  | [] => EmptyString
  | s :: strs' => if negb (String.eqb s EmptyString) then s else firstNonEmpty strs'
  end.

(** downloader, getImageMediaType *)
Definition getImageMediaType (ext : string) : string :=
  if String.eqb ext ".jpg" || String.eqb ext ".jpeg" then "image/jpeg"
  else if String.eqb ext ".png" then "image/png"
  else if String.eqb ext ".gif" then "image/gif"
  else if String.eqb ext ".svg" then "image/svg+xml"
  else if String.eqb ext ".webp" then "image/webp"
  else "image/jpeg".

(** downloader, generateCoverURLVariants: the slice sizeVariants *)
Definition sizeVariants : list string :=
  [ "1200w"; "800w"; "600w"; "500w"; "400w"; "200w";
    "large"; "medium"; "small"; "thumb" ].

(** The loop of generateCoverURLVariants over the size tokens. *)
Fixpoint coverVariants_loop (coverURL : string) (sizes : list string) : option (list string) :=
  match sizes with
  | [] => None
  | oldSize :: sizes' =>
      if strings.Contains coverURL oldSize
      then Some [strings.ReplaceAll coverURL oldSize "600w"; coverURL]
      else coverVariants_loop coverURL sizes'
  end.

(** downloader, generateCoverURLVariants *)
Definition generateCoverURLVariants (coverURL : string) : list string :=
  match coverVariants_loop coverURL sizeVariants with
  | Some variants => variants
  | None =>
      let baseURL := strings.TrimSuffix coverURL "/" in
      [ baseURL +:+ "/600w/"; coverURL ]
  end.

(** downloader, createBookDirectory: the value of [dirName]. *)
Definition dirName (d : Downloader) (bookInfo : BookInfo) : string :=
  let title := EscapeDirname (Title bookInfo) in
  let title := if String.eqb title EmptyString then bookID d else title in
  let cleanTitle := hd EmptyString (strings.SplitByte title ","%char) in
  cleanTitle +:+ " (" +:+ bookID d +:+ ")".

Fixpoint mkdirs (dirs : list string) (w : World) : option error * World :=
  match dirs with
  | [] => (None, w)
  | dir :: dirs' =>
      let '(ok, w) := MkdirAll dir w in
      if ok then mkdirs dirs' w else (Some (ErrCreateDirectory dir), w)
  end.

(** downloader, createBookDirectory *)
Definition createBookDirectory (d : Downloader) (bookInfo : BookInfo) (w : World)
  : (error + string) * World :=
  let bookPath := path.Join [booksDir d; dirName d bookInfo] in
  let dirs := [ bookPath;
                path.Join [bookPath; "OEBPS"];
                path.Join [bookPath; "OEBPS"; "Styles"];
                path.Join [bookPath; "OEBPS"; "Images"] ] in
  match mkdirs dirs w with
  | (Some e, w) => (inl e, w)
  | (None, w) => (inr bookPath, w)
  end.

Definition set_Content (c : string) (ch : Chapter) : Chapter :=
  {| ch_Title := ch_Title ch; ch_Filename := ch_Filename ch; ch_Content := c;
     ch_AssetBaseURL := ch_AssetBaseURL ch; ch_Images := ch_Images ch;
     ch_Stylesheets := ch_Stylesheets ch; ch_SiteStyles := ch_SiteStyles ch |}.

Definition set_Filename (f : string) (ch : Chapter) : Chapter :=
  {| ch_Title := ch_Title ch; ch_Filename := f; ch_Content := ch_Content ch;
     ch_AssetBaseURL := ch_AssetBaseURL ch; ch_Images := ch_Images ch;
     ch_Stylesheets := ch_Stylesheets ch; ch_SiteStyles := ch_SiteStyles ch |}.

Section Downloader.

Context `{NetURL} `{HTMLFrontEnd} `{JSONDecoder}.
Variable server : Server.
Variable d : Downloader.

(** downloader, resolveImageURL *)
Definition resolveImageURL (chapter : Chapter) (img : string) : string :=
  let apiV2 := strings.Contains (ch_Content chapter) "/api/v2/" in
  if apiV2 then
    let chapterBase :=
      "https://" +:+ siteURL d +:+ "/api/v2/epubs/urn:orm:book:" +:+ bookID d +:+ "/files" in
    strings.TrimSuffix chapterBase "/" +:+ "/" +:+ strings.TrimPrefix img "/"
  else ResolveURL (ch_AssetBaseURL chapter) img.

(** downloader, downloadFile *)
Definition downloadFile (url p : string) (w : World) : World :=
  if FileExists p w then w
  else
    let '(resp, w) := GET server url w in
    match resp with
    | None => w
    | Some resp =>
        if negb (IsSuccess resp) then w
        else snd (WriteFile p (Bytes (Body resp)) w)
    end.

(** downloader, downloadAssets *)
Definition downloadAssets (chapter : Chapter) (basePath : string) (w : World) : World :=
  let imagesPath := path.Join [basePath; "OEBPS"; "Images"] in
  fold_left (fun w imgURL =>
               let url := resolveImageURL chapter imgURL in
               if String.eqb url EmptyString then w
               else
                 let filename := FilenameFromURL url in
                 if String.eqb filename EmptyString then w
                 else downloadFile url (path.Join [imagesPath; filename]) w)
            (ch_Images chapter) w.

(** downloader, downloadChapter: the error (if any), the chapter after
    the call (it is passed by pointer) and the world after. The parser
    is local to the caller's goroutine and dropped afterwards. *)
Definition downloadChapter (oebpsPath : string) (chapter : Chapter) (isFirst : bool)
    (parser : Parser) (bookPath : string) (w : World) : option error * Chapter * World :=
  let '(resp, w) := GET server (ch_Content chapter) w in
  match resp with
  | None => (Some (ErrRequest "download chapter"), chapter, w)
  | Some resp =>
      if negb (IsSuccess resp) then (Some (ErrChapterStatus (StatusCode resp)), chapter, w)
      else
        let chapter := set_Content (Body resp) chapter in
        match snd (ParseChapter parser chapter isFirst) with
        | inl e => (Some (ErrParseChapter e), chapter, w)
        | inr (_, pageHTML) =>
            let filename := strings.ReplaceAll (ch_Filename chapter) ".html" ".xhtml" in
            let chapter := set_Filename filename chapter in
            let outputPath := path.Join [oebpsPath; filename] in
            let '(ok, w) := WriteFile outputPath (Bytes pageHTML) w in
            if negb ok then (Some ErrWriteChapter, chapter, w)
            else (None, chapter, downloadAssets chapter bookPath w)
        end
  end.

(** The body of one goroutine of downloadChapters, for the chapter of
    index [i]. *)
Definition chapterWorker (oebpsPath bookPath : string) (i : nat)
    (st : list Chapter * option error * World) : list Chapter * option error * World :=
  let '(chapters, firstError, w) := st in
  match chapters !! i with
  | None => st
  | Some chapter =>
      let parser := NewParser ("https://" +:+ siteURL d) (d_kindleMode d) in
      let '(err, chapter, w) :=
        downloadChapter oebpsPath chapter (i =? 0)%nat parser bookPath w in
      (<[i := chapter]> chapters,
       match firstError with
       | None => err
       | Some e => Some e
       end,
       w)
  end.

(** downloader, downloadChapters. The goroutines run concurrently, at
    most five at a time; here each runs to its end in turn, in the order
    [sched] (a permutation of the indices, chosen by the scheduler). The
    result is the chapters as the workers left them, [firstError] and
    the world after [wg.Wait]. *)
Definition downloadChapters (sched : list nat) (bookPath : string) (chapters : list Chapter)
    (w : World) : list Chapter * option error * World :=
  let oebpsPath := path.Join [bookPath; "OEBPS"] in
  fold_left (fun st i => chapterWorker oebpsPath bookPath i st) sched (chapters, None, w).

(** The attempt common to downloadLargestCover and
    findLargestImageFromList: the variants are tried in order, the first
    that is fetched and saved gives the cover's file name. *)
Fixpoint tryVariants (variants : list string) (imagesPath : string) (w : World)
  : option string * World :=
  match variants with
  | [] => (None, w)
  | url :: variants' =>
      let '(resp, w) := GET server url w in
      match resp with
      | None => tryVariants variants' imagesPath w
      | Some resp =>
          if negb (IsSuccess resp) then tryVariants variants' imagesPath w
          else
            let ext := if strings.Contains url ".png" then ".png" else ".jpg" in
            let coverFilename := "cover" +:+ ext in
            let coverFile := path.Join [imagesPath; coverFilename] in
            let '(ok, w) := WriteFile coverFile (Bytes (Body resp)) w in
            if negb ok then tryVariants variants' imagesPath w
            else (Some coverFilename, w)
      end
  end.

(** downloader, downloadLargestCover *)
Definition downloadLargestCover (coverURL imagesPath : string) (w : World) : string * World :=
  let possibleURLs := generateCoverURLVariants coverURL in
  match tryVariants possibleURLs imagesPath w with
  | (Some coverFilename, w) => (coverFilename, w)
  | (None, w) => (EmptyString, w)
  end.

(** downloader, findLargestImageFromList *)
Fixpoint findLargestImageFromList (chapter : Chapter) (imageURLs : list string)
    (imagesPath : string) (w : World) : string * World :=
  match imageURLs with
  | [] => (EmptyString, w)
  | imgURL :: imageURLs' =>
      let url := resolveImageURL chapter imgURL in
      if String.eqb url EmptyString then findLargestImageFromList chapter imageURLs' imagesPath w
      else
        match tryVariants (generateCoverURLVariants url) imagesPath w with
        | (Some coverFilename, w) => (coverFilename, w)
        | (None, w) => findLargestImageFromList chapter imageURLs' imagesPath w
        end
  end.

(** downloader, findCoverInChapters: the loop over the first three
    chapters, from index [i] on. *)
Fixpoint findCover_loop (rest : list Chapter) (i : nat) (chapters : list Chapter)
    (imagesPath : string) (w : World) : string * list Chapter * World :=
  match rest with
  | [] => (EmptyString, chapters, w)
  | ch :: rest' =>
      if negb (i <? 3)%nat then (EmptyString, chapters, w)
      else if strings.Contains (strings.ToLower (ch_Title ch)) "cover"
              || strings.Contains (strings.ToLower (ch_Filename ch)) "cover"
      then
        let '(resp, w) := GET server (ch_Content ch) w in
        match resp with
        | Some resp =>
            if IsSuccess resp then
              let ch := set_Content (Body resp) ch in
              let chapters := <[i := ch]> chapters in
              if (0 <? length (ch_Images ch))%nat
              then let '(name, w) := findLargestImageFromList ch (ch_Images ch) imagesPath w in
                   (name, chapters, w)
              else findCover_loop rest' (S i) chapters imagesPath w
            else findCover_loop rest' (S i) chapters imagesPath w
        | None => findCover_loop rest' (S i) chapters imagesPath w
        end
      else findCover_loop rest' (S i) chapters imagesPath w
  end.

(** downloader, findCoverInChapters *)
Definition findCoverInChapters (chapters : list Chapter) (imagesPath : string) (w : World)
  : string * list Chapter * World :=
  findCover_loop chapters 0 chapters imagesPath w.

(** One [<item .../>] line of the manifest. *)
Definition manifestItem (id href mediaType : string) : string :=
  "<item " +:+ attr "id" id +:+ " " +:+ attr "href" href +:+ " " +:+
  attr "media-type" mediaType +:+ " />" +:+ nl.

(** One [<itemref .../>] line of the spine. *)
Definition spineItem (id : string) : string :=
  "<itemref " +:+ attr "idref" id +:+ "/>" +:+ nl.

(** [for i, x := range xs]: the elements with their indices. *)
Definition indexed {A} (xs : list A) : list (nat * A) :=
  combine (seq 0 (length xs)) xs.

(** downloader, writeEPUBMetadata: the manifest and spine lines of the
    cover page and of the chapters. *)
Definition chapterManifest (chapters : list Chapter) (coverFilename : string) : string * string :=
  let start :=
    if negb (String.eqb coverFilename EmptyString)
    then (manifestItem "cover" "cover.xhtml" "application/xhtml+xml", spineItem "cover")
    else (EmptyString, EmptyString) in
  fold_left (fun (ms : string * string) (ic : nat * Chapter) =>
               let id := "ch" +:+ pretty (fst ic) in
               (fst ms +:+ manifestItem id (ch_Filename (snd ic)) "application/xhtml+xml",
                snd ms +:+ spineItem id))
            (indexed chapters) start.

(** downloader, writeEPUBMetadata: the manifest lines of the images,
    and [hasCover]. *)
Definition imageManifest (entries : list (string * bool)) (coverFilename : string)
  : string * bool :=
  fold_left (fun (mh : string * bool) (ie : nat * (string * bool)) =>
               let '(idx, (name, isDir)) := ie in
               if isDir then mh
               else
                 let ext := strings.ToLower (path.Ext name) in
                 let mediaType := getImageMediaType ext in
                 if String.eqb name coverFilename
                 then (fst mh +:+ manifestItem "cover-image" ("Images/" +:+ name) mediaType, true)
                 else (fst mh +:+ manifestItem ("img" +:+ pretty idx) ("Images/" +:+ name) mediaType,
                       snd mh))
            (indexed entries) (EmptyString, false).

Definition dcCreators (bookInfo : BookInfo) : string :=
  let authors :=
    fold_left (fun acc author =>
                 acc +:+ "<dc:creator>" +:+ escapeXML (Name author) +:+ "</dc:creator>" +:+ nl)
              (Authors bookInfo) EmptyString in
  if String.eqb authors EmptyString then "<dc:creator>Unknown</dc:creator>" +:+ nl
  else authors.

Fixpoint firstPublisher (pubs : list namedEntity) : string :=
  match pubs with
  | [] => EmptyString
  | pub :: pubs' =>
      if negb (String.eqb (Name pub) EmptyString) then escapeXML (Name pub)
      else firstPublisher pubs'
  end.

Definition contentOPF (bookInfo : BookInfo) (manifest spine : string) (hasCover : bool) : string :=
  let authors := dcCreators bookInfo in
  let publishers := firstPublisher (Publishers bookInfo) in
  let publishers := if String.eqb publishers EmptyString then "Unknown" else publishers in
  let description := escapeXML (Description bookInfo) in
  let description :=
    if String.eqb description EmptyString then "No description available" else description in
  let coverMeta :=
    if hasCover
    then "<meta " +:+ attr "name" "cover" +:+ " " +:+ attr "content" "cover-image" +:+ "/>" +:+ nl
    else EmptyString in
  "<?xml " +:+ attr "version" "1.0" +:+ "?>" +:+ nl +:+
  "<package " +:+ attr "xmlns" "http://www.idpf.org/2007/opf" +:+ " " +:+
    attr "version" "2.0" +:+ " " +:+ attr "unique-identifier" "bookid" +:+ ">" +:+ nl +:+
  "<metadata " +:+ attr "xmlns:dc" "http://purl.org/dc/elements/1.1/" +:+ " " +:+
    attr "xmlns:opf" "http://www.idpf.org/2007/opf" +:+ ">" +:+ nl +:+
  "<dc:title>" +:+ escapeXML (Title bookInfo) +:+ "</dc:title>" +:+ nl +:+
  authors +:+ "<dc:publisher>" +:+ publishers +:+ "</dc:publisher>" +:+ nl +:+
  "<dc:description>" +:+ description +:+ "</dc:description>" +:+ nl +:+
  "<dc:language>en</dc:language>" +:+ nl +:+
  "<dc:identifier " +:+ attr "id" "bookid" +:+ ">" +:+
    firstNonEmpty [ISBN bookInfo; Identifier bookInfo; bookID d] +:+ "</dc:identifier>" +:+ nl +:+
  "<dc:date>" +:+ escapeXML (Issued bookInfo) +:+ "</dc:date>" +:+ nl +:+
  coverMeta +:+ "</metadata>" +:+ nl +:+
  "<manifest>" +:+ nl +:+
  manifestItem "ncx" "toc.ncx" "application/x-dtbncx+xml" +:+
  manifest +:+ "</manifest>" +:+ nl +:+
  "<spine " +:+ attr "toc" "ncx" +:+ ">" +:+ spine +:+ "</spine>" +:+ nl +:+
  "</package>".

Definition navPoint (i : nat) (ch : Chapter) : string :=
  "<navPoint " +:+ attr "id" ("ch" +:+ pretty i) +:+ " " +:+
    attr "playOrder" (pretty (i + 1)%nat) +:+ ">" +:+ nl +:+
  "<navLabel><text>" +:+ escapeXML (ch_Title ch) +:+ "</text></navLabel>" +:+ nl +:+
  "<content " +:+ attr "src" (ch_Filename ch) +:+ "/>" +:+ nl +:+
  "</navPoint>" +:+ nl.

Definition tocNCX (bookInfo : BookInfo) (chapters : list Chapter) : string :=
  let tocAuthors :=
    fold_left (fun acc author => acc +:+ escapeXML (Name author) +:+ ", ")
              (Authors bookInfo) EmptyString in
  let tocAuthors := strings.TrimSuffix tocAuthors ", " in
  let tocAuthors := if String.eqb tocAuthors EmptyString then "Unknown" else tocAuthors in
  let navMap :=
    fold_left (fun acc (ic : nat * Chapter) => acc +:+ navPoint (fst ic) (snd ic))
              (indexed chapters) EmptyString in
  "<?xml " +:+ attr "version" "1.0" +:+ "?>" +:+ nl +:+
  "<!DOCTYPE ncx PUBLIC " +:+ quote +:+ "-//NISO//DTD ncx 2005-1//EN" +:+ quote +:+ " " +:+
    quote +:+ "http://www.daisy.org/z3986/2005/ncx-2005-1.dtd" +:+ quote +:+ ">" +:+ nl +:+
  "<ncx " +:+ attr "xmlns" "http://www.daisy.org/z3986/2005/ncx/" +:+ " " +:+
    attr "version" "2005-1" +:+ ">" +:+ nl +:+
  "<head>" +:+ nl +:+
  "<meta " +:+ attr "name" "dtb:uid" +:+ " " +:+
    attr "content" (firstNonEmpty [ISBN bookInfo; bookID d]) +:+ "/>" +:+ nl +:+
  "</head>" +:+ nl +:+
  "<docTitle><text>" +:+ escapeXML (Title bookInfo) +:+ "</text></docTitle>" +:+ nl +:+
  "<docAuthor><text>" +:+ tocAuthors +:+ "</text></docAuthor>" +:+ nl +:+
  "<navMap>" +:+ nl +:+
  navMap +:+ "</navMap>" +:+ nl +:+
  "</ncx>".

(** downloader, writeEPUBMetadata (it returns no error of its own; the
    results of the two writes are dropped). *)
Definition writeEPUBMetadata (bookInfo : BookInfo) (chapters : list Chapter)
    (oebpsPath coverFilename : string) (w : World) : World :=
  let '(manifest, spine) := chapterManifest chapters coverFilename in
  let imagesPath := path.Join [oebpsPath; "Images"] in
  let '(images, hasCover) :=
    match ReadDir imagesPath w with
    | Some entries => imageManifest entries coverFilename
    | None => (EmptyString, false)
    end in
  let manifest := manifest +:+ images in
  let w := snd (WriteFile (path.Join [oebpsPath; "content.opf"])
                          (Bytes (contentOPF bookInfo manifest spine hasCover)) w) in
  snd (WriteFile (path.Join [oebpsPath; "toc.ncx"]) (Bytes (tocNCX bookInfo chapters)) w).

Definition coverPage (coverFilename : string) : string :=
  "<?xml " +:+ attr "version" "1.0" +:+ " " +:+ attr "encoding" "utf-8" +:+ "?>" +:+ nl +:+
  "<!DOCTYPE html>" +:+ nl +:+
  "<html " +:+ attr "xmlns" "http://www.w3.org/1999/xhtml" +:+ ">" +:+ nl +:+
  "<head>" +:+ nl +:+
  "<title>Cover</title>" +:+ nl +:+
  "<style " +:+ attr "type" "text/css" +:+ ">" +:+ nl +:+
  "img { max-width: 100%; height: auto; }" +:+ nl +:+
  "</style>" +:+ nl +:+
  "</head>" +:+ nl +:+
  "<body>" +:+ nl +:+
  "<div " +:+ attr "style" "text-align:center;" +:+ ">" +:+ nl +:+
  "<img " +:+ attr "src" ("Images/" +:+ coverFilename) +:+ " " +:+ attr "alt" "Cover" +:+ "/>" +:+ nl +:+
  "</div>" +:+ nl +:+
  "</body>" +:+ nl +:+
  "</html>".

Definition containerXML : string :=
  "<?xml " +:+ attr "version" "1.0" +:+ "?>" +:+ nl +:+
  "<container " +:+ attr "version" "1.0" +:+ " " +:+
    attr "xmlns" "urn:oasis:names:tc:opendocument:xmlns:container" +:+ ">" +:+ nl +:+
  "<rootfiles>" +:+ nl +:+
  "<rootfile " +:+ attr "full-path" "OEBPS/content.opf" +:+ " " +:+
    attr "media-type" "application/oebps-package+xml" +:+ " />" +:+ nl +:+
  "</rootfiles>" +:+ nl +:+
  "</container>".

(** downloader, generateEPUB *)
Definition generateEPUB (bookInfo : BookInfo) (chapters : list Chapter) (bookPath : string)
    (w : World) : option error * World :=
  let oebpsPath := path.Join [bookPath; "OEBPS"] in
  let imagesPath := path.Join [oebpsPath; "Images"] in
  let '(coverFilename, chapters, w) :=
    if negb (String.eqb (Cover bookInfo) EmptyString)
    then let '(name, w) := downloadLargestCover (Cover bookInfo) imagesPath w in
         (name, chapters, w)
    else findCoverInChapters chapters imagesPath w in
  let w :=
    if negb (String.eqb coverFilename EmptyString)
    then snd (WriteFile (path.Join [oebpsPath; "cover.xhtml"]) (Bytes (coverPage coverFilename)) w)
    else w in
  let w := snd (WriteFile (path.Join [bookPath; "mimetype"]) (Bytes "application/epub+zip") w) in
  let metaInf := path.Join [bookPath; "META-INF"] in
  let w := snd (MkdirAll metaInf w) in
  let w := snd (WriteFile (path.Join [metaInf; "container.xml"]) (Bytes containerXML) w) in
  let w := writeEPUBMetadata bookInfo chapters oebpsPath coverFilename w in
  let zipPath := bookPath +:+ ".zip" in
  let '(ok, w) := ZipDirectory bookPath zipPath w in
  if negb ok then (Some ErrCreateZip, w)
  else
    let epubPath := path.Join [bookPath; path.Base bookPath +:+ ".epub"] in
    let '(ok, w) := Rename zipPath epubPath w in
    if ok then (None, w) else (Some ErrRename, w).

(** downloader, Run. [fuel] bounds the walk of the chapter index and
    [sched] is the order in which the chapter workers run; [None] means
    that the fuel ran out. *)
Definition Run (fuel : nat) (sched : list nat) (w : World) : option (option error) * World :=
  match GetBookInfo server (bookID d) w with
  | (inl e, w) => (Some (Some e), w)
  | (inr bookInfo, w) =>
      match GetBookChapters server fuel (bookID d) w with
      | (None, w) => (None, w)
      | (Some (inl e), w) => (Some (Some e), w)
      | (Some (inr chapters), w) =>
          match createBookDirectory d bookInfo w with
          | (inl e, w) => (Some (Some e), w)
          | (inr bookPath, w) =>
              match downloadChapters sched bookPath chapters w with
              | (_, Some e, w) => (Some (Some e), w)
              | (chapters, None, w) =>
                  let '(err, w) := generateEPUB bookInfo chapters bookPath w in
                  (Some err, w)
              end
          end
      end
  end.

End Downloader.

(** ** Collaborators for the scenarios

    The concrete examples below need the library interfaces at a few
    inputs. [Scenario.plainURL] reads URLs of the plain shape
    [scheme://host/path?query#fragment] (and relative references)
    without escapes, ports or user information, where it agrees with
    [net/url]; the HTML front end and the JSON decoder of a scenario are
    given by the table of the pages the scenario serves. *)

Module Scenario.

Record PlainURL := {
  p_Scheme : string;
  p_Host : string;
  p_Path : string
}.

Fixpoint upTo (stop : ascii -> bool) (s : string) : string :=
  match s with
  | EmptyString => EmptyString
  | String c s' => if stop c then EmptyString else String c (upTo stop s')
  end.

Definition isSchemeChar (c : ascii) : bool :=
  let n := nat_of_ascii c in
  ((97 <=? n) && (n <=? 122) || (65 <=? n) && (n <=? 90) || (48 <=? n) && (n <=? 57)
   || (n =? 43) || (n =? 45) || (n =? 46))%nat.

Fixpoint allChars (f : ascii -> bool) (s : string) : bool :=
  match s with
  | EmptyString => true
  | String c s' => f c && allChars f s'
  end.

Definition isLetter (s : string) : bool :=
  match s with
  | EmptyString => false
  | String c _ =>
      let n := nat_of_ascii c in
      ((97 <=? n) && (n <=? 122) || (65 <=? n) && (n <=? 90))%nat
  end.

Definition plainParse (raw : string) : option PlainURL :=
  let noFrag := upTo (fun c => Ascii.eqb c "#"%char) raw in
  let noQuery := upTo (fun c => Ascii.eqb c "?"%char) noFrag in
  let first := upTo (fun c => Ascii.eqb c ":"%char || Ascii.eqb c "/"%char) noQuery in
  let afterFirst := strings.slice_from noQuery (String.length first) in
  if strings.HasPrefix afterFirst ":" then
    if String.eqb first EmptyString then None
    else if negb (allChars isSchemeChar first && isLetter first) then None
    else
      let rest := strings.slice_from afterFirst 1 in
      if strings.HasPrefix rest "//" then
        let authority := upTo path.isSlash (strings.slice_from rest 2) in
        Some {| p_Scheme := strings.ToLower first;
                p_Host := authority;
                p_Path := strings.slice_from rest (2 + String.length authority) |}
      else if strings.HasPrefix rest "/" then
        Some {| p_Scheme := strings.ToLower first; p_Host := EmptyString; p_Path := rest |}
      else Some {| p_Scheme := strings.ToLower first; p_Host := EmptyString; p_Path := EmptyString |}
  else if strings.HasPrefix noQuery "//" then
    let authority := upTo path.isSlash (strings.slice_from noQuery 2) in
    Some {| p_Scheme := EmptyString;
            p_Host := authority;
            p_Path := strings.slice_from noQuery (2 + String.length authority) |}
  else Some {| p_Scheme := EmptyString; p_Host := EmptyString; p_Path := noQuery |}.

Definition plainResolve (base ref : PlainURL) : string :=
  if negb (String.eqb (p_Scheme ref) EmptyString)
  then p_Scheme ref +:+ "://" +:+ p_Host ref +:+ p_Path ref
  else if negb (String.eqb (p_Host ref) EmptyString)
  then p_Scheme base +:+ "://" +:+ p_Host ref +:+ p_Path ref
  else if strings.HasPrefix (p_Path ref) "/"
  then p_Scheme base +:+ "://" +:+ p_Host base +:+ path.Clean (p_Path ref)
  else p_Scheme base +:+ "://" +:+ p_Host base +:+
       path.Clean ("/" +:+ String.substring 0 (String.length (p_Path base)
                                            - String.length (path.afterLastSlash (p_Path base)))
                                         (p_Path base) +:+ p_Path ref).

Definition plainURL : NetURL := {|
  URL := PlainURL;
  url_Parse := plainParse;
  url_Scheme := p_Scheme;
  url_Host := p_Host;
  url_Path := p_Path;
  url_ResolveReference := plainResolve
|}.

(** A table as a function: the value of the first entry with the key. *)
Fixpoint tableLookup {A} (table : list (string * A)) (key : string) : option A :=
  match table with
  | [] => None
  | (k, v) :: table' => if String.eqb key k then Some v else tableLookup table' key
  end.

(** The content element of a page: [div#sbo-rt-content] around the
    given children. *)
Definition contentDiv (children : list Node) : Node :=
  mkNode ElementNode "div" [ {| Key := "id"; Val := "sbo-rt-content" |} ] children.

Definition text (s : string) : Node := mkNode TextNode s [] [].

(** The front end that knows the pages of the table; any other text is
    a document without stylesheets, styles or content element. *)
Definition frontEnd (pages : list (string * ChapterDOM)) : HTMLFrontEnd :=
  {| goquery_NewDocument := fun html =>
       Some (default {| dom_links := []; dom_styles := []; dom_content := None |}
                     (tableLookup pages html)) |}.

(** The decoder that knows the bodies of the two tables. *)
Definition decoder (books : list (string * BookInfo)) (indexes : list (string * ChapterResponse))
  : JSONDecoder :=
  {| json_BookInfo := tableLookup books; json_ChapterResponse := tableLookup indexes |}.

(** The site that serves the pages of the table with status 200 and
    answers 404 elsewhere. *)
Definition site (pages : list (string * string)) : Server :=
  fun url => match tableLookup pages url with
             | Some body => Some {| StatusCode := 200; Body := body |}
             | None => Some {| StatusCode := 404; Body := "not found" |}
             end.

Definition emptyWorld : World := {| fs_files := ∅; fs_dirs := ∅; net_log := [] |}.

Definition chapter (title filename content : string) (styles : list string) : Chapter :=
  {| ch_Title := title; ch_Filename := filename; ch_Content := content;
     ch_AssetBaseURL := "https://learning.oreilly.com/library/view/book/1/";
     ch_Images := [];
     ch_Stylesheets := map (fun u => {| sheet_URL := u |}) styles;
     ch_SiteStyles := [] |}.

End Scenario.

(** ** Package [pkg/utils]: the cookies file *)

(** The two fields of a J2TeamCookie or BrowserCookie that LoadCookies
    reads. *)
Record Cookie := { c_Name : string; c_Value : string }.

(** [json.Unmarshal] of the bytes of the file into the three targets of
    LoadCookies: a J2TeamCookiesFile (of which the cookies are read), a
    slice of BrowserCookie and a map from strings to strings; [None] is
    its error. *)
Class CookieDecoder := {
  json_J2TeamCookiesFile : string -> option (list Cookie);
  json_BrowserCookies : string -> option (list Cookie);
  json_CookieMap : string -> option (gmap string string)
}.

Inductive CookieError :=
  | ErrReadFile            (* os.ReadFile *)
  | ErrUnsupportedFormat   (* unsupported cookie format *)
  | ErrEmptyCookies.       (* cookies file is empty *)

(** The loop of the two list formats: every cookie is stored under its
    name, in the order of the list. *)
Definition cookieMap (cookies : list Cookie) : gmap string string :=
  fold_left (fun m cookie => <[c_Name cookie := c_Value cookie]> m) cookies ∅.

Section Cookies.

Context `{CookieDecoder}.

(** [os.ReadFile]: the bytes of the file, [None] is its error. *)
Variable ReadFile : string -> option string.

(** utils.go, LoadCookies *)
Definition LoadCookies (path : string) : CookieError + gmap string string :=
  match ReadFile path with
  | None => inl ErrReadFile
  | Some data =>
      let cookieEditor :=
        match json_CookieMap data with
        | None => inl ErrUnsupportedFormat
        | Some cookies => if (size cookies =? 0)%nat then inl ErrEmptyCookies else inr cookies
        end in
      let browser :=
        match json_BrowserCookies data with
        | Some browserCookies =>
            if (0 <? length browserCookies)%nat then inr (cookieMap browserCookies)
            else cookieEditor
        | None => cookieEditor
        end in
      match json_J2TeamCookiesFile data with
      | Some j2team =>
          if (0 <? length j2team)%nat then inr (cookieMap j2team) else browser
      | None => browser
      end
  end.

End Cookies.

(** * The specification's wording

    Where a sentence of the specification describes a function, the
    function is written down here from the sentence, next to the
    concrete data of the scenarios; the properties below compare these
    definitions with the ones taken from the sources. *)

(** ** Auxiliary notions *)

(** The last byte of a string. *)
Fixpoint lastByte (s : string) : option ascii :=
  match s with
  | EmptyString => None
  | String c EmptyString => Some c
  | String _ s' => lastByte s'
  end.

(** The request log grows, the file system is not touched. *)
Definition sameFiles (w w' : World) : Prop :=
  fs_files w' = fs_files w /\ fs_dirs w' = fs_dirs w.

(** ** Session check *)

(** The session check as the specification words it: it fails if and
    only if the status is not 2xx or the body holds the marker. *)
Definition sessionCheck_as_specified (server : Server) : Prop :=
  forall w resp, server profileURL = Some resp ->
    (fst (ensureAuthenticated server w) <> None
     <-> (IsSuccess resp = false \/ strings.Contains (Body resp) expiredMarker = true)).

(** A profile answer with status 204 and no body, and the site that
    gives it. *)
Definition noContent204 : Response := {| StatusCode := 204; Body := EmptyString |}.

Definition profile204 : Server := fun _ => Some noContent204.

(** The profile answer of S7: status 200, an expired subscription. *)
Definition expiredProfile : Server :=
  fun _ => Some {| StatusCode := 200;
                   Body := "{" +:+ quote +:+ expiredMarker +:+ "}" |}.

(** ** Cover variants (section 4.5 of the specification) *)

(** The size tokens as the specification lists them. *)
Definition specSizeTokens : list string :=
  [ "1200w"; "800w"; "600w"; "600w-proxy"; "500w"; "400w"; "200w";
    "large"; "medium"; "small"; "thumb" ].

(** "Substitute the matched token with 600w and try the substituted URL
    first, then the original; otherwise yield url/600w/ then the
    original." *)
Definition coverVariants_as_specified (url : string) : list string :=
  match List.find (fun t => strings.Contains url t) specSizeTokens with
  | Some t => [strings.ReplaceAll url t "600w"; url]
  | None => [url +:+ "/600w/"; url]
  end.

(** ** The book directory (section 4.6 of the specification) *)

(** "sanitized(title) (bookID)", the bookID standing in for an empty
    title, with no other truncation. *)
Definition rootName_as_specified (d : Downloader) (bookInfo : BookInfo) : string :=
  (if String.eqb (Title bookInfo) EmptyString then bookID d
   else EscapeDirname (Title bookInfo)) +:+ " (" +:+ bookID d +:+ ")".

(** The text before the first comma. *)
Fixpoint upToComma (s : string) : string :=
  match s with
  | EmptyString => EmptyString
  | String c s' => if Ascii.eqb c ","%char then EmptyString else String c (upToComma s')
  end.

Definition bookNamed (title : string) : BookInfo :=
  {| Title := title; Description := EmptyString; WebURL := EmptyString;
     Identifier := EmptyString; ISBN := EmptyString; Issued := EmptyString;
     Rights := EmptyString; Cover := EmptyString;
     Authors := []; Publishers := []; Subjects := [] |}.

(** The downloader of the scenarios: book 1, output directory Books. *)
Definition demoDownloader (kindle : bool) : Downloader :=
  {| bookID := "1"; cookiesPath := "cookies.json"; booksDir := "Books";
     d_kindleMode := kindle; siteURL := "learning.oreilly.com" |}.

(** ** The page and its style block (section 4.3 of the specification) *)

(** base_style, as the specification gives it. *)
Definition base_style_as_specified : string :=
  "body{margin:1em;background-color:transparent!important;}#sbo-rt-content *{text-indent:0pt!important;}#sbo-rt-content .bq{margin-right:1em!important;}".

(** The ruleset that the specification appends when Kindle mode is
    off. *)
Definition extra_rules_as_specified : string :=
  "#sbo-rt-content *{word-wrap:break-word!important;word-break:break-word!important;}#sbo-rt-content table,#sbo-rt-content pre{overflow-x:unset!important;overflow:unset!important;overflow-y:unset!important;white-space:pre-wrap!important;}".

(** The first three lines of the final page template: the doctype, the
    html tag and the opening of the head. *)
Definition pageTop_as_specified : string :=
  "<!DOCTYPE html>" +:+ nl +:+
  "<html lang=" +:+ quote +:+ "en" +:+ quote +:+
  " xml:lang=" +:+ quote +:+ "en" +:+ quote +:+
  " xmlns=" +:+ quote +:+ "http://www.w3.org/1999/xhtml" +:+ quote +:+
  " xmlns:xsi=" +:+ quote +:+ "http://www.w3.org/2001/XMLSchema-instance" +:+ quote +:+
  " xsi:schemaLocation=" +:+ quote +:+
    "http://www.w3.org/2002/06/xhtml2/ http://www.w3.org/MarkUp/SCHEMA/xhtml2.xsd" +:+ quote +:+
  " xmlns:epub=" +:+ quote +:+ "http://www.idpf.org/2007/ops" +:+ quote +:+ ">" +:+ nl +:+
  "<head>" +:+ nl.

(** The opening tag of the style block of the template. *)
Definition styleOpen : string := "<style type=" +:+ quote +:+ "text/css" +:+ quote +:+ ">".

(** The final page template: the collected CSS, then the style block
    that closes the head, then the body around the content. *)
Definition page_as_specified (css style content : string) : string :=
  pageTop_as_specified +:+ css +:+ nl +:+
  styleOpen +:+ style +:+ "</style></head>" +:+ nl +:+
  "<body>" +:+ content +:+ "</body>" +:+ nl +:+
  "</html>".

(** ** The link-rewrite rule (section 4.3 of the specification) *)





Section LinkRule.

Context `{NetURL}.






End LinkRule.

(** ** Pages of the scenarios *)

Definition pageOne : string := "<html><body><div id=sbo-rt-content><p>one</p></div></body></html>".

Definition pageTwo : string := "<html><body><div id=sbo-rt-content><p>two</p></div></body></html>".

Definition paragraph (s : string) : Node := mkNode ElementNode "p" [] [Scenario.text s].

Definition domOf (s : string) : ChapterDOM :=
  {| dom_links := []; dom_styles := [];
     dom_content := Some (Scenario.contentDiv [paragraph s]) |}.

Definition demoFrontEnd : HTMLFrontEnd :=
  Scenario.frontEnd [ (pageOne, domOf "one"); (pageTwo, domOf "two") ].

(** ** The chapter index (section 4.2 of the specification) *)

(** "Chapters whose filename or title (case-insensitively) contains
    cover are emitted first, in their original relative order, followed
    by the remainder in original order": a stable partition of the
    page. *)
Definition promotePage (page : list Chapter) : list Chapter :=
  let '(covers, others) := List.partition isCoverChapter page in
  (covers ++ others)%list.

(** The cursor after a page: its [next] field, empty when it is null. *)
Definition nextCursor (payload : ChapterResponse) : string :=
  default EmptyString (Next payload).

Section IndexWalk.

Context `{JSONDecoder}.
Variable server : Server.

(** [indexWalk u pages u']: from the cursor [u] on the site serves the
    pages [pages], each as a 2xx answer that decodes to a non-empty
    list of results, and the cursor after the last of them is [u']
    (empty when the index ends there). *)
Inductive indexWalk : string -> list (list Chapter) -> string -> Prop :=
  | walk_done (u : string) : indexWalk u [] u
  | walk_page (u : string) (resp : Response) (payload : ChapterResponse)
      (pages : list (list Chapter)) (u' : string) :
      u <> EmptyString ->
      server u = Some resp ->
      IsSuccess resp = true ->
      json_ChapterResponse (Body resp) = Some payload ->
      Results payload <> [] ->
      indexWalk (nextCursor payload) pages u' ->
      indexWalk u (Results payload :: pages) u'.

End IndexWalk.

(** The index of S5: two pages, [a, b(cover)] then [c(cover), d]. *)
Definition chA : Chapter := Scenario.chapter "Preface" "a.html" "https://site/a" [].
Definition chB : Chapter := Scenario.chapter "Cover" "b.html" "https://site/b" [].
Definition chC : Chapter := Scenario.chapter "Plates" "cover-c.html" "https://site/c" [].
Definition chD : Chapter := Scenario.chapter "Index" "d.html" "https://site/d" [].

Definition page2URL : string := "https://learning.oreilly.com/api/v1/book/1/chapter/?page=2".

Definition S5_site : Server :=
  Scenario.site [ (chaptersURL "1", "first page"); (page2URL, "second page") ].

Definition S5_decoder : JSONDecoder :=
  Scenario.decoder []
    [ ("first page", {| Count := 4; Next := Some page2URL; Results := [chA; chB] |});
      ("second page", {| Count := 4; Next := None; Results := [chC; chD] |}) ].

(** The same index with a second page that has no results. *)
Definition emptyPage_decoder : JSONDecoder :=
  Scenario.decoder []
    [ ("first page", {| Count := 4; Next := Some page2URL; Results := [chA; chB] |});
      ("second page", {| Count := 4; Next := None; Results := [] |}) ].

(** ** The stylesheet registry (section 3 of the specification) *)

(** The URLs in the order of their first occurrence, after those
    already [seen]. *)
Fixpoint firstOccurrences_from (seen urls : list string) : list string :=
  match urls with
  | [] => seen
  | u :: urls' =>
      if bool_decide (u ∈ seen) then firstOccurrences_from seen urls'
      else firstOccurrences_from (seen ++ [u])%list urls'
  end.

Definition firstOccurrences (urls : list string) : list string :=
  firstOccurrences_from [] urls.

(** Registering the URLs one after the other: the indices returned and
    the parser after. *)
Fixpoint registerAll (urls : list string) (p : Parser) : list nat * Parser :=
  match urls with
  | [] => ([], p)
  | u :: urls' =>
      let '(k, p) := ensureCSS u p in
      let '(ks, p) := registerAll urls' p in
      (k :: ks, p)
  end.

(** The [<link>] lines of the indices, and the style blocks of a
    document, as they stand in the page. *)
Definition linkLines (idxs : list nat) : string :=
  fold_right (fun k acc => cssLink k +:+ acc) EmptyString idxs.

Definition styleLines (styles : list string) : string :=
  fold_right (fun css acc => css +:+ nl +:+ acc) EmptyString styles.

(** A registry that is consistent: the list has no duplicates and the
    map sends a URL to its position in the list. *)
Definition registryOK (p : Parser) : Prop :=
  NoDup (cssList p)
  /\ forall u k, cssIndex p !! u = Some k <-> cssList p !! k = Some u.

Section StyleURLs.

Context `{NetURL}.

Definition nonEmpty (s : string) : bool := negb (String.eqb s EmptyString).

(** The absolute URLs that ParseChapter registers for a chapter, in the
    order of registration: the stylesheets and the site styles of the
    chapter that are not empty, resolved against the asset base, then
    the stylesheet links of the document, resolved against the book
    URL. *)
Definition chapterStyleURLs (bookURL : string) (chapter : Chapter) (doc : ChapterDOM)
  : list string :=
  (map (fun sheet => ResolveURL (ch_AssetBaseURL chapter) (sheet_URL sheet))
       (List.filter (fun sheet => nonEmpty (sheet_URL sheet)) (ch_Stylesheets chapter))
   ++ map (ResolveURL (ch_AssetBaseURL chapter))
          (List.filter nonEmpty (ch_SiteStyles chapter))
   ++ map (ResolveURL bookURL) (dom_links doc))%list.

End StyleURLs.

(** Two chapters with one stylesheet each, not the same, served by the
    site of the scenario. *)
Definition cssA : string := "https://learning.oreilly.com/static/a.css".

Definition cssB : string := "https://learning.oreilly.com/static/b.css".

Definition contentURL (name : string) : string :=
  "https://learning.oreilly.com/api/v1/book/1/chapter-content/" +:+ name.

Definition chOne : Chapter :=
  Scenario.chapter "One" "ch1.html" (contentURL "ch1.html") [cssA].

Definition chTwo : Chapter :=
  Scenario.chapter "Two" "ch2.html" (contentURL "ch2.html") [cssB].

Definition demoSite : Server :=
  Scenario.site
    [ ("https://learning.oreilly.com/api/v1/book/1/", "book 1");
      (chaptersURL "1", "index of book 1");
      (contentURL "ch1.html", pageOne);
      (contentURL "ch2.html", pageTwo);
      (cssA, "a{}");
      (cssB, "b{}") ].

Definition demoDecoder : JSONDecoder :=
  Scenario.decoder
    [ ("book 1", bookNamed "T") ]
    [ ("index of book 1", {| Count := 2; Next := None; Results := [chOne; chTwo] |}) ].

(** The books directory exists when the downloader starts. *)
Definition startWorld : World :=
  {| fs_files := ∅; fs_dirs := {[ "Books" ]}; net_log := [] |}.

(** The body of the pages of the scenario after the transformation. *)
Definition bodyOf (s : string) : string :=
  "<div " +:+ attr "id" "sbo-rt-content" +:+ "><p>" +:+ s +:+ "</p></div>".

(** The CSS lines of the page of a chapter whose content is already
    fetched, from the parser of a new worker. *)
Definition pageCSSOf (chapter : Chapter) : option string :=
  match snd (@ParseChapter Scenario.plainURL demoFrontEnd
               (NewParser "https://learning.oreilly.com" false) chapter false) with
  | inr (css, _) => Some css
  | inl _ => None
  end.

(** The chapter Two with its content fetched. *)
Definition chTwoParsed : Chapter := set_Content pageTwo chTwo.

(** A document with three stylesheet links, the second with an empty
    href, and a chapter that lists a.css in its metadata. *)
Definition linkedDOM : ChapterDOM :=
  {| dom_links := [cssB; EmptyString; cssA];
     dom_styles := [];
     dom_content := Some (Scenario.contentDiv [paragraph "linked"]) |}.

Definition linkedFrontEnd : HTMLFrontEnd := Scenario.frontEnd [ ("linked", linkedDOM) ].

Definition chLinked : Chapter := Scenario.chapter "Linked" "linked.html" "linked" [cssA].

(** The world after the book directory of the scenario is created. *)
Definition bookWorld : World :=
  snd (createBookDirectory (demoDownloader false) (bookNamed "T") startWorld).

(** The chapters of the scenario processed in index order. *)
Definition demoChapters : list Chapter * option error * World :=
  @downloadChapters Scenario.plainURL demoFrontEnd demoSite (demoDownloader false)
    [0; 1]%nat "Books/T (1)" [chOne; chTwo] bookWorld.

(** ** Chapters one by one (section 4.4 of the specification) *)

Section ChapterAlone.

Context `{NetURL} `{HTMLFrontEnd}.
Variable server : Server.
Variable d : Downloader.

(** The file a chapter is written to. *)
Definition chapterTarget (bookPath : string) (chapter : Chapter) : string :=
  path.Clean (path.Join [path.Join [bookPath; "OEBPS"];
                         strings.ReplaceAll (ch_Filename chapter) ".html" ".xhtml"]).

(** The chapter of index [i] can be processed on its own in the world
    [w]: its content is served with a 2xx status, the page has its
    content element, and the target file can be written. *)
Definition chapterOK (bookPath : string) (w : World) (i : nat) (chapter : Chapter) : bool :=
  match server (ch_Content chapter) with
  | Some resp =>
      IsSuccess resp
      && match snd (ParseChapter (NewParser ("https://" +:+ siteURL d) (d_kindleMode d))
                      (set_Content (Body resp) chapter) (i =? 0)%nat) with
         | inr _ => true
         | inl _ => false
         end
      && is_dir w (path.Dir (chapterTarget bookPath chapter))
      && negb (is_dir w (chapterTarget bookPath chapter))
  | None => false
  end.

(** The page that the worker of the chapter of index [i] produces. *)
Definition chapterPage (i : nat) (chapter : Chapter) : option string :=
  match server (ch_Content chapter) with
  | Some resp =>
      match snd (ParseChapter (NewParser ("https://" +:+ siteURL d) (d_kindleMode d))
                   (set_Content (Body resp) chapter) (i =? 0)%nat) with
      | inr (_, page) => Some page
      | inl _ => None
      end
  | None => None
  end.

End ChapterAlone.

(** Two chapters with the same file name. *)
Definition dupOne : Chapter := Scenario.chapter "One" "ch.html" (contentURL "ch1.html") [].

Definition dupTwo : Chapter := Scenario.chapter "Two" "ch.html" (contentURL "ch2.html") [].

Definition dupChapters (sched : list nat) : list Chapter * option error * World :=
  @downloadChapters Scenario.plainURL demoFrontEnd demoSite (demoDownloader false)
    sched "Books/T (1)" [dupOne; dupTwo] bookWorld.

Definition pageOf (s : string) : Content :=
  Bytes (baseHTMLTemplate EmptyString (baseStyleCSS +:+ kindleCSS) (bodyOf s)).

(** ** A whole run *)

(** The scenario from start to end: book 1 with the chapters One and
    Two, every URL of the site answered with status 200. *)
Definition demoRun : option (option error) * World :=
  @Run Scenario.plainURL demoFrontEnd demoDecoder demoSite (demoDownloader false)
    5 [0; 1]%nat startWorld.

(** The files whose path begins with [dir]. *)
Definition filesUnder (dir : string) (w : World) : list string :=
  List.filter (fun p => strings.HasPrefix p dir) (elements (dom (fs_files w))).

(** Whether a file holds the text. *)
Definition fileMentions (w : World) (p text : string) : bool :=
  match fs_files w !! p with
  | Some (Bytes data) => strings.Contains data text
  | _ => false
  end.

(** ** Further notions used by the properties of the utilities *)

(** The characters that EscapeDirname replaces. *)
Definition escapedChars : list ascii := map fst escapeDirnameTable.

(** The five entities of escapeXML as one replacement table. *)
Definition xmlEntities : list (ascii * string) :=
  [ ("&"%char, "&amp;"); ("<"%char, "&lt;"); (">"%char, "&gt;");
    (dquote, "&quot;"); ("'"%char, "&apos;") ].

(** An index whose only page names itself as the next page. *)
Definition loopDecoder : JSONDecoder :=
  Scenario.decoder []
    [ ("first page", {| Count := 2; Next := Some (chaptersURL "1"); Results := [chA; chB] |}) ].

(** Four chapters, the last of which is the cover. *)
Definition lateCover : list Chapter := [chA; chD; chA; chB].

(** What a chapter worker leaves of a chapter: everything but the
    content and the file name. *)
Definition sameMeta (ch ch' : Chapter) : Prop :=
  ch_Title ch' = ch_Title ch
  /\ ch_AssetBaseURL ch' = ch_AssetBaseURL ch
  /\ ch_Images ch' = ch_Images ch
  /\ ch_Stylesheets ch' = ch_Stylesheets ch
  /\ ch_SiteStyles ch' = ch_SiteStyles ch.

(** A chapter whose content is answered with status 500. *)
Definition chBroken : Chapter :=
  Scenario.chapter "Broken" "broken.html" "https://learning.oreilly.com/missing" [].

Definition brokenSite : Server :=
  fun url => if String.eqb url "https://learning.oreilly.com/missing"
             then Some {| StatusCode := 500; Body := "oops" |}
             else demoSite url.

Section Workers.

Context `{NetURL} `{HTMLFrontEnd}.
Variable server : Server.
Variable d : Downloader.

(** The chapter workers of a schedule, run from a given state (the
    chapters, the first error and the world). *)
Definition workers (bookPath : string) (sched : list nat)
    (st : list Chapter * option error * World) : list Chapter * option error * World :=
  fold_left (fun st i => chapterWorker server d (path.Join [bookPath; "OEBPS"]) bookPath i st)
    sched st.

End Workers.

(** The world of the scenario after its chapters are downloaded. *)
Definition chaptersWorld : World := snd demoChapters.

(** The attributes whose value rewriteLinks rewrites. *)
Definition isLinkAttr (k : string) : bool :=
  String.eqb k "href" || String.eqb k "src" || String.eqb k "data" || String.eqb k "poster"
  || String.eqb k "srcset".

Definition blankAttr (a : Attribute) : Attribute :=
  if isLinkAttr (Key a) then {| Key := Key a; Val := EmptyString |} else a.

(** The tree with the value of every link attribute of an element
    blanked out: what is left is everything rewriteLinks must keep. *)
Fixpoint blankLinks (node : Node) : Node :=
  match node with
  | mkNode ty data attrs children =>
      mkNode ty data
        (match ty with
         | ElementNode => map blankAttr attrs
         | _ => attrs
         end)
        (map blankLinks children)
  end.

(** Induction on a node with the hypothesis for every child. *)
Fixpoint Node_children_ind (P : Node -> Prop)
    (step : forall ty data attrs children,
        Forall P children -> P (mkNode ty data attrs children))
    (node : Node) : P node :=
  match node with
  | mkNode ty data attrs children =>
      step ty data attrs children
        ((fix all (l : list Node) : Forall P l :=
            match l with
            | [] => @List.Forall_nil _ P
            | x :: l' => @List.Forall_cons _ P x l' (Node_children_ind P step x) (all l')
            end) children)
  end.

(** The value stored under a name by the list formats of the cookies
    file: that of the last cookie of the list with the name. *)
Definition lastCookie (name : string) (cookies : list Cookie) : option string :=
  c_Value <$> List.find (fun cookie => String.eqb (c_Name cookie) name) (rev cookies).

(** A browser export with the cookie sid twice; the file is neither a
    J2Team export nor a flat map. *)
Definition exportedCookies : list Cookie :=
  [ {| c_Name := "sid"; c_Value := "old" |};
    {| c_Name := "jwt"; c_Value := "t" |};
    {| c_Name := "sid"; c_Value := "new" |} ].

Definition browserExport : CookieDecoder :=
  {| json_J2TeamCookiesFile := fun _ => None;
     json_BrowserCookies := fun data =>
       if String.eqb data "export" then Some exportedCookies else None;
     json_CookieMap := fun _ => None |}.

Definition cookieFiles : string -> option string :=
  fun p => if String.eqb p "cookies.json" then Some "export" else None.

(** * Properties *)

(** ** Facts about byte strings *)

#[local] Arguments String.append : simpl nomatch.

Lemma append_nil_r (s : string) : s +:+ EmptyString = s.
Proof. induction s as [|c s IH]; simpl; [reflexivity | now rewrite IH]. Qed.

Lemma append_assoc (a b c : string) : (a +:+ b) +:+ c = a +:+ (b +:+ c).
Proof. induction a as [|x a IH]; simpl; [reflexivity | now rewrite IH]. Qed.

Lemma prefix_true_iff (p s : string) :
  String.prefix p s = true <-> exists r, s = p +:+ r.
Proof.
  revert s. induction p as [|c p IH]; intros s.
  - destruct s; simpl; split; eauto.
  - destruct s as [|d s]; simpl.
    + split; [discriminate | intros [r Hr]; discriminate].
    + destruct (ascii_dec c d) as [->|Hne].
      * rewrite IH. split; intros [r Hr]; exists r; congruence.
      * split; [discriminate | intros [r Hr]; congruence].
Qed.

Lemma prefix_append_l (a b s : string) :
  String.prefix (a +:+ b) s = true -> String.prefix a s = true.
Proof.
  rewrite !prefix_true_iff. intros [r ->]. exists (b +:+ r). apply append_assoc.
Qed.

Lemma Contains_unfold (s m : string) :
  strings.Contains s m =
  if String.prefix m s then true
  else match s with
       | EmptyString => false
       | String _ s' => strings.Contains s' m
       end.
Proof. destruct s; reflexivity. Qed.

(** [Contains] is the existence of an occurrence. *)
Lemma Contains_true_iff (s m : string) :
  strings.Contains s m = true <-> exists a b, s = a +:+ m +:+ b.
Proof.
  induction s as [|c s IH]; rewrite Contains_unfold.
  - destruct (String.prefix m EmptyString) eqn:Hp.
    + apply prefix_true_iff in Hp as [r Hr]. split; [|reflexivity].
      intros _. exists EmptyString, r. exact Hr.
    + split; [discriminate|]. intros (a & b & Hab).
      destruct a; [|discriminate]. simpl in Hab.
      assert (String.prefix m EmptyString = true) by (apply prefix_true_iff; eauto).
      congruence.
  - destruct (String.prefix m (String c s)) eqn:Hp.
    + apply prefix_true_iff in Hp as [r Hr]. split; [|reflexivity].
      intros _. exists EmptyString, r. exact Hr.
    + rewrite IH. split.
      * intros (a & b & ->). exists (String c a), b. reflexivity.
      * intros (a & b & Hab). destruct a as [|x a]; simpl in Hab.
        -- assert (String.prefix m (String c s) = true) by (apply prefix_true_iff; eauto).
           congruence.
        -- injection Hab as _ ->. eauto.
Qed.

Lemma Contains_append_l (s a b : string) :
  strings.Contains s (a +:+ b) = true -> strings.Contains s a = true.
Proof.
  rewrite !Contains_true_iff. intros (x & y & ->).
  exists x, (b +:+ y). now rewrite append_assoc.
Qed.

Lemma TrimLeftFunc_suffix (f : ascii -> bool) (s : string) :
  exists r, s = r +:+ strings.TrimLeftFunc f s /\ strings.TrimLeftFunc f r = EmptyString.
Proof.
  induction s as [|c s (r & Hr & Hf)]; simpl.
  - exists EmptyString. auto.
  - destruct (f c) eqn:Hc.
    + exists (String c r). simpl. rewrite Hc. split; [congruence | exact Hf].
    + exists EmptyString. auto.
Qed.

Lemma TrimRightFunc_prefix (f : ascii -> bool) (s : string) :
  exists r, s = strings.TrimRightFunc f s +:+ r.
Proof.
  induction s as [|c s [r Hr]]; simpl.
  - exists EmptyString. reflexivity.
  - destruct (strings.TrimRightFunc f s) as [|x t] eqn:Ht.
    + destruct (f c).
      * exists (String c s). reflexivity.
      * exists s. simpl. simpl in Hr. reflexivity.
    + exists r. simpl. simpl in Hr. congruence.
Qed.

(** A string whose last byte is kept is not touched on the right, and
    neither is anything before it. *)
Lemma TrimRightFunc_keep (f : ascii -> bool) (a : string) (c : ascii) (b : string) :
  f c = false ->
  exists b', strings.TrimRightFunc f (a +:+ String c b) = a +:+ String c b'.
Proof.
  intros Hc. induction a as [|x a [b' IH]]; simpl.
  - destruct (strings.TrimRightFunc f b) as [|y t].
    + rewrite Hc. eauto.
    + eauto.
  - rewrite IH. destruct a; simpl; eauto.
Qed.

Lemma TrimLeftFunc_keep (f : ascii -> bool) (r : string) (c : ascii) (b : string) :
  f c = false -> strings.TrimLeftFunc f r = EmptyString ->
  forall a t, r +:+ t = a +:+ String c b ->
  exists a', t = a' +:+ String c b.
Proof.
  intros Hc. induction r as [|x r IH]; simpl; intros Hr a t Heq.
  - eauto.
  - destruct (f x) eqn:Hx; [|discriminate].
    destruct a as [|y a]; simpl in Heq.
    + injection Heq as -> _. congruence.
    + injection Heq as _ Heq. eauto.
Qed.

Lemma lastByte_split (s : string) (z : ascii) :
  lastByte s = Some z -> exists a, s = a +:+ String z EmptyString.
Proof.
  induction s as [|c s IH]; simpl; [discriminate|].
  destruct s as [|d s].
  - intros [= ->]. exists EmptyString. reflexivity.
  - intros Hl. destruct (IH Hl) as [a Ha]. exists (String c a). simpl. now rewrite Ha.
Qed.

(** Trimming does not create or destroy an occurrence of a text that
    begins and ends with bytes outside the trimmed set. *)
Lemma Contains_Trim (f : ascii -> bool) (s : string) (m0 z : ascii) (m : string) :
  f m0 = false -> lastByte (String m0 m) = Some z -> f z = false ->
  strings.Contains (strings.TrimLeftFunc f (strings.TrimRightFunc f s)) (String m0 m)
  = strings.Contains s (String m0 m).
Proof.
  intros Hm0 Hlast Hz.
  apply lastByte_split in Hlast as [mi Hmi].
  apply eq_true_iff_eq. rewrite !Contains_true_iff. split.
  - intros (a & b & Hab).
    destruct (TrimLeftFunc_suffix f (strings.TrimRightFunc f s)) as (r & Hr & _).
    destruct (TrimRightFunc_prefix f s) as [t Ht].
    exists (r +:+ a), (b +:+ t).
    rewrite Ht at 1. rewrite Hr at 1. rewrite Hab. 
    now rewrite !append_assoc.
  - intros (a & b & ->).
    destruct (TrimRightFunc_keep f (a +:+ mi) z b Hz) as [b' Hb'].
    assert (Hs : a +:+ String m0 m +:+ b = (a +:+ mi) +:+ String z b).
    { rewrite Hmi, !append_assoc. reflexivity. }
    rewrite Hs, Hb'.
    destruct (TrimLeftFunc_suffix f ((a +:+ mi) +:+ String z b')) as (r & Hr & Hrf).
    assert (Hs' : (a +:+ mi) +:+ String z b' = a +:+ String m0 (m +:+ b')).
    { rewrite append_assoc. f_equal.
      change (String m0 (m +:+ b')) with (String m0 m +:+ b').
      rewrite Hmi, append_assoc. reflexivity. }
    rewrite Hs' in Hr. symmetry in Hr.
    destruct (TrimLeftFunc_keep f r m0 (m +:+ b') Hm0 Hrf _ _ Hr) as [a' Ha'].
    rewrite Hs'. rewrite Ha'. exists a', b'. reflexivity.
Qed.

(** ** The session check (client.go, ensureAuthenticated) *)

Lemma expiredMarker_shape :
  exists m, expiredMarker = String "u"%char m /\ lastByte (String "u"%char m) = Some dquote.
Proof. eexists. split; reflexivity. Qed.

(** The text that [resty.Response.String] makes of the body holds the
    marker exactly when the body does. *)
Lemma resp_String_marker (r : Response) :
  strings.Contains (resp_String r) expiredMarker = strings.Contains (Body r) expiredMarker.
Proof.
  destruct expiredMarker_shape as (m & -> & Hlast).
  unfold resp_String. destruct (Body r) as [|c b] eqn:Hb; [reflexivity|].
  unfold strings.TrimSpace. apply (Contains_Trim strings.isSpace _ _ dquote); auto.
Qed.

(** C5, counterexample: a profile answer 204 without the marker is a
    2xx answer that the check rejects, so the check does not accept
    every 2xx answer. *)
Lemma C5_status_204_rejected :
  IsSuccess noContent204 = true
  /\ strings.Contains (Body noContent204) expiredMarker = false
  /\ fst (ensureAuthenticated profile204 Scenario.emptyWorld) = Some (ErrAuthStatus 204)
  /\ ~ sessionCheck_as_specified profile204.
Proof.
  repeat split; try reflexivity.
  intros Hspec.
  destruct (Hspec Scenario.emptyWorld noContent204 eq_refl) as [Hfail _].
  assert (Hne : fst (ensureAuthenticated profile204 Scenario.emptyWorld) <> None)
    by discriminate.
  destruct (Hfail Hne) as [Hf|Hf]; discriminate Hf.
Qed.

(** C5, as amended: the session check succeeds if and only if the
    profile request is answered, with status exactly 200, by a body
    that does not hold the expired marker; it fails in every other case
    (request error, any other status, 2xx included, or marker). *)
Theorem C5_session_check (server : Server) (w : World) :
  fst (ensureAuthenticated server w) = None
  <-> exists resp, server profileURL = Some resp
                   /\ StatusCode resp = 200%nat
                   /\ strings.Contains (Body resp) expiredMarker = false.
Proof.
  unfold ensureAuthenticated, GET. simpl.
  destruct (server profileURL) as [resp|] eqn:Hs; simpl.
  - destruct (StatusCode resp =? 200)%nat eqn:Hc; simpl.
    + apply Nat.eqb_eq in Hc. rewrite resp_String_marker.
      destruct (strings.Contains (Body resp) expiredMarker) eqn:Hm; simpl.
      * split; [discriminate|]. intros (r & [= <-] & _ & Hr). congruence.
      * split; [|reflexivity]. intros _. exists resp. auto.
    + apply Nat.eqb_neq in Hc. split; [discriminate|].
      intros (r & [= <-] & Hr & _). contradiction.
  - split; [discriminate|]. intros (r & Hr & _). discriminate.
Qed.

(** S7 of the specification. *)
Example S7_auth_probe :
  fst (ensureAuthenticated expiredProfile Scenario.emptyWorld) = Some ErrAuthExpired.
Proof. reflexivity. Qed.

(** ** Cover variants (downloader, generateCoverURLVariants) *)

Lemma coverVariants_loop_find (url : string) (sizes : list string) :
  coverVariants_loop url sizes =
  match List.find (fun t => strings.Contains url t) sizes with
  | Some t => Some [strings.ReplaceAll url t "600w"; url]
  | None => None
  end.
Proof.
  induction sizes as [|t sizes IH]; simpl; [reflexivity|].
  destruct (strings.Contains url t); [reflexivity | exact IH].
Qed.

(** A URL that holds 600w-proxy holds 600w. *)
Lemma Contains_600w_proxy (url : string) :
  strings.Contains url "600w" = false -> strings.Contains url "600w-proxy" = false.
Proof.
  intros Hn. destruct (strings.Contains url "600w-proxy") eqn:Hp; [|reflexivity].
  change "600w-proxy" with ("600w" +:+ "-proxy") in Hp.
  apply Contains_append_l in Hp. congruence.
Qed.

(** C6, counterexample: for a URL without size token that ends with a
    slash the first candidate is not the URL followed by /600w/, and
    the token 600w-proxy is not in the code's list. *)
Lemma C6_trailing_slash_and_proxy :
  generateCoverURLVariants "https://cdn/x/" = ["https://cdn/x/600w/"; "https://cdn/x/"]
  /\ coverVariants_as_specified "https://cdn/x/" = ["https://cdn/x//600w/"; "https://cdn/x/"]
  /\ generateCoverURLVariants "https://cdn/x/" <> coverVariants_as_specified "https://cdn/x/"
  /\ ~ In "600w-proxy" sizeVariants.
Proof.
  repeat split; try reflexivity.
  - vm_compute. discriminate.
  - simpl. intros H. repeat (destruct H as [H|H]; [discriminate H|]). exact H.
Qed.

(** C6, as amended: the variants are always two, the second being the
    original URL. When the URL holds one of the ten tokens 1200w, 800w,
    600w, 500w, 400w, 200w, large, medium, small, thumb, the first
    variant is the URL with every occurrence of the first such token (in
    this order) replaced by 600w; otherwise it is the URL, without one
    trailing slash if it has one, followed by /600w/. The list has no
    token 600w-proxy, and adding it after 600w, as the specification
    does, selects the same token for every URL. *)
Theorem C6_cover_variants (url : string) :
  generateCoverURLVariants url =
    match List.find (fun t => strings.Contains url t) sizeVariants with
    | Some t => [strings.ReplaceAll url t "600w"; url]
    | None => [strings.TrimSuffix url "/" +:+ "/600w/"; url]
    end
  /\ List.find (fun t => strings.Contains url t) specSizeTokens
     = List.find (fun t => strings.Contains url t) sizeVariants
  /\ length (generateCoverURLVariants url) = 2%nat
  /\ generateCoverURLVariants url !! 1%nat = Some url.
Proof.
  assert (Hgen : generateCoverURLVariants url =
    match List.find (fun t => strings.Contains url t) sizeVariants with
    | Some t => [strings.ReplaceAll url t "600w"; url]
    | None => [strings.TrimSuffix url "/" +:+ "/600w/"; url]
    end).
  { unfold generateCoverURLVariants. rewrite coverVariants_loop_find.
    destruct (List.find _ sizeVariants); reflexivity. }
  split; [exact Hgen|]. split.
  - unfold specSizeTokens, sizeVariants. simpl.
    destruct (strings.Contains url "1200w"); [reflexivity|].
    destruct (strings.Contains url "800w"); [reflexivity|].
    destruct (strings.Contains url "600w") eqn:H6; [reflexivity|].
    rewrite (Contains_600w_proxy url H6). reflexivity.
  - rewrite Hgen. destruct (List.find _ sizeVariants); split; reflexivity.
Qed.

(** S3 of the specification. *)
Example S3_cover_variant_selection :
  generateCoverURLVariants "https://cdn/x/200w/cover.jpg"
  = ["https://cdn/x/600w/cover.jpg"; "https://cdn/x/200w/cover.jpg"].
Proof. reflexivity. Qed.

(** ** The book directory (downloader, createBookDirectory) *)

Lemma Replace_empty_iff (table : list (ascii * string)) (s : string) :
  (forall c n, strings.replacer_lookup table c = Some n -> n <> EmptyString) ->
  strings.Replace table s = EmptyString <-> s = EmptyString.
Proof.
  intros Htable. destruct s as [|c s]; simpl; [tauto|].
  split; [|discriminate].
  destruct (strings.replacer_lookup table c) as [n|] eqn:Hl; [|discriminate].
  destruct n as [|x n]; [|discriminate].
  now apply Htable in Hl.
Qed.

Lemma escapeDirnameTable_nonempty (c : ascii) (n : string) :
  strings.replacer_lookup escapeDirnameTable c = Some n -> n = "_".
Proof.
  unfold escapeDirnameTable. simpl.
  repeat (match goal with
          | |- context [if ?b then _ else _] => destruct b
          end; [congruence|]).
  discriminate.
Qed.

(** The sanitized title is empty only for the empty title. *)
Lemma EscapeDirname_empty_iff (name : string) :
  EscapeDirname name = EmptyString <-> name = EmptyString.
Proof.
  unfold EscapeDirname.
  rewrite Replace_empty_iff
    by (intros c n Hn; apply escapeDirnameTable_nonempty in Hn; subst; discriminate).
  destruct (15 <? strings.Index name ":")%Z eqn:Hidx; [|tauto].
  apply Z.ltb_lt in Hidx. destruct name as [|c name]; [tauto|].
  split; [|discriminate]. unfold strings.slice_to.
  destruct (Z.to_nat (strings.Index (String c name) ":")) as [|k] eqn:Hk; [lia|].
  simpl. discriminate.
Qed.

Lemma SplitByte_head (s : string) :
  hd EmptyString (strings.SplitByte s ","%char) = upToComma s.
Proof.
  induction s as [|c s IH]; simpl; [reflexivity|].
  destruct (Ascii.eqb c ","%char); [reflexivity|].
  destruct (strings.SplitByte s ","%char) as [|x xs]; simpl in *; congruence.
Qed.

Lemma Contains_cons_false (c : ascii) (s m : string) :
  strings.Contains (String c s) m = false -> strings.Contains s m = false.
Proof.
  rewrite Contains_unfold. destruct (String.prefix m (String c s)); [discriminate | auto].
Qed.

Lemma upToComma_no_comma (s : string) :
  strings.Contains s "," = false -> upToComma s = s.
Proof.
  induction s as [|c s IH]; [reflexivity|].
  intros Hs. simpl. destruct (Ascii.eqb_spec c ","%char) as [->|_].
  - assert (Ht : strings.Contains (String ","%char s) "," = true).
    { apply Contains_true_iff. exists EmptyString, s. reflexivity. }
    congruence.
  - rewrite IH; [reflexivity|]. eapply Contains_cons_false, Hs.
Qed.

(** C8, counterexample: the title is cut at its first comma, which the
    sanitization of section 4.6 does not do. *)
Lemma C8_title_cut_at_comma :
  dirName (demoDownloader false) (bookNamed "Go, Second Edition") = "Go (1)"
  /\ rootName_as_specified (demoDownloader false) (bookNamed "Go, Second Edition")
     = "Go, Second Edition (1)"
  /\ dirName (demoDownloader false) (bookNamed "Go, Second Edition")
     <> rootName_as_specified (demoDownloader false) (bookNamed "Go, Second Edition")
  /\ fst (createBookDirectory (demoDownloader false) (bookNamed "Go, Second Edition")
            Scenario.emptyWorld) = inr "Books/Go (1)".
Proof.
  split; [reflexivity|]. split; [reflexivity|]. split; [|reflexivity].
  vm_compute. discriminate.
Qed.

(** C8, as amended: the directory is named by the sanitized title (the
    bookID when the title is empty) cut before its first comma,
    followed by the bookID in parentheses; it lies under the books
    directory. For a title whose sanitized form has no comma this is
    exactly sanitized(title) (bookID). *)
Theorem C8_book_directory (d : Downloader) (bookInfo : BookInfo) :
  dirName d bookInfo
  = upToComma (if String.eqb (Title bookInfo) EmptyString then bookID d
               else EscapeDirname (Title bookInfo))
    +:+ " (" +:+ bookID d +:+ ")"
  /\ (Title bookInfo <> EmptyString ->
      strings.Contains (EscapeDirname (Title bookInfo)) "," = false ->
      dirName d bookInfo = rootName_as_specified d bookInfo)
  /\ (forall w bookPath w',
        createBookDirectory d bookInfo w = (inr bookPath, w') ->
        bookPath = path.Join [booksDir d; dirName d bookInfo]).
Proof.
  assert (Hname : dirName d bookInfo
    = upToComma (if String.eqb (Title bookInfo) EmptyString then bookID d
                 else EscapeDirname (Title bookInfo))
      +:+ " (" +:+ bookID d +:+ ")").
  { unfold dirName. rewrite SplitByte_head.
    destruct (String.eqb_spec (Title bookInfo) EmptyString) as [Ht|Ht].
    - rewrite Ht. reflexivity.
    - destruct (String.eqb_spec (EscapeDirname (Title bookInfo)) EmptyString) as [He|He];
        [|reflexivity].
      exfalso. apply Ht. apply EscapeDirname_empty_iff. exact He. }
  split; [exact Hname|]. split.
  - intros Ht Hc. rewrite Hname. unfold rootName_as_specified.
    destruct (String.eqb_spec (Title bookInfo) EmptyString) as [Ht'|_]; [contradiction|].
    now rewrite upToComma_no_comma.
  - intros w bookPath w'. unfold createBookDirectory.
    destruct (mkdirs _ w) as [[e|] w1]; intros [= <- <-]. reflexivity.
Qed.

(** S6 of the specification, through C8: a title without comma. *)
Lemma C8_book_directory_witness :
  dirName (demoDownloader false) (bookNamed "A/B:clever:title:second")
  = "A_B_clever_title_second (1)".
Proof.
  destruct (C8_book_directory (demoDownloader false) (bookNamed "A/B:clever:title:second"))
    as (_ & Hplain & _).
  rewrite Hplain; [reflexivity | discriminate | reflexivity].
Defined.

(** ** The page style (parser.go, NewParser and ParseChapter) *)

Section ParserFacts.

Context `{NetURL} `{HTMLFrontEnd}.

Lemma ensureCSS_baseHTMLStyle (url : string) (p : Parser) :
  baseHTMLStyle (snd (ensureCSS url p)) = baseHTMLStyle p.
Proof.
  unfold ensureCSS. destruct (String.eqb url EmptyString); [reflexivity|].
  destruct (cssIndex p !! url); reflexivity.
Qed.

Lemma registerCSS_baseHTMLStyle (abs : string) (st : Parser * string) :
  baseHTMLStyle (fst (registerCSS abs st)) = baseHTMLStyle (fst st).
Proof.
  unfold registerCSS. generalize (ensureCSS_baseHTMLStyle abs (fst st)).
  destruct (ensureCSS abs (fst st)) as [idx p]. auto.
Qed.

Lemma fold_registerCSS_baseHTMLStyle {A} (f : Parser * string -> A -> Parser * string)
    (xs : list A) (st : Parser * string) :
  (forall st x, baseHTMLStyle (fst (f st x)) = baseHTMLStyle (fst st)) ->
  baseHTMLStyle (fst (fold_left f xs st)) = baseHTMLStyle (fst st).
Proof.
  intros Hf. revert st. induction xs as [|x xs IH]; intros st; simpl; [reflexivity|].
  rewrite IH. apply Hf.
Qed.

(** Every page that [ParseChapter] returns is the template around the
    collected CSS, the style of the parser and the content element of
    the document, rendered after the rewrite of its links. *)
Lemma ParseChapter_page (p : Parser) (chapter : Chapter) (isFirst : bool)
    (p' : Parser) (css page : string) :
  ParseChapter p chapter isFirst = (p', inr (css, page)) ->
  exists doc node,
    goquery_NewDocument (ch_Content chapter) = Some doc
    /\ dom_content doc = Some node
    /\ page = baseHTMLTemplate css (baseHTMLStyle p)
                (nodeToXHTML (rewriteLinks (linkReplace p') node)).
Proof.
  unfold ParseChapter.
  destruct (goquery_NewDocument (ch_Content chapter)) as [doc|]; [|discriminate].
  match goal with
  | |- context [fold_left ?f (dom_links doc) ?s] =>
      set (st1 := s); set (st2 := fold_left f (dom_links doc) st1)
  end.
  assert (Hst1 : baseHTMLStyle (fst st1) = baseHTMLStyle p).
  { subst st1. destruct (orb _ _); [|reflexivity].
    rewrite fold_registerCSS_baseHTMLStyle.
    - rewrite fold_registerCSS_baseHTMLStyle; [reflexivity|].
      intros st x. destruct (String.eqb _ _); [reflexivity|].
      apply registerCSS_baseHTMLStyle.
    - intros st x. destruct (String.eqb _ _); [reflexivity|].
      apply registerCSS_baseHTMLStyle. }
  assert (Hst2 : baseHTMLStyle (fst st2) = baseHTMLStyle p).
  { subst st2. rewrite fold_registerCSS_baseHTMLStyle; [exact Hst1|].
    intros st x. apply registerCSS_baseHTMLStyle. }
  destruct (dom_content doc) as [node|] eqn:Hnode; [|discriminate].
  intros [= <- <- <-]. rewrite Hst2. exists doc, node.
  split; [reflexivity|]. split; [exact Hnode | reflexivity].
Qed.

End ParserFacts.

(** The template of the code is the template of the specification. *)
Lemma baseHTMLTemplate_as_specified (css style content : string) :
  baseHTMLTemplate css style content = page_as_specified css style content.
Proof.
  unfold baseHTMLTemplate, page_as_specified, pageTop_as_specified, styleOpen, attr.
  rewrite !append_assoc. reflexivity.
Qed.

(** C9: in every page that the parser of a book emits, the block that
    opens with the style tag of type text/css and closes the head holds
    exactly base_style when Kindle mode is on and exactly base_style
    followed by the word-wrap/overflow ruleset when Kindle mode is off;
    the two texts differ, so each of them stands there in its mode
    only, and it is the style that NewParser gives the parser. The page
    is spelled out: the top of the template, the collected CSS, the
    style block, the body around the rendered content. *)
Theorem C9_kindle_style `{NetURL} `{HTMLFrontEnd} (bookURL : string) (kindle : bool) :
  let style := if kindle then base_style_as_specified
               else base_style_as_specified +:+ extra_rules_as_specified in
  (style = base_style_as_specified <-> kindle = true)
  /\ (style = base_style_as_specified +:+ extra_rules_as_specified <-> kindle = false)
  /\ baseHTMLStyle (NewParser bookURL kindle) = style
  /\ (forall chapter isFirst p' css page,
        ParseChapter (NewParser bookURL kindle) chapter isFirst = (p', inr (css, page)) ->
        exists doc node,
          goquery_NewDocument (ch_Content chapter) = Some doc
          /\ dom_content doc = Some node
          /\ page =
             pageTop_as_specified +:+ css +:+ nl +:+
             "<style type=" +:+ quote +:+ "text/css" +:+ quote +:+ ">" +:+ style +:+
             "</style></head>" +:+ nl +:+
             "<body>" +:+ nodeToXHTML (rewriteLinks (linkReplace p') node) +:+ "</body>" +:+ nl +:+
             "</html>").
Proof.
  cbv zeta. split; [|split; [|split]].
  - destruct kindle; split; intros Hs; try reflexivity; try discriminate Hs.
  - destruct kindle; split; intros Hs; try reflexivity; try discriminate Hs.
  - destruct kindle; reflexivity.
  - intros chapter isFirst p' css page Hp.
    apply ParseChapter_page in Hp as (doc & node & Hdoc & Hnode & ->).
    exists doc, node. split; [exact Hdoc|]. split; [exact Hnode|].
    rewrite baseHTMLTemplate_as_specified.
    unfold page_as_specified, styleOpen. rewrite !append_assoc.
    unfold NewParser. cbn [baseHTMLStyle]. destruct kindle; reflexivity.
Qed.

(** C9 on the first page of the scenario, Kindle mode on. *)
Lemma C9_kindle_style_witness :
  exists content,
    snd (@ParseChapter Scenario.plainURL demoFrontEnd
           (NewParser "https://learning.oreilly.com" true)
           (Scenario.chapter "One" "ch1.html" pageOne []) true)
    = inr (EmptyString,
           pageTop_as_specified +:+ nl +:+
           "<style type=" +:+ quote +:+ "text/css" +:+ quote +:+ ">" +:+
           base_style_as_specified +:+
           "</style></head>" +:+ nl +:+ "<body>" +:+ content +:+ "</body>" +:+ nl +:+ "</html>").
Proof.
  destruct (@C9_kindle_style Scenario.plainURL demoFrontEnd
              "https://learning.oreilly.com" true) as (_ & _ & _ & Hpage).
  eassert (Hp : @ParseChapter Scenario.plainURL demoFrontEnd
                  (NewParser "https://learning.oreilly.com" true)
                  (Scenario.chapter "One" "ch1.html" pageOne []) true
                = (_, inr (EmptyString, _))) by (vm_compute; reflexivity).
  destruct (Hpage _ _ _ _ _ Hp) as (doc & node & _ & _ & Hbody).
  eexists. rewrite Hp. cbn [snd]. rewrite Hbody. reflexivity.
Defined.

(** ** The link-rewrite rule (parser.go, linkReplace) *)

(** S1 of the specification. *)
Example S1_link_rewrite :
  let repl := @linkReplace Scenario.plainURL (NewParser "https://x.example" false) in
  repl "images/fig-01.png" = "Images/fig-01.png"
  /\ repl "intro.html" = "intro.xhtml"
  /\ repl "https://cdn.example/a.css" = "https://cdn.example/a.css"
  /\ repl "mailto:a@b" = "mailto:a@b".
Proof. repeat split; reflexivity. Qed.

(** S2 of the specification. *)
Example S2_srcset_rewrite :
  rewriteSrcset "a.png 1x, b.png 2x"
    (@linkReplace Scenario.plainURL (NewParser "https://x.example" false))
  = "Images/a.png 1x, Images/b.png 2x".
Proof. reflexivity. Qed.

(** ** The chapter index (client.go, GetBookChapters) *)

Lemma isRemainingChapter_negb (chapter : Chapter) :
  isRemainingChapter chapter = negb (isCoverChapter chapter).
Proof. unfold isRemainingChapter, isCoverChapter. now rewrite negb_orb. Qed.

(** The two filters of the code are the stable partition of the page. *)
Lemma filters_promotePage (page : list Chapter) :
  (List.filter isCoverChapter page ++ List.filter isRemainingChapter page)%list
  = promotePage page.
Proof.
  unfold promotePage. rewrite List.partition_as_filter.
  f_equal. apply List.filter_ext. intros ch. apply isRemainingChapter_negb.
Qed.

Lemma promotePage_Permutation (page : list Chapter) : promotePage page ≡ₚ page.
Proof.
  unfold promotePage. rewrite List.partition_as_filter.
  induction page as [|ch page IH]; simpl; [reflexivity|].
  destruct (isCoverChapter ch); simpl.
  - now rewrite IH.
  - rewrite <- Permutation_middle. now rewrite IH.
Qed.

Section ClientFacts.

Context `{JSONDecoder}.
Variable server : Server.

(** The loop follows a walk of the index: after the pages of the walk
    it continues from the cursor the walk ends at, with the promoted
    pages appended. *)
Lemma GetBookChapters_loop_walk (u : string) (pages : list (list Chapter)) (u' : string) :
  indexWalk server u pages u' ->
  forall (k : nat) (all : list Chapter) (w : World),
  exists w',
    GetBookChapters_loop server (length pages + k) u all w
    = GetBookChapters_loop server k u'
        (all ++ concat (map promotePage pages))%list w'
    /\ sameFiles w w'.
Proof.
  induction 1 as [u | u resp payload pages u' Hu Hs Hok Hj Hne Hwalk IH]; intros k all w.
  - exists w. simpl. rewrite app_nil_r. repeat split.
  - cbn [length Nat.add GetBookChapters_loop].
    destruct (String.eqb_spec u EmptyString) as [->|_]; [contradiction|].
    unfold GET. rewrite Hs. unfold HandleJSONResponse_chapters. rewrite Hok, Hj. cbn [negb].
    destruct (Results payload) as [|ch0 page] eqn:Hres; [contradiction|].
    cbn [length Nat.eqb]. rewrite <- Hres.
    assert (Hcur : match Next payload with
                   | Some next => if negb (String.eqb next EmptyString) then next else EmptyString
                   | None => EmptyString
                   end = nextCursor payload).
    { unfold nextCursor. destruct (Next payload) as [n|]; [|reflexivity]. simpl.
      destruct (String.eqb_spec n EmptyString); simpl; congruence. }
    rewrite Hcur.
    match goal with
    | |- context [GetBookChapters_loop server _ (nextCursor payload) ?a ?w1] =>
        destruct (IH k a w1) as (w' & Heq & Hfiles)
    end.
    exists w'. split; [|exact Hfiles].
    rewrite Heq. f_equal. cbn [map concat].
    rewrite <- filters_promotePage, <- !app_assoc. reflexivity.
Qed.

End ClientFacts.

(** C4: when the index is served as the pages p1 ... pn, the chapters
    returned are, page after page, the cover chapters of the page in
    their order followed by the other chapters of the page in their
    order; no chapter moves to another page. *)
Theorem C4_cover_promotion `{JSONDecoder} (server : Server) (bookID : string)
    (pages : list (list Chapter)) (fuel : nat) (w : World) :
  indexWalk server (chaptersURL bookID) pages EmptyString ->
  (length pages <= fuel)%nat ->
  fst (GetBookChapters server fuel bookID w)
  = Some (inr (concat (map promotePage pages))).
Proof.
  intros Hwalk Hfuel. unfold GetBookChapters.
  replace fuel with (length pages + (fuel - length pages))%nat by lia.
  destruct (GetBookChapters_loop_walk server _ _ _ Hwalk (fuel - length pages)%nat [] w)
    as (w' & -> & _).
  destruct (fuel - length pages)%nat; reflexivity.
Qed.

(** S5 of the specification, through C4. *)
Lemma C4_cover_promotion_witness :
  fst (@GetBookChapters S5_decoder S5_site 2 "1" Scenario.emptyWorld)
  = Some (inr [chB; chA; chC; chD]).
Proof.
  apply (@C4_cover_promotion S5_decoder S5_site "1" [[chA; chB]; [chC; chD]]).
  - eapply (@walk_page S5_decoder S5_site _ _
              {| Count := 4; Next := Some page2URL; Results := [chA; chB] |});
      [discriminate | reflexivity | reflexivity | reflexivity | discriminate |].
    eapply (@walk_page S5_decoder S5_site _ _
              {| Count := 4; Next := None; Results := [chC; chD] |});
      [discriminate | reflexivity | reflexivity | reflexivity | discriminate |].
    apply walk_done.
  - simpl. lia.
Defined.

(** C10: an index page without results aborts the call wherever it
    comes: after any number of good pages, a page that decodes to an
    empty result list makes the call fail, and no chapter list is
    returned. *)
Theorem C10_empty_page_aborts `{JSONDecoder} (server : Server) (bookID : string)
    (pages : list (list Chapter)) (u : string) (resp : Response)
    (payload : ChapterResponse) (fuel : nat) (w : World) :
  indexWalk server (chaptersURL bookID) pages u ->
  u <> EmptyString ->
  server u = Some resp ->
  IsSuccess resp = true ->
  json_ChapterResponse (Body resp) = Some payload ->
  Results payload = [] ->
  (length pages < fuel)%nat ->
  fst (GetBookChapters server fuel bookID w) = Some (inl ErrNoChapters).
Proof.
  intros Hwalk Hu Hs Hok Hj Hres Hfuel. unfold GetBookChapters.
  replace fuel with (length pages + S (fuel - length pages - 1))%nat by lia.
  destruct (GetBookChapters_loop_walk server _ _ _ Hwalk (S (fuel - length pages - 1)) [] w)
    as (w' & -> & _).
  cbn [GetBookChapters_loop].
  destruct (String.eqb_spec u EmptyString) as [->|_]; [contradiction|].
  unfold GET. rewrite Hs. unfold HandleJSONResponse_chapters. rewrite Hok, Hj. cbn [negb].
  rewrite Hres. reflexivity.
Qed.

(** C10 on the index of S5 with a second page without results. *)
Lemma C10_empty_page_aborts_witness :
  fst (@GetBookChapters emptyPage_decoder S5_site 2 "1" Scenario.emptyWorld)
  = Some (inl ErrNoChapters).
Proof.
  apply (@C10_empty_page_aborts emptyPage_decoder S5_site "1" [[chA; chB]] page2URL
           {| StatusCode := 200; Body := "second page" |}
           {| Count := 4; Next := None; Results := [] |}).
  - eapply (@walk_page emptyPage_decoder S5_site _ _
              {| Count := 4; Next := Some page2URL; Results := [chA; chB] |});
      [discriminate | reflexivity | reflexivity | reflexivity | discriminate |].
    apply walk_done.
  - discriminate.
  - reflexivity.
  - reflexivity.
  - reflexivity.
  - reflexivity.
  - simpl. lia.
Defined.

(** ** The stylesheet registry (parser.go, ensureCSS) *)

Lemma NewParser_registryOK (bookURL : string) (kindle : bool) :
  registryOK (NewParser bookURL kindle).
Proof.
  split; simpl.
  - constructor.
  - intros u k. rewrite lookup_empty, lookup_nil. split; discriminate.
Qed.

(** One registration keeps the registry consistent, returns the
    position of the URL and appends the URL if it is new. *)
Lemma ensureCSS_spec (u : string) (p : Parser) :
  u <> EmptyString -> registryOK p ->
  let '(k, p') := ensureCSS u p in
  registryOK p'
  /\ cssList p' = (if bool_decide (u ∈ cssList p) then cssList p
                   else cssList p ++ [u])%list
  /\ cssList p' !! k = Some u
  /\ bookURL p' = bookURL p.
Proof.
  intros Hu [Hnd Hidx]. unfold ensureCSS.
  destruct (String.eqb_spec u EmptyString) as [->|_]; [contradiction|].
  destruct (cssIndex p !! u) as [k|] eqn:Hk.
  - apply Hidx in Hk as Hl.
    assert (Hin : u ∈ cssList p) by (eapply list_elem_of_lookup_2; eauto).
    rewrite bool_decide_true by exact Hin.
    repeat split; auto; apply Hidx.
  - assert (Hnin : u ∉ cssList p).
    { intros [k Hl]%list_elem_of_lookup. apply Hidx in Hl. congruence. }
    rewrite bool_decide_false by exact Hnin. simpl.
    split; [split|split; [reflexivity|split; [|reflexivity]]]; simpl.
    + apply NoDup_app. repeat split; auto.
      * intros x Hx Hx'. apply list_elem_of_singleton in Hx'. subst. contradiction.
      * apply NoDup_singleton.
    + intros v j. split; intros Hl.
      * destruct (decide (u = v)) as [<-|Hne].
        -- rewrite lookup_insert_eq in Hl. injection Hl as <-.
           rewrite lookup_app_r by lia. now rewrite Nat.sub_diag.
        -- rewrite lookup_insert_ne in Hl by exact Hne.
           apply Hidx in Hl. rewrite lookup_app_l; [exact Hl|].
           eapply lookup_lt_Some; eauto.
      * destruct (decide (j < length (cssList p))%nat) as [Hlt|Hge].
        -- rewrite lookup_app_l in Hl by exact Hlt.
           assert (u <> v).
           { intros <-. apply Hnin. eapply list_elem_of_lookup_2; eauto. }
           rewrite lookup_insert_ne by assumption. now apply Hidx.
        -- rewrite lookup_app_r in Hl by lia.
           destruct (j - length (cssList p))%nat as [|n] eqn:Hn; simpl in Hl; [|discriminate].
           injection Hl as <-. replace j with (length (cssList p)) by lia.
           apply lookup_insert_eq.
    + rewrite lookup_app_r by lia. now rewrite Nat.sub_diag.
Qed.

(** The position of a URL of the list is kept by later registrations. *)
Lemma firstOccurrences_from_keeps (urls seen : list string) (k : nat) (u : string) :
  seen !! k = Some u -> firstOccurrences_from seen urls !! k = Some u.
Proof.
  revert seen. induction urls as [|x urls IH]; intros seen Hk; simpl; [exact Hk|].
  destruct (bool_decide (x ∈ seen)); [now apply IH|].
  apply IH. rewrite lookup_app_l; [exact Hk|]. eapply lookup_lt_Some; eauto.
Qed.

(** Registering a list of URLs: the registry becomes the first
    occurrences of the URLs that are not empty; every such URL gets its
    position there, and every empty URL gets 0 and is not registered. *)
Lemma registerAll_spec (urls : list string) (p : Parser) :
  registryOK p ->
  let '(ks, p') := registerAll urls p in
  registryOK p'
  /\ cssList p' = firstOccurrences_from (cssList p) (List.filter nonEmpty urls)
  /\ length ks = length urls
  /\ bookURL p' = bookURL p
  /\ forall i u, urls !! i = Some u ->
       exists k, ks !! i = Some k
                 /\ if nonEmpty u then cssList p' !! k = Some u else k = 0%nat.
Proof.
  revert p. induction urls as [|u urls IH]; intros p Hok; cbn [registerAll List.filter].
  - split; [exact Hok|]. do 3 (split; [reflexivity|]).
    intros i u Hi. rewrite lookup_nil in Hi. discriminate.
  - destruct (String.eqb_spec u EmptyString) as [->|Hu].
    + unfold ensureCSS at 1. cbn [String.eqb nonEmpty negb].
      pose proof (IH p Hok) as H2.
      destruct (registerAll urls p) as [ks p2].
      destruct H2 as (Hok2 & Hl2 & Hlen & Hb2 & Hpos).
      split; [exact Hok2|]. split; [exact Hl2|]. split; [simpl; now rewrite Hlen|].
      split; [exact Hb2|].
      intros [|i] v Hi; simpl in Hi.
      * injection Hi as <-. exists 0%nat. split; reflexivity.
      * now apply Hpos.
    + assert (Hne : nonEmpty u = true).
      { unfold nonEmpty. now apply negb_true_iff, String.eqb_neq. }
      rewrite Hne. cbn [firstOccurrences_from].
      pose proof (ensureCSS_spec u p Hu Hok) as H1.
      destruct (ensureCSS u p) as [k p1]. destruct H1 as (Hok1 & Hl1 & Hk1 & Hb1).
      pose proof (IH p1 Hok1) as H2.
      destruct (registerAll urls p1) as [ks p2].
      destruct H2 as (Hok2 & Hl2 & Hlen & Hb2 & Hpos).
      split; [exact Hok2|]. split; [|split; [|split]].
      * rewrite Hl2, Hl1. destruct (bool_decide (u ∈ cssList p)); reflexivity.
      * simpl. now rewrite Hlen.
      * congruence.
      * intros [|i] v Hi; simpl in Hi.
        -- injection Hi as <-. exists k. split; [reflexivity|]. rewrite Hne.
           rewrite Hl2. now apply firstOccurrences_from_keeps.
        -- now apply Hpos.
Qed.

Lemma firstOccurrences_NoDup (urls : list string) : NoDup (firstOccurrences urls).
Proof.
  unfold firstOccurrences.
  assert (Hgen : forall seen, NoDup seen -> NoDup (firstOccurrences_from seen urls)).
  { induction urls as [|u urls IH]; intros seen Hnd; simpl; [exact Hnd|].
    destruct (bool_decide (u ∈ seen)) eqn:Hin; [now apply IH|].
    apply bool_decide_eq_false in Hin. apply IH.
    apply NoDup_app. repeat split; auto.
    - intros x Hx Hx'. apply list_elem_of_singleton in Hx'. subst. contradiction.
    - apply NoDup_singleton. }
  apply Hgen. constructor.
Qed.

Section RegistryFacts.

Context `{NetURL} `{HTMLFrontEnd}.

Lemma fold_registerCSS (urls : list string) (st : Parser * string) :
  fold_left (fun st u => registerCSS u st) urls st
  = (snd (registerAll urls (fst st)), snd st +:+ linkLines (fst (registerAll urls (fst st)))).
Proof.
  unfold linkLines.
  revert st. induction urls as [|u urls IH]; intros [p css]; cbn [fold_left registerAll fst snd].
  - cbn [fold_right]. now rewrite append_nil_r.
  - rewrite IH. unfold registerCSS. cbn [fst snd].
    destruct (ensureCSS u p) as [k p1]. cbn [fst snd].
    destruct (registerAll urls p1) as [ks p2]. cbn [fst snd fold_right].
    now rewrite append_assoc.
Qed.

Lemma fold_registerCSS_skip {A} (f g : A -> string) (xs : list A) (st : Parser * string) :
  fold_left (fun st x => if String.eqb (g x) EmptyString then st else registerCSS (f x) st) xs st
  = fold_left (fun st u => registerCSS u st)
      (map f (List.filter (fun x => nonEmpty (g x)) xs)) st.
Proof.
  revert st. induction xs as [|x xs IH]; intros st; cbn [fold_left List.filter]; [reflexivity|].
  unfold nonEmpty at 1. destruct (String.eqb (g x) EmptyString); cbn [negb map fold_left]; apply IH.
Qed.

Lemma registerAll_app (us vs : list string) (p : Parser) :
  registerAll (us ++ vs) p
  = ((fst (registerAll us p) ++ fst (registerAll vs (snd (registerAll us p))))%list,
     snd (registerAll vs (snd (registerAll us p)))).
Proof.
  revert p. induction us as [|u us IH]; intros p; simpl.
  - destruct (registerAll vs p); reflexivity.
  - destruct (ensureCSS u p) as [k p1]. rewrite IH.
    destruct (registerAll us p1) as [ks p2]. simpl.
    destruct (registerAll vs p2); reflexivity.
Qed.

Lemma linkLines_app (ks ls : list nat) :
  linkLines (ks ++ ls) = linkLines ks +:+ linkLines ls.
Proof.
  unfold linkLines. induction ks as [|k ks IH]; cbn [app fold_right]; [reflexivity|].
  now rewrite IH, append_assoc.
Qed.

Lemma registerAll_bookURL (urls : list string) (p : Parser) :
  bookURL (snd (registerAll urls p)) = bookURL p.
Proof.
  revert p. induction urls as [|u urls IH]; intros p; simpl; [reflexivity|].
  assert (Hb : bookURL (snd (ensureCSS u p)) = bookURL p).
  { unfold ensureCSS. destruct (String.eqb u EmptyString); [reflexivity|].
    destruct (cssIndex p !! u); reflexivity. }
  destruct (ensureCSS u p) as [k p1]. specialize (IH p1).
  destruct (registerAll urls p1) as [ks p2]. simpl in *. congruence.
Qed.

Lemma fold_styles (styles : list string) (acc : string) :
  fold_left (fun acc css => acc +:+ css +:+ nl) styles acc = acc +:+ styleLines styles.
Proof.
  unfold styleLines.
  revert acc. induction styles as [|s styles IH]; intros acc; cbn [fold_left fold_right].
  - now rewrite append_nil_r.
  - rewrite IH. now rewrite !append_assoc.
Qed.

(** What ParseChapter does with the registry: it registers the style
    URLs of the chapter in order and writes one line per registration,
    then the style blocks. *)
Lemma ParseChapter_registry (p : Parser) (chapter : Chapter) (isFirst : bool)
    (doc : ChapterDOM) :
  goquery_NewDocument (ch_Content chapter) = Some doc ->
  let r := registerAll (chapterStyleURLs (bookURL p) chapter doc) p in
  fst (ParseChapter p chapter isFirst) = snd r
  /\ forall css page, snd (ParseChapter p chapter isFirst) = inr (css, page) ->
       css = linkLines (fst r) +:+ styleLines (dom_styles doc).
Proof.
  intros Hdoc. unfold ParseChapter. rewrite Hdoc.
  match goal with
  | |- context [if ?g then ?F else ?st0] =>
      assert (Hguard : (if g then F else st0) = F)
  end.
  { destruct (ch_Stylesheets chapter), (ch_SiteStyles chapter); reflexivity. }
  rewrite Hguard. clear Hguard.
  rewrite (fold_registerCSS_skip
             (fun sheet => ResolveURL (ch_AssetBaseURL chapter) (sheet_URL sheet)) sheet_URL).
  rewrite (fold_registerCSS_skip (ResolveURL (ch_AssetBaseURL chapter)) (fun x => x)).
  rewrite <- fold_left_app.
  rewrite fold_registerCSS. cbn [fst snd].
  set (us := (map _ _ ++ map _ _)%list).
  assert (Hlinks : forall st,
    fold_left (fun st href => registerCSS (ResolveURL (bookURL (fst st)) href) st)
              (dom_links doc) st
    = fold_left (fun st u => registerCSS u st)
                (map (ResolveURL (bookURL (fst st))) (dom_links doc)) st).
  { induction (dom_links doc) as [|h hs IH]; intros st; cbn [fold_left map]; [reflexivity|].
    rewrite IH. 
    assert (Hb : bookURL (fst (registerCSS (ResolveURL (bookURL (fst st)) h) st))
                 = bookURL (fst st)).
    { unfold registerCSS.
      pose proof (registerAll_bookURL [ResolveURL (bookURL (fst st)) h] (fst st)) as Hb.
      cbn [registerAll] in Hb. destruct (ensureCSS _ (fst st)) as [k p1]. exact Hb. }
    now rewrite Hb. }
  rewrite Hlinks. cbn [fst]. rewrite registerAll_bookURL.
  rewrite fold_registerCSS. cbn [fst snd].
  unfold chapterStyleURLs. fold us. rewrite app_assoc. fold us.
  rewrite registerAll_app. cbn [fst snd].
  set (r1 := registerAll us p).
  set (r2 := registerAll _ (snd r1)).
  split.
  - destruct (dom_content doc); reflexivity.
  - intros css page. destruct (dom_content doc); [|discriminate].
    intros [= <- _]. rewrite fold_styles, linkLines_app.
    now rewrite !append_assoc.
Qed.

End RegistryFacts.

(** C1, counterexample: the two chapters of the scenario reference two
    different stylesheets, and both pages link Style00: the index 0 is
    shared by distinct URLs of different chapters. One registry for the
    book would give the second URL the index 1. The same URL b.css has
    index 1 in a chapter that lists a.css before it and index 0 in the
    chapter Two. *)
Lemma C1_index_shared_across_chapters :
  cssA <> cssB
  /\ snd (fst demoChapters) = None
  /\ fs_files (snd demoChapters) !! "Books/T (1)/OEBPS/ch1.xhtml"
     = Some (Bytes (baseHTMLTemplate (cssLink 0) (baseStyleCSS +:+ kindleCSS) (bodyOf "one")))
  /\ fs_files (snd demoChapters) !! "Books/T (1)/OEBPS/ch2.xhtml"
     = Some (Bytes (baseHTMLTemplate (cssLink 0) (baseStyleCSS +:+ kindleCSS) (bodyOf "two")))
  /\ fst (registerAll [cssA; cssB] (NewParser "https://learning.oreilly.com" false))
     = [0; 1]%nat
  /\ pageCSSOf (Scenario.chapter "Both" "both.html" pageOne [cssA; cssB])
     = Some (cssLink 0 +:+ cssLink 1)
  /\ pageCSSOf chTwoParsed = Some (cssLink 0).
Proof.
  split; [discriminate|]. repeat split; vm_compute; reflexivity.
Qed.

(** C1, as amended: the registry belongs to the parser, and a parser is
    made for every chapter (NewParser in the chapter worker). For one
    chapter, whatever its style URLs are: ParseChapter writes one
    [<link>] line per stylesheet reference, in order; the registry is
    the list of the first occurrences of the URLs that are not empty; a
    URL that is not empty has for index its position in that list, so
    the k-th distinct URL of the chapter has index k-1, equal URLs have
    equal indices and distinct URLs distinct ones; a reference whose
    URL is empty is not registered and its line has the index 0.
    Nothing relates the indices of two chapters. *)
Theorem C1_registry_per_chapter `{NetURL} `{HTMLFrontEnd} (base : string) (kindle : bool)
    (chapter : Chapter) (isFirst : bool) (doc : ChapterDOM) :
  goquery_NewDocument (ch_Content chapter) = Some doc ->
  exists idxs : list nat,
    length idxs = length (chapterStyleURLs base chapter doc)
    /\ (forall css page,
          snd (ParseChapter (NewParser base kindle) chapter isFirst) = inr (css, page) ->
          css = linkLines idxs +:+ styleLines (dom_styles doc))
    /\ cssList (fst (ParseChapter (NewParser base kindle) chapter isFirst))
       = firstOccurrences (List.filter nonEmpty (chapterStyleURLs base chapter doc))
    /\ (forall i u, chapterStyleURLs base chapter doc !! i = Some u ->
          exists k, idxs !! i = Some k
                    /\ if nonEmpty u
                       then firstOccurrences
                              (List.filter nonEmpty (chapterStyleURLs base chapter doc)) !! k
                            = Some u
                       else k = 0%nat)
    /\ (forall i j u v a b,
          chapterStyleURLs base chapter doc !! i = Some u ->
          chapterStyleURLs base chapter doc !! j = Some v ->
          idxs !! i = Some a -> idxs !! j = Some b ->
          u <> EmptyString -> v <> EmptyString ->
          (u = v <-> a = b)).
Proof.
  intros Hdoc.
  destruct (ParseChapter_registry (NewParser base kindle) chapter isFirst doc Hdoc)
    as [Hp Hcss].
  cbn [bookURL NewParser] in Hp, Hcss.
  pose proof (registerAll_spec (chapterStyleURLs base chapter doc) (NewParser base kindle)
                (NewParser_registryOK base kindle)) as Hreg.
  destruct (registerAll (chapterStyleURLs base chapter doc) (NewParser base kindle))
    as [idxs p'] eqn:Hr.
  destruct Hreg as (Hok & Hlist & Hlen & _ & Hpos).
  cbn [fst snd] in Hp, Hcss. cbn [cssList NewParser] in Hlist.
  fold (firstOccurrences (List.filter nonEmpty (chapterStyleURLs base chapter doc))) in Hlist.
  exists idxs. split; [exact Hlen|]. split; [exact Hcss|].
  split; [now rewrite Hp|]. split.
  - intros i u Hi. destruct (Hpos i u Hi) as (k & Hk & Hl).
    exists k. split; [exact Hk|]. destruct (nonEmpty u); [now rewrite <- Hlist | exact Hl].
  - intros i j u v a b Hi Hj Ha Hb Hu Hv.
    destruct (Hpos i u Hi) as (k & Hk & Hl). destruct (Hpos j v Hj) as (l & Hl' & Hv').
    assert (k = a) by congruence. assert (l = b) by congruence. subst k l.
    unfold nonEmpty in Hl, Hv'.
    apply String.eqb_neq in Hu, Hv. rewrite Hu in Hl. rewrite Hv in Hv'.
    cbn [negb] in Hl, Hv'.
    split.
    + intros <-. destruct Hok as [Hnd _]. eapply NoDup_lookup; eauto.
    + intros <-. congruence.
Qed.

(** C1 on a chapter that lists a.css and whose document links b.css,
    nothing (an empty href) and a.css: the lines have the indices 0, 1,
    0 and 0, and the registry is a.css, b.css. *)
Lemma C1_registry_per_chapter_witness :
  exists idxs : list nat,
    length idxs = 4%nat
    /\ cssList (fst (@ParseChapter Scenario.plainURL linkedFrontEnd
                       (NewParser "https://learning.oreilly.com" false) chLinked true))
       = [cssA; cssB]
    /\ forall i u, [cssA; cssB; EmptyString; cssA] !! i = Some u ->
         exists k, idxs !! i = Some k
                   /\ if nonEmpty u then [cssA; cssB] !! k = Some u else k = 0%nat.
Proof.
  destruct (@C1_registry_per_chapter Scenario.plainURL linkedFrontEnd
              "https://learning.oreilly.com" false chLinked true linkedDOM)
    as (idxs & Hlen & _ & Hreg & Hpos & _).
  - reflexivity.
  - exists idxs. split; [exact Hlen|]. split; [exact Hreg | exact Hpos].
Defined.

(** ** The chapter workers (downloader, downloadChapters) *)

Lemma is_dir_dirs (w w' : World) (p : string) :
  fs_dirs w' = fs_dirs w -> is_dir w' p = is_dir w p.
Proof. intros Hd. unfold is_dir. now rewrite Hd. Qed.

Lemma WriteFile_dirs (p : string) (c : Content) (w : World) :
  fs_dirs (snd (WriteFile p c w)) = fs_dirs w.
Proof. unfold WriteFile. destruct (_ && _); reflexivity. Qed.

Section WorkerFacts.

Context `{NetURL} `{HTMLFrontEnd}.
Variable server : Server.
Variable d : Downloader.

Lemma downloadFile_dirs (url p : string) (w : World) :
  fs_dirs (downloadFile server url p w) = fs_dirs w.
Proof.
  unfold downloadFile. destruct (FileExists p w); [reflexivity|].
  unfold GET. destruct (server url) as [resp|]; [|reflexivity].
  destruct (negb (IsSuccess resp)); [reflexivity|].
  now rewrite WriteFile_dirs.
Qed.

Lemma downloadAssets_dirs (chapter : Chapter) (basePath : string) (w : World) :
  fs_dirs (downloadAssets server d chapter basePath w) = fs_dirs w.
Proof.
  unfold downloadAssets. generalize (ch_Images chapter) as imgs.
  intros imgs. revert w. induction imgs as [|img imgs IH]; intros w; cbn [fold_left];
    [reflexivity|].
  rewrite IH. destruct (String.eqb _ _); [reflexivity|].
  destruct (String.eqb _ _); [reflexivity|]. apply downloadFile_dirs.
Qed.

(** A chapter worker leaves the directories as they are, and reports no
    error exactly when its chapter can be processed on its own. *)
Lemma downloadChapter_alone (bookPath : string) (chapter : Chapter) (i : nat) (w0 w : World) :
  fs_dirs w = fs_dirs w0 ->
  let r := downloadChapter server d (path.Join [bookPath; "OEBPS"]) chapter (i =? 0)%nat
             (NewParser ("https://" +:+ siteURL d) (d_kindleMode d)) bookPath w in
  fs_dirs (snd r) = fs_dirs w0
  /\ (fst (fst r) = None <-> chapterOK server d bookPath w0 i chapter = true).
Proof.
  intros Hd. unfold downloadChapter, chapterOK, GET.
  destruct (server (ch_Content chapter)) as [resp|]; [|split; [exact Hd | split; discriminate]].
  destruct (IsSuccess resp); cbn [negb andb]; [|split; [exact Hd | split; discriminate]].
  destruct (snd (ParseChapter _ (set_Content (Body resp) chapter) (i =? 0)%nat))
    as [e|[css page]]; cbn [andb]; [split; [exact Hd | split; discriminate]|].
  unfold WriteFile, chapterTarget. cbn [ch_Filename set_Content fs_dirs].
  set (target := path.Clean _).
  set (w1 := {| fs_files := fs_files w; fs_dirs := fs_dirs w; net_log := _ |}).
  rewrite (is_dir_dirs w0 w1 (path.Dir target)) by exact Hd.
  rewrite (is_dir_dirs w0 w1 target) by exact Hd.
  destruct (is_dir w0 (path.Dir target) && negb (is_dir w0 target)) eqn:Hw; cbn [negb fst snd].
  - split; [|split; reflexivity]. rewrite downloadAssets_dirs. exact Hd.
  - split; [exact Hd | split; discriminate].
Qed.

Lemma downloadFile_keeps (url p q : string) (c : Content) (w : World) :
  fs_files w !! q = Some c ->
  fs_files (downloadFile server url p w) !! q = Some c.
Proof.
  intros Hq. unfold downloadFile. destruct (FileExists p w) eqn:Hex; [exact Hq|].
  unfold GET. destruct (server url) as [resp|]; [|exact Hq].
  destruct (negb (IsSuccess resp)); [exact Hq|].
  unfold WriteFile. destruct (_ && _); [|exact Hq].
  cbn [snd put_file fs_files]. rewrite lookup_insert_ne; [exact Hq|].
  intros <-. unfold FileExists in Hex. apply orb_false_elim in Hex as [_ Hfile].
  unfold is_file in Hfile. apply bool_decide_eq_false in Hfile.
  apply Hfile. rewrite Hq. eauto.
Qed.

Lemma downloadAssets_keeps (chapter : Chapter) (basePath q : string) (c : Content) (w : World) :
  fs_files w !! q = Some c ->
  fs_files (downloadAssets server d chapter basePath w) !! q = Some c.
Proof.
  unfold downloadAssets. generalize (ch_Images chapter) as imgs.
  intros imgs. revert w. induction imgs as [|img imgs IH]; intros w Hq; cbn [fold_left];
    [exact Hq|].
  apply IH. destruct (String.eqb _ _); [exact Hq|].
  destruct (String.eqb _ _); [exact Hq|]. now apply downloadFile_keeps.
Qed.

(** A worker whose chapter can be processed leaves the page of the
    chapter in the target file, whatever was there before. *)
Lemma downloadChapter_writes (bookPath : string) (chapter : Chapter) (i : nat) (w0 w : World)
    (page : string) :
  fs_dirs w = fs_dirs w0 ->
  chapterOK server d bookPath w0 i chapter = true ->
  chapterPage server d i chapter = Some page ->
  fs_files (snd (downloadChapter server d (path.Join [bookPath; "OEBPS"]) chapter (i =? 0)%nat
                   (NewParser ("https://" +:+ siteURL d) (d_kindleMode d)) bookPath w))
    !! chapterTarget bookPath chapter = Some (Bytes page).
Proof.
  intros Hd. unfold downloadChapter, chapterOK, chapterPage, GET.
  destruct (server (ch_Content chapter)) as [resp|]; [|discriminate].
  destruct (IsSuccess resp); cbn [negb andb]; [|discriminate].
  destruct (snd (ParseChapter _ (set_Content (Body resp) chapter) (i =? 0)%nat))
    as [e|[css page']]; cbn [andb]; [discriminate|].
  unfold WriteFile, chapterTarget. cbn [ch_Filename set_Content fs_dirs].
  set (target := path.Clean _).
  set (w1 := {| fs_files := fs_files w; fs_dirs := fs_dirs w; net_log := _ |}).
  rewrite (is_dir_dirs w0 w1 (path.Dir target)) by exact Hd.
  rewrite (is_dir_dirs w0 w1 target) by exact Hd.
  intros -> [= ->]. cbn [negb fst snd].
  apply downloadAssets_keeps. cbn [put_file fs_files]. apply lookup_insert_eq.
Qed.

End WorkerFacts.

Section PoolFacts.

Context `{NetURL} `{HTMLFrontEnd}.
Variable server : Server.
Variable d : Downloader.

(** The workers of a schedule without repetition: the first error stays
    empty exactly when every scheduled chapter can be processed on its
    own. *)
Lemma workers_first_error (bookPath : string) (chapters : list Chapter) (w0 : World)
    (sched : list nat) :
  NoDup sched ->
  forall (chs : list Chapter) (firstError : option error) (w : World),
  fs_dirs w = fs_dirs w0 ->
  (forall i, i ∈ sched -> chs !! i = chapters !! i) ->
  let r := fold_left (fun st i => chapterWorker server d (path.Join [bookPath; "OEBPS"]) bookPath i st)
             sched (chs, firstError, w) in
  snd (fst r) = None
  <-> firstError = None
      /\ forall i ch, i ∈ sched -> chapters !! i = Some ch ->
           chapterOK server d bookPath w0 i ch = true.
Proof.
  induction 1 as [|i sched Hi Hnd IH]; intros chs firstError w Hd Hchs; cbn [fold_left].
  - cbn [fst snd]. split; [intros ->; split; [reflexivity|] | tauto].
    intros i ch Hin. inversion Hin.
  - unfold chapterWorker at 2.
    assert (Hi0 : chs !! i = chapters !! i) by (apply Hchs; left).
    destruct (chs !! i) as [ch|] eqn:Hch.
    + pose proof (downloadChapter_alone server d bookPath ch i w0 w Hd) as Hone.
      cbv zeta in Hone.
      destruct (downloadChapter server d (path.Join [bookPath; "OEBPS"]) ch (i =? 0)%nat
                  (NewParser ("https://" +:+ siteURL d) (d_kindleMode d)) bookPath w)
        as [[err ch'] w1].
      cbn [fst snd] in Hone. destruct Hone as [Hd1 Herr].
      rewrite IH; [|exact Hd1|].
      * split.
        -- intros [Hfe Hrest]. destruct firstError as [e|]; [discriminate|].
           split; [reflexivity|]. intros j cj Hj Hcj.
           apply elem_of_cons in Hj as [->|Hj]; [|now apply (Hrest j cj)].
           apply Herr in Hfe. congruence.
        -- intros [-> Hall]. split.
           ++ apply Herr. apply Hall; [left | congruence].
           ++ intros j cj Hj. apply Hall. now right.
      * intros j Hj. rewrite list_lookup_insert_ne.
        -- apply Hchs. now right.
        -- intros <-. contradiction.
    + rewrite IH; [|exact Hd|].
      * split; intros [Hfe Hall]; (split; [exact Hfe|]).
        -- intros j cj Hj Hcj. apply elem_of_cons in Hj as [->|Hj]; [congruence|].
           now apply (Hall j cj).
        -- intros j cj Hj. apply Hall. now right.
      * intros j Hj. apply Hchs. now right.
Qed.

(** The workers of a schedule only touch the chapters of the
    schedule, and no directory. *)
Lemma workers_state (bookPath : string) (w0 : World) (sched : list nat) :
  forall (chs : list Chapter) (firstError : option error) (w : World),
  fs_dirs w = fs_dirs w0 ->
  let r := fold_left (fun st i => chapterWorker server d (path.Join [bookPath; "OEBPS"]) bookPath i st)
             sched (chs, firstError, w) in
  fs_dirs (snd r) = fs_dirs w0
  /\ forall j, j ∉ sched -> fst (fst r) !! j = chs !! j.
Proof.
  induction sched as [|i sched IH]; intros chs firstError w Hd; cbn [fold_left].
  - split; [exact Hd | reflexivity].
  - unfold chapterWorker at 2 4.
    destruct (chs !! i) as [ch|] eqn:Hch.
    + pose proof (downloadChapter_alone server d bookPath ch i w0 w Hd) as Hone.
      cbv zeta in Hone.
      destruct (downloadChapter server d (path.Join [bookPath; "OEBPS"]) ch (i =? 0)%nat
                  (NewParser ("https://" +:+ siteURL d) (d_kindleMode d)) bookPath w)
        as [[err ch'] w1].
      cbn [fst snd] in Hone. destruct Hone as [Hd1 _].
      destruct (IH (<[i := ch']> chs)
                   (match firstError with None => err | Some e => Some e end) w1 Hd1)
        as [Hdirs Hkeep].
      split; [exact Hdirs|]. intros j Hj. apply not_elem_of_cons in Hj as [Hne Hj].
      rewrite Hkeep by exact Hj. now apply list_lookup_insert_ne.
    + destruct (IH chs firstError w Hd) as [Hdirs Hkeep].
      split; [exact Hdirs|]. intros j Hj. apply not_elem_of_cons in Hj as [_ Hj].
      now apply Hkeep.
Qed.

End PoolFacts.

(** C7, counterexample: two chapters with the same file name are both
    fetched and written, no error is returned, and the file holds the
    page of the chapter that was written last. *)
Lemma C7_duplicate_filenames_accepted :
  ch_Filename dupOne = ch_Filename dupTwo
  /\ snd (fst (dupChapters [0; 1]%nat)) = None
  /\ net_log (snd (dupChapters [0; 1]%nat)) = [contentURL "ch1.html"; contentURL "ch2.html"]
  /\ fs_files (snd (dupChapters [0; 1]%nat)) !! "Books/T (1)/OEBPS/ch.xhtml" = Some (pageOf "two")
  /\ snd (fst (dupChapters [1; 0]%nat)) = None
  /\ fs_files (snd (dupChapters [1; 0]%nat)) !! "Books/T (1)/OEBPS/ch.xhtml" = Some (pageOf "one").
Proof. repeat split; vm_compute; reflexivity. Qed.

(** C7, as amended: the pipeline has no check for duplicate file names.
    Whatever the order of the workers, downloadChapters returns no
    error exactly when each chapter can be processed on its own (its
    content is served with a 2xx status, its page has the content
    element, its target file can be written); two chapters with the
    same file name are both processed and written to the same file:
    a worker that can process its chapter leaves its page in the target
    file, so the file holds the page of the worker that ran last. *)
Theorem C7_no_duplicate_check `{NetURL} `{HTMLFrontEnd} (server : Server) (d : Downloader)
    (sched : list nat) (bookPath : string) (chapters : list Chapter) (w : World) :
  NoDup sched ->
  (snd (fst (downloadChapters server d sched bookPath chapters w)) = None
   <-> forall i ch, i ∈ sched -> chapters !! i = Some ch ->
         chapterOK server d bookPath w i ch = true)
  /\ (forall earlier i ch page,
        sched = (earlier ++ [i])%list ->
        chapters !! i = Some ch ->
        chapterOK server d bookPath w i ch = true ->
        chapterPage server d i ch = Some page ->
        fs_files (snd (downloadChapters server d sched bookPath chapters w))
          !! chapterTarget bookPath ch = Some (Bytes page)).
Proof.
  intros Hnd. split.
  - unfold downloadChapters.
    rewrite (workers_first_error server d bookPath chapters w sched Hnd chapters None w);
      [tauto | reflexivity | reflexivity].
  - intros earlier i ch page -> Hch Hok Hpage. unfold downloadChapters.
    rewrite fold_left_app. cbn [fold_left].
    apply NoDup_app in Hnd as (_ & Hfresh & _).
    destruct (workers_state server d bookPath w earlier chapters None w eq_refl)
      as [Hdirs Hkeep].
    cbv zeta in Hdirs, Hkeep.
    destruct (fold_left _ earlier (chapters, None, w)) as [[chs fe] w1].
    cbn [fst snd] in Hdirs, Hkeep.
    unfold chapterWorker. rewrite Hkeep, Hch.
    + pose proof (downloadChapter_writes server d bookPath ch i w w1 page Hdirs Hok Hpage)
        as Hw.
      destruct (downloadChapter server d (path.Join [bookPath; "OEBPS"]) ch (i =? 0)%nat
                  (NewParser ("https://" +:+ siteURL d) (d_kindleMode d)) bookPath w1)
        as [[err ch'] w2].
      exact Hw.
    + intros Hin. apply (Hfresh i Hin). left.
Qed.

(** C7 on the two chapters named ch.html. *)
Lemma C7_no_duplicate_check_witness :
  snd (fst (dupChapters [0; 1]%nat)) = None.
Proof.
  apply (@C7_no_duplicate_check Scenario.plainURL demoFrontEnd demoSite (demoDownloader false)
           [0; 1]%nat "Books/T (1)" [dupOne; dupTwo] bookWorld).
  - apply (bool_decide_unpack _). exact I.
  - intros i ch Hi Hch.
    destruct i as [|[|i]]; simpl in Hch; try discriminate Hch;
      injection Hch as <-; vm_compute; reflexivity.
Defined.

(** ** The stylesheets of a run (downloader, Run) *)

Section AssetFacts.

Context `{NetURL}.
Variable server : Server.
Variable d : Downloader.

Lemma downloadFile_requests (url p : string) (w : World) :
  net_log (downloadFile server url p w) = net_log w
  \/ net_log (downloadFile server url p w) = (net_log w ++ [url])%list.
Proof.
  unfold downloadFile. destruct (FileExists p w); [now left|]. right.
  unfold GET. destruct (server url) as [resp|]; [|reflexivity].
  destruct (negb (IsSuccess resp)); [reflexivity|].
  unfold WriteFile. destruct (_ && _); reflexivity.
Qed.

Lemma fold_requests {A} (F : World -> A -> World) (g : A -> string) :
  (forall w x, net_log (F w x) = net_log w \/ net_log (F w x) = (net_log w ++ [g x])%list) ->
  forall xs w,
  exists urls,
    net_log (fold_left F xs w) = (net_log w ++ urls)%list
    /\ forall u, u ∈ urls -> exists x, x ∈ xs /\ u = g x.
Proof.
  intros HF. induction xs as [|x xs IH]; intros w; cbn [fold_left].
  - exists []. split; [now rewrite app_nil_r|]. intros u Hu. inversion Hu.
  - destruct (IH (F w x)) as (urls & Hlog & Hxs).
    destruct (HF w x) as [Hsame|Hmore].
    + exists urls. split; [now rewrite Hlog, Hsame|].
      intros u Hu. destruct (Hxs u Hu) as (y & Hy & ->). exists y. split; [now right|reflexivity].
    + exists (g x :: urls). split.
      * rewrite Hlog, Hmore, <- app_assoc. reflexivity.
      * intros u Hu. apply elem_of_cons in Hu as [->|Hu].
        -- exists x. split; [now left | reflexivity].
        -- destruct (Hxs u Hu) as (y & Hy & ->). exists y. split; [now right|reflexivity].
Qed.

(** The asset step of a chapter requests nothing but images of the
    chapter. *)
Lemma downloadAssets_requests (chapter : Chapter) (basePath : string) (w : World) :
  exists urls,
    net_log (downloadAssets server d chapter basePath w) = (net_log w ++ urls)%list
    /\ forall u, u ∈ urls ->
         exists img, img ∈ ch_Images chapter /\ u = resolveImageURL d chapter img.
Proof.
  unfold downloadAssets. apply (fold_requests _ (resolveImageURL d chapter)).
  intros w0 img. cbv zeta.
  destruct (String.eqb (resolveImageURL d chapter img) EmptyString); [now left|].
  destruct (String.eqb _ EmptyString); [now left|]. apply downloadFile_requests.
Qed.

End AssetFacts.

(** C2, what the code does instead: the asset step of a chapter
    requests only the images of the chapter, and in the run of the
    scenario, which succeeds and whose two chapter pages link
    Styles/Style00.css, the only requests are the two API calls and the
    two chapter contents: no stylesheet is requested and no file is
    written under OEBPS/Styles. *)
Theorem C2_stylesheets_not_downloaded :
  (forall (N : NetURL) (server : Server) (d : Downloader) (chapter : Chapter)
          (basePath : string) (w : World),
      exists urls,
        net_log (downloadAssets server d chapter basePath w) = (net_log w ++ urls)%list
        /\ forall u, u ∈ urls ->
             exists img, img ∈ ch_Images chapter /\ u = resolveImageURL d chapter img)
  /\ fst demoRun = Some None
  /\ fileMentions (snd demoRun) "Books/T (1)/OEBPS/ch1.xhtml" "Styles/Style00.css" = true
  /\ fileMentions (snd demoRun) "Books/T (1)/OEBPS/ch2.xhtml" "Styles/Style00.css" = true
  /\ net_log (snd demoRun)
     = [ "https://learning.oreilly.com/api/v1/book/1/";
         "https://learning.oreilly.com/api/v1/book/1/chapter/?page=1";
         contentURL "ch1.html";
         contentURL "ch2.html" ]
  /\ (cssA ∉ net_log (snd demoRun))
  /\ (cssB ∉ net_log (snd demoRun))
  /\ is_dir (snd demoRun) "Books/T (1)/OEBPS/Styles" = true
  /\ filesUnder "Books/T (1)/OEBPS/Styles/" (snd demoRun) = [].
Proof.
  assert (Hlog : net_log (snd demoRun)
     = [ "https://learning.oreilly.com/api/v1/book/1/";
         "https://learning.oreilly.com/api/v1/book/1/chapter/?page=1";
         contentURL "ch1.html";
         contentURL "ch2.html" ]) by (vm_compute; reflexivity).
  split; [intros N server d chapter basePath w; apply downloadAssets_requests|].
  split; [vm_compute; reflexivity|].
  split; [vm_compute; reflexivity|].
  split; [vm_compute; reflexivity|].
  split; [exact Hlog|].
  split; [rewrite Hlog; apply (bool_decide_unpack _); vm_compute; exact I|].
  split; [rewrite Hlog; apply (bool_decide_unpack _); vm_compute; exact I|].
  split; vm_compute; reflexivity.
Qed.

(** * Further properties of the code *)

(** ** Directory names (utils.go, EscapeDirname) *)

Lemma mem_ascii_append (c : ascii) (a b : string) :
  strings.mem_ascii c (a +:+ b) = strings.mem_ascii c a || strings.mem_ascii c b.
Proof.
  induction a as [|x a IH]; simpl; [reflexivity|].
  destruct (Ascii.eqb c x); [reflexivity | exact IH].
Qed.

Lemma Replace_append (table : list (ascii * string)) (a b : string) :
  strings.Replace table (a +:+ b) = strings.Replace table a +:+ strings.Replace table b.
Proof.
  induction a as [|x a IH]; simpl; [reflexivity|].
  destruct (strings.replacer_lookup table x); rewrite IH; [now rewrite append_assoc | reflexivity].
Qed.

(** A text without any key of the table is left as it is. *)
Lemma Replace_no_key (table : list (ascii * string)) (s : string) :
  (forall c, strings.mem_ascii c s = true -> strings.replacer_lookup table c = None) ->
  strings.Replace table s = s.
Proof.
  induction s as [|x s IH]; intros Hs; simpl; [reflexivity|].
  rewrite (Hs x) by (simpl; now rewrite Ascii.eqb_refl).
  rewrite IH; [reflexivity|]. intros c Hc. apply Hs. simpl. rewrite Hc.
  now destruct (Ascii.eqb c x).
Qed.

(** What a replacement leaves of a character [c]: only what the
    replacing texts bring, or [c] itself when it is no key. *)
Lemma mem_ascii_Replace (table : list (ascii * string)) (c : ascii) (s : string) :
  strings.replacer_lookup table c <> None ->
  (forall k n, strings.replacer_lookup table k = Some n -> strings.mem_ascii c n = false) ->
  strings.mem_ascii c (strings.Replace table s) = false.
Proof.
  intros Hkey Hnew. induction s as [|x s IH]; simpl; [reflexivity|].
  destruct (strings.replacer_lookup table x) as [n|] eqn:Hx.
  - rewrite mem_ascii_append, (Hnew x n Hx), IH. reflexivity.
  - simpl. destruct (Ascii.eqb_spec c x) as [->|_]; [contradiction | exact IH].
Qed.

Lemma replacer_lookup_In (table : list (ascii * string)) (c : ascii) :
  In c (map fst table) <-> strings.replacer_lookup table c <> None.
Proof.
  induction table as [|[k n] table IH]; simpl.
  - split; [intros [] | intros Hn; now apply Hn].
  - destruct (Ascii.eqb_spec c k) as [->|Hne].
    + split; [discriminate | auto].
    + rewrite <- IH. split; [intros [Hk|Hin]; [congruence | exact Hin] | auto].
Qed.

Lemma Index_absent (c : ascii) (s : string) :
  strings.mem_ascii c s = false -> strings.Index s (String c EmptyString) = (-1)%Z.
Proof.
  induction s as [|x s IH]; simpl; [reflexivity|].
  destruct (Ascii.eqb_spec c x) as [->|Hne]; [discriminate|].
  intros Hs. destruct (ascii_dec c x) as [->|_]; [contradiction|].
  rewrite (IH Hs). reflexivity.
Qed.

Lemma Replace_length_le (table : list (ascii * string)) (s : string) :
  (forall k n, strings.replacer_lookup table k = Some n -> String.length n = 1%nat) ->
  String.length (strings.Replace table s) = String.length s.
Proof.
  intros Hone. induction s as [|x s IH]; simpl; [reflexivity|].
  destruct (strings.replacer_lookup table x) as [n|] eqn:Hx; simpl; [|now rewrite IH].
  apply Hone in Hx. destruct n as [|y [|z n]]; simpl in Hx; try discriminate.
  simpl. now rewrite IH.
Qed.

Lemma substring_length_le (n : nat) (s : string) :
  (String.length (String.substring 0 n s) <= String.length s)%nat.
Proof.
  revert s. induction n as [|n IH]; intros [|c s]; simpl; try lia.
  specialize (IH s). lia.
Qed.

Lemma EscapeDirname_no_escaped (name : string) (c : ascii) :
  In c escapedChars -> strings.mem_ascii c (EscapeDirname name) = false.
Proof.
  intros Hc. unfold EscapeDirname. apply mem_ascii_Replace.
  - now apply replacer_lookup_In.
  - intros k n Hn. apply escapeDirnameTable_nonempty in Hn as ->.
    unfold escapedChars in Hc. simpl in Hc.
    repeat (destruct Hc as [<-|Hc]; [reflexivity|]). destruct Hc.
Qed.

(** No escaped character is left in a directory name, and the name is
    not longer than the title it comes from. *)
Theorem EscapeDirname_clean (name : string) :
  (forall c, In c escapedChars -> strings.mem_ascii c (EscapeDirname name) = false)
  /\ (String.length (EscapeDirname name) <= String.length name)%nat.
Proof.
  split.
  - intros c. apply EscapeDirname_no_escaped.
  - unfold EscapeDirname. rewrite Replace_length_le.
    + destruct (15 <? strings.Index name ":")%Z; [apply substring_length_le | lia].
    + intros k n Hn. now apply escapeDirnameTable_nonempty in Hn as ->.
Qed.

(** Sanitizing twice is sanitizing once. *)
Theorem EscapeDirname_idempotent (name : string) :
  EscapeDirname (EscapeDirname name) = EscapeDirname name.
Proof.
  pose proof (EscapeDirname_no_escaped name) as Hclean.
  unfold EscapeDirname at 1.
  rewrite (Index_absent ":"%char) by (apply Hclean; unfold escapedChars; simpl; tauto).
  cbn [Z.ltb Z.compare]. apply Replace_no_key.
  intros c Hc. destruct (strings.replacer_lookup escapeDirnameTable c) eqn:Hl; [|reflexivity].
  assert (Hin : In c escapedChars).
  { apply replacer_lookup_In. congruence. }
  rewrite (Hclean c Hin) in Hc. discriminate.
Qed.

(** ** Query and fragment (utils.go, StripQueryFragment) *)

Lemma substring_0_cons (n : nat) (c : ascii) (s : string) :
  String.substring 0 (S n) (String c s) = String c (String.substring 0 n s).
Proof. reflexivity. Qed.

Lemma substring_0_0 (s : string) : String.substring 0 0 s = EmptyString.
Proof. destruct s; reflexivity. Qed.

Lemma IndexAny_range (s chars : string) :
  (-1 <= strings.IndexAny s chars)%Z.
Proof.
  induction s as [|c s IH]; simpl; [lia|].
  destruct (strings.mem_ascii c chars); [lia|].
  destruct (strings.IndexAny s chars <? 0)%Z eqn:Hlt; lia.
Qed.

(** The part kept is the longest beginning of the link without question
    mark or hash: what follows, if anything, starts with one of the
    two. *)
Theorem StripQueryFragment_prefix (link : string) :
  exists rest,
    link = StripQueryFragment link +:+ rest
    /\ (forall c, strings.mem_ascii c "?#" = true ->
          strings.mem_ascii c (StripQueryFragment link) = false)
    /\ match rest with
       | EmptyString => True
       | String c _ => strings.mem_ascii c "?#" = true
       end.
Proof.
  unfold StripQueryFragment, strings.slice_to.
  induction link as [|x link (rest & Hrest & Hno & Hnext)].
  - exists EmptyString. simpl. auto.
  - cbn [strings.IndexAny].
    destruct (strings.mem_ascii x "?#") eqn:Hx.
    + exists (String x link). cbn [Z.leb Z.compare Z.to_nat]. cbv iota.
      rewrite substring_0_0. repeat split; auto.
    + pose proof (IndexAny_range link "?#") as Hr.
      destruct (strings.IndexAny link "?#" <? 0)%Z eqn:Hlt.
      * apply Z.ltb_lt in Hlt.
        replace (0 <=? strings.IndexAny link "?#")%Z with false in *
          by (symmetry; apply Z.leb_gt; lia).
        change (0 <=? -1)%Z with false.
        cbv iota in *. exists rest. split; [cbn [String.append]; now rewrite <- Hrest|].
        split; [|exact Hnext].
        intros c Hc. cbn [strings.mem_ascii].
        destruct (Ascii.eqb_spec c x) as [->|_]; [congruence|].
        now apply Hno.
      * apply Z.ltb_ge in Hlt.
        replace (0 <=? strings.IndexAny link "?#")%Z with true in *
          by (symmetry; apply Z.leb_le; lia).
        replace (0 <=? strings.IndexAny link "?#" + 1)%Z with true
          by (symmetry; apply Z.leb_le; lia).
        replace (Z.to_nat (strings.IndexAny link "?#" + 1))
          with (S (Z.to_nat (strings.IndexAny link "?#"))) by lia.
        cbv iota in *. rewrite substring_0_cons. exists rest.
        split; [cbn [String.append]; now rewrite <- Hrest|]. split; [|exact Hnext].
        intros c Hc. cbn [strings.mem_ascii].
        destruct (Ascii.eqb_spec c x) as [->|_]; [congruence|].
        now apply Hno.
Qed.

(** ** File names (utils.go, BaseName and FilenameFromURL) *)

Lemma afterLastSlash_no_slash (s : string) : path.hasSlash (path.afterLastSlash s) = false.
Proof.
  induction s as [|c s IH]; simpl; [reflexivity|].
  destruct (path.hasSlash s) eqn:Hs; [exact IH|].
  destruct (path.isSlash c) eqn:Hc; [exact Hs|]. simpl. now rewrite Hc, Hs.
Qed.

(** [path.Base] has a slash only when it is the root. *)
Lemma Base_no_slash (p : string) :
  path.Base p = "/" \/ path.hasSlash (path.Base p) = false.
Proof.
  unfold path.Base. destruct p as [|c p]; [now right|].
  pose proof (afterLastSlash_no_slash (strings.TrimRightFunc path.isSlash (String c p))) as Hn.
  destruct (path.afterLastSlash _); [now left | now right].
Qed.

Lemma TrimLeftFunc_no_slash (f : ascii -> bool) (s : string) :
  path.hasSlash s = false -> path.hasSlash (strings.TrimLeftFunc f s) = false.
Proof.
  induction s as [|c s IH]; simpl; [reflexivity|].
  intros Hs. apply orb_false_elim in Hs as [Hc Hs].
  destruct (f c); [now apply IH|]. simpl. now rewrite Hc, Hs.
Qed.

Lemma TrimRightFunc_no_slash (f : ascii -> bool) (s : string) :
  path.hasSlash s = false -> path.hasSlash (strings.TrimRightFunc f s) = false.
Proof.
  induction s as [|c s IH]; simpl; [reflexivity|].
  intros Hs. apply orb_false_elim in Hs as [Hc Hs]. specialize (IH Hs).
  destruct (strings.TrimRightFunc f s).
  - destruct (f c); [reflexivity|]. simpl. now rewrite Hc.
  - simpl in *. now rewrite Hc, IH.
Qed.

(** The names under which links and images are stored have no slash:
    whatever the URL, the file lies directly in the Images directory
    and the rewritten link has one path element after Images/. *)
Theorem file_names_without_slash `{NetURL} (raw : string) :
  path.hasSlash (BaseName raw) = false
  /\ path.hasSlash (FilenameFromURL raw) = false.
Proof.
  split.
  - unfold BaseName. destruct (Base_no_slash (StripQueryFragment raw)) as [-> | Hn].
    + reflexivity.
    + destruct (_ || _); [reflexivity | exact Hn].
  - unfold FilenameFromURL. destruct (String.eqb raw EmptyString); [reflexivity|].
    assert (Hfallback :
      path.hasSlash
        (if String.eqb (strings.Trim (path.Base (StripQueryFragment raw)) "/") EmptyString
         then EmptyString
         else strings.Trim (path.Base (StripQueryFragment raw)) "/") = false).
    { destruct (String.eqb _ EmptyString); [reflexivity|].
      destruct (Base_no_slash (StripQueryFragment raw)) as [-> | Hn]; [reflexivity|].
      unfold strings.Trim. now apply TrimLeftFunc_no_slash, TrimRightFunc_no_slash. }
    destruct (url_Parse raw) as [parsed|]; [|exact Hfallback].
    destruct (Base_no_slash (url_Path parsed)) as [-> | Hn]; [exact Hfallback|].
    destruct (_ && _); [exact Hn | exact Hfallback].
Qed.

(** ** The link-rewrite rule against the specification (parser.go, linkReplace) *)










Section LinkRuleFacts.

Context `{NetURL}.





End LinkRuleFacts.




(** ** XML escaping (downloader, escapeXML) *)

Lemma ReplaceAll_go_single (c : ascii) (new s : string) (fuel : nat) :
  (String.length s < fuel)%nat ->
  strings.ReplaceAll_go fuel s (String c EmptyString) new = strings.Replace [(c, new)] s.
Proof.
  revert fuel. induction s as [|x s IH]; intros [|fuel] Hf; simpl in Hf; try lia.
  - reflexivity.
  - cbn [strings.ReplaceAll_go String.prefix strings.Replace strings.replacer_lookup].
    destruct (ascii_dec c x) as [->|Hne].
    + rewrite Ascii.eqb_refl. cbn [String.length strings.slice_from].
      replace (String.prefix EmptyString s) with true by (destruct s; reflexivity).
      replace (strings.slice_from s 0) with s by (destruct s; reflexivity).
      rewrite IH by lia. reflexivity.
    + destruct (Ascii.eqb_spec x c) as [->|_]; [contradiction|].
      rewrite IH by lia. reflexivity.
Qed.

(** Replacing every occurrence of one character is a replacement table
    with one entry. *)
Lemma ReplaceAll_single (c : ascii) (new s : string) :
  strings.ReplaceAll s (String c EmptyString) new = strings.Replace [(c, new)] s.
Proof. unfold strings.ReplaceAll. apply ReplaceAll_go_single. lia. Qed.

Lemma replacer_lookup_app (T U : list (ascii * string)) (x : ascii) :
  strings.replacer_lookup (T ++ U) x =
  match strings.replacer_lookup T x with
  | Some v => Some v
  | None => strings.replacer_lookup U x
  end.
Proof.
  induction T as [|[k v] T IH]; simpl; [reflexivity|].
  destruct (Ascii.eqb x k); [reflexivity | exact IH].
Qed.

(** A replacement of [c] after a table whose texts do not bring [c] is
    the table with one more entry. *)
Lemma Replace_then_single (T : list (ascii * string)) (c : ascii) (n s : string) :
  (forall k v, strings.replacer_lookup T k = Some v -> strings.mem_ascii c v = false) ->
  strings.Replace [(c, n)] (strings.Replace T s) = strings.Replace (T ++ [(c, n)]) s.
Proof.
  intros HT. induction s as [|x s IH]; [reflexivity|].
  cbn [strings.Replace]. rewrite replacer_lookup_app.
  destruct (strings.replacer_lookup T x) as [v|] eqn:Hx.
  - rewrite Replace_append, IH. f_equal. apply Replace_no_key.
    intros y Hy. simpl. destruct (Ascii.eqb_spec y c) as [->|_]; [|reflexivity].
    rewrite (HT x v Hx) in Hy. discriminate.
  - cbn [strings.Replace]. rewrite IH. reflexivity.
Qed.

(** The five replacements of escapeXML, one after the other, are one
    pass over the text with the five entities: an ampersand that an
    earlier step wrote is not escaped again. The result has no angle
    bracket, double quote or apostrophe, and escaping goes through
    concatenation. *)
Theorem escapeXML_single_pass (s : string) :
  escapeXML s = strings.Replace xmlEntities s
  /\ (forall c, In c ["<"%char; ">"%char; dquote; "'"%char] ->
        strings.mem_ascii c (escapeXML s) = false)
  /\ (forall t, escapeXML (s +:+ t) = escapeXML s +:+ escapeXML t).
Proof.
  assert (Hone : forall s, escapeXML s = strings.Replace xmlEntities s).
  { intros s0. unfold escapeXML, quote.
    rewrite !ReplaceAll_single.
    rewrite (Replace_then_single [("&"%char, "&amp;")] "<"%char).
    2:{ intros k v Hk. simpl in Hk. destruct (Ascii.eqb k "&"); [|discriminate].
        injection Hk as <-. reflexivity. }
    rewrite (Replace_then_single _ ">"%char).
    2:{ intros k v Hk. simpl in Hk.
        repeat (match type of Hk with
                | (if ?b then _ else _) = _ => destruct b; [injection Hk as <-; reflexivity|]
                end). discriminate. }
    rewrite (Replace_then_single _ dquote).
    2:{ intros k v Hk. simpl in Hk.
        repeat (match type of Hk with
                | (if ?b then _ else _) = _ => destruct b; [injection Hk as <-; reflexivity|]
                end). discriminate. }
    rewrite (Replace_then_single _ "'"%char).
    2:{ intros k v Hk. simpl in Hk.
        repeat (match type of Hk with
                | (if ?b then _ else _) = _ => destruct b; [injection Hk as <-; reflexivity|]
                end). discriminate. }
    reflexivity. }
  split; [apply Hone|]. split.
  - intros c Hc. rewrite Hone. apply mem_ascii_Replace.
    + apply replacer_lookup_In. simpl in *. tauto.
    + intros k v Hk. simpl in Hk. simpl in Hc.
      repeat (match type of Hk with
              | (if ?b then _ else _) = _ =>
                  destruct b;
                  [injection Hk as <-;
                   repeat (destruct Hc as [<-|Hc]; [reflexivity|]); destruct Hc|]
              end).
      discriminate.
  - intros t. rewrite !Hone. apply Replace_append.
Qed.

(** ** The first non-empty text (downloader, firstNonEmpty) *)

(** firstNonEmpty gives the empty text only when every candidate is
    empty; otherwise it gives the first candidate that is not empty,
    all candidates before it being empty. *)
Theorem firstNonEmpty_first (strs : list string) :
  (firstNonEmpty strs = EmptyString <-> Forall (fun s => s = EmptyString) strs)
  /\ (firstNonEmpty strs <> EmptyString ->
      exists before after,
        strs = (before ++ firstNonEmpty strs :: after)%list
        /\ Forall (fun s => s = EmptyString) before).
Proof.
  induction strs as [|s strs [IHe IHf]]; simpl.
  - split; [split; [constructor | reflexivity] | intros Hn; contradiction].
  - destruct (String.eqb_spec s EmptyString) as [->|Hs]; simpl.
    + split.
      * rewrite IHe. split; [now constructor | intros Ha; now inversion Ha].
      * intros Hn. destruct (IHf Hn) as (before & after & Heq & Hb).
        exists (EmptyString :: before), after. split; [simpl; now rewrite <- Heq | now constructor].
    + split.
      * split; [contradiction | intros Ha; now inversion Ha].
      * intros _. exists [], strs. split; [reflexivity | constructor].
Qed.

Lemma firstNonEmpty_first_witness :
  exists before after,
    [EmptyString; "urn:x"; "1"] = (before ++ "urn:x" :: after)%list
    /\ Forall (fun s => s = EmptyString) before.
Proof.
  destruct (firstNonEmpty_first [EmptyString; "urn:x"; "1"]) as [_ Hf].
  apply Hf. discriminate.
Defined.

(** ** The registry over time (parser.go, ensureCSS and ParseChapter) *)

(** One registration, of any URL, keeps the registry consistent and
    keeps every earlier URL at its index. *)
Lemma ensureCSS_grows (u : string) (p : Parser) :
  registryOK p ->
  registryOK (snd (ensureCSS u p))
  /\ forall j v, cssList p !! j = Some v -> cssList (snd (ensureCSS u p)) !! j = Some v.
Proof.
  intros Hok. destruct (String.eqb_spec u EmptyString) as [->|Hu].
  - unfold ensureCSS. simpl. auto.
  - pose proof (ensureCSS_spec u p Hu Hok) as Hs.
    destruct (ensureCSS u p) as [k p']. destruct Hs as (Hok' & Hl & _ & _).
    split; [exact Hok'|]. intros j v Hj. cbn [snd]. rewrite Hl.
    destruct (bool_decide (u ∈ cssList p)); [exact Hj|].
    rewrite lookup_app_l; [exact Hj|]. eapply lookup_lt_Some; eauto.
Qed.

Lemma registerAll_grows (urls : list string) (p : Parser) :
  registryOK p ->
  registryOK (snd (registerAll urls p))
  /\ forall j v, cssList p !! j = Some v -> cssList (snd (registerAll urls p)) !! j = Some v.
Proof.
  revert p. induction urls as [|u urls IH]; intros p Hok; simpl; [auto|].
  destruct (ensureCSS_grows u p Hok) as [Hok1 Hkeep1].
  destruct (ensureCSS u p) as [k p1]. cbn [snd] in *.
  destruct (IH p1 Hok1) as [Hok2 Hkeep2].
  destruct (registerAll urls p1) as [ks p2]. cbn [snd] in *.
  split; [exact Hok2|]. auto.
Qed.

(** Registering a URL again returns the same index and changes
    nothing, and the URLs registered before keep their index, whatever
    the URL. The empty URL is never registered: it gets the index 0 and
    the registry stays as it is. A URL that is not empty gets an index
    at which the list holds it; when it was registered before, nothing
    changes, and when it was not, it is appended to the list and gets
    the next free index. *)
Theorem ensureCSS_stable (u : string) (p : Parser) :
  registryOK p ->
  ensureCSS u (snd (ensureCSS u p)) = ensureCSS u p
  /\ (forall v j, cssIndex p !! v = Some j -> cssIndex (snd (ensureCSS u p)) !! v = Some j)
  /\ (u = EmptyString -> ensureCSS u p = (0%nat, p))
  /\ (u <> EmptyString ->
        cssList (snd (ensureCSS u p)) !! fst (ensureCSS u p) = Some u
        /\ (u ∈ cssList p -> snd (ensureCSS u p) = p)
        /\ (u ∉ cssList p ->
              fst (ensureCSS u p) = length (cssList p)
              /\ cssList (snd (ensureCSS u p)) = (cssList p ++ [u])%list)).
Proof.
  intros Hok. destruct (String.eqb_spec u EmptyString) as [->|Hu].
  - unfold ensureCSS. cbn [String.eqb snd fst].
    split; [reflexivity|]. split; [auto|]. split; [reflexivity|]. intros Hne. now destruct Hne.
  - pose proof (ensureCSS_spec u p Hu Hok) as Hs.
    destruct (ensureCSS_grows u p Hok) as [_ Hkeep].
    assert (Hold : u ∈ cssList p -> snd (ensureCSS u p) = p).
    { intros [k Hk]%list_elem_of_lookup. destruct Hok as [_ Hidx]. apply Hidx in Hk.
      unfold ensureCSS. destruct (String.eqb u EmptyString); [reflexivity|].
      now rewrite Hk. }
    destruct (ensureCSS u p) as [k p'] eqn:He. destruct Hs as (Hok' & Hl & Hk & _).
    cbn [fst snd] in *. split; [|split; [|split; [|intros _; split; [|split]]]].
    + unfold ensureCSS. destruct (String.eqb_spec u EmptyString) as [->|_]; [contradiction|].
      destruct Hok' as [_ Hidx]. apply Hidx in Hk. now rewrite Hk.
    + intros v j Hv. destruct Hok as [_ Hidx]. destruct Hok' as [_ Hidx'].
      apply Hidx'. apply Hkeep. now apply Hidx.
    + intros ->. contradiction.
    + exact Hk.
    + exact Hold.
    + intros Hnew. rewrite bool_decide_false in Hl by exact Hnew.
      split; [|exact Hl]. destruct Hok' as [Hnd _].
      assert (Hlast : cssList p' !! length (cssList p) = Some u).
      { rewrite Hl, lookup_app_r by lia. now rewrite Nat.sub_diag. }
      eapply NoDup_lookup; eauto.
Qed.

Lemma ensureCSS_stable_witness :
  ensureCSS cssA (snd (ensureCSS cssA (NewParser "https://learning.oreilly.com" false)))
  = ensureCSS cssA (NewParser "https://learning.oreilly.com" false).
Proof.
  apply (ensureCSS_stable cssA (NewParser "https://learning.oreilly.com" false)).
  apply NewParser_registryOK.
Defined.

(** A parser that is used for one chapter after another keeps what it
    has: whatever ParseChapter returns, error included, the registry
    stays consistent and every URL registered before keeps its
    index. *)
Theorem ParseChapter_registry_grows `{NetURL} `{HTMLFrontEnd} (p : Parser) (chapter : Chapter)
    (isFirst : bool) :
  registryOK p ->
  registryOK (fst (ParseChapter p chapter isFirst))
  /\ forall j v, cssList p !! j = Some v ->
       cssList (fst (ParseChapter p chapter isFirst)) !! j = Some v.
Proof.
  intros Hok.
  destruct (goquery_NewDocument (ch_Content chapter)) as [doc|] eqn:Hdoc.
  - destruct (ParseChapter_registry p chapter isFirst doc Hdoc) as [-> _].
    now apply registerAll_grows.
  - unfold ParseChapter. rewrite Hdoc. simpl. auto.
Qed.

Lemma ParseChapter_registry_grows_witness :
  registryOK (fst (@ParseChapter Scenario.plainURL demoFrontEnd
                     (NewParser "https://learning.oreilly.com" false) chTwoParsed false)).
Proof.
  apply (@ParseChapter_registry_grows Scenario.plainURL demoFrontEnd).
  apply NewParser_registryOK.
Defined.

(** ** More on the chapter index (client.go, GetBookChapters) *)

Lemma concat_promote_Permutation (pages : list (list Chapter)) :
  concat (map promotePage pages) ≡ₚ concat pages.
Proof.
  induction pages as [|page pages IH]; simpl; [reflexivity|].
  now rewrite promotePage_Permutation, IH.
Qed.

(** No chapter is lost or repeated by the promotion of the covers: the
    chapters returned are those of the pages, in another order. *)
Theorem GetBookChapters_permutation `{JSONDecoder} (server : Server) (bookID : string)
    (pages : list (list Chapter)) (fuel : nat) (w : World) :
  indexWalk server (chaptersURL bookID) pages EmptyString ->
  (length pages <= fuel)%nat ->
  exists chapters,
    fst (GetBookChapters server fuel bookID w) = Some (inr chapters)
    /\ chapters ≡ₚ concat pages
    /\ length chapters = length (concat pages).
Proof.
  intros Hwalk Hfuel. unfold GetBookChapters.
  replace fuel with (length pages + (fuel - length pages))%nat by lia.
  destruct (GetBookChapters_loop_walk server _ _ _ Hwalk (fuel - length pages)%nat [] w)
    as (w' & -> & _).
  exists (concat (map promotePage pages)). split; [destruct (fuel - length pages)%nat; reflexivity|].
  split; [apply concat_promote_Permutation|].
  apply Permutation_length, concat_promote_Permutation.
Qed.

Lemma GetBookChapters_permutation_witness :
  exists chapters,
    fst (@GetBookChapters S5_decoder S5_site 2 "1" Scenario.emptyWorld) = Some (inr chapters)
    /\ chapters ≡ₚ [chA; chB; chC; chD]
    /\ length chapters = 4%nat.
Proof.
  apply (@GetBookChapters_permutation S5_decoder S5_site "1" [[chA; chB]; [chC; chD]]).
  - eapply (@walk_page S5_decoder S5_site _ _
              {| Count := 4; Next := Some page2URL; Results := [chA; chB] |});
      [discriminate | reflexivity | reflexivity | reflexivity | discriminate |].
    eapply (@walk_page S5_decoder S5_site _ _
              {| Count := 4; Next := None; Results := [chC; chD] |});
      [discriminate | reflexivity | reflexivity | reflexivity | discriminate |].
    apply walk_done.
  - simpl. lia.
Defined.

(** A page that cannot be fetched or decoded aborts the call wherever
    it comes: after any number of good pages, a failed request, a
    status outside 2xx or a body that does not decode gives the
    corresponding error, and the chapters of the good pages are not
    returned. *)
Theorem GetBookChapters_page_failure `{JSONDecoder} (server : Server) (bookID : string)
    (pages : list (list Chapter)) (u : string) (fuel : nat) (w : World) :
  indexWalk server (chaptersURL bookID) pages u ->
  u <> EmptyString ->
  (length pages < fuel)%nat ->
  (server u = None ->
     fst (GetBookChapters server fuel bookID w)
     = Some (inl (ErrRequest "API: retrieve book chapters")))
  /\ (forall resp, server u = Some resp -> IsSuccess resp = false ->
        fst (GetBookChapters server fuel bookID w)
        = Some (inl (ErrUnexpectedStatus (StatusCode resp))))
  /\ (forall resp, server u = Some resp -> IsSuccess resp = true ->
        json_ChapterResponse (Body resp) = None ->
        fst (GetBookChapters server fuel bookID w) = Some (inl ErrInvalidResponse)).
Proof.
  intros Hwalk Hu Hfuel. unfold GetBookChapters.
  replace fuel with (length pages + S (fuel - length pages - 1))%nat by lia.
  destruct (GetBookChapters_loop_walk server _ _ _ Hwalk (S (fuel - length pages - 1)) [] w)
    as (w' & -> & _).
  cbn [GetBookChapters_loop].
  destruct (String.eqb_spec u EmptyString) as [->|_]; [contradiction|].
  unfold GET, HandleJSONResponse_chapters. split; [|split].
  - intros ->. reflexivity.
  - intros resp -> Hs. rewrite Hs. reflexivity.
  - intros resp -> Hs Hj. rewrite Hs, Hj. reflexivity.
Qed.

Lemma GetBookChapters_page_failure_witness :
  fst (@GetBookChapters S5_decoder (Scenario.site [(chaptersURL "1", "first page")]) 2 "1"
         Scenario.emptyWorld)
  = Some (inl (ErrUnexpectedStatus 404)).
Proof.
  destruct (@GetBookChapters_page_failure S5_decoder
              (Scenario.site [(chaptersURL "1", "first page")]) "1" [[chA; chB]] page2URL 2
              Scenario.emptyWorld) as (_ & Hstatus & _).
  - eapply (@walk_page S5_decoder _ _ _
              {| Count := 4; Next := Some page2URL; Results := [chA; chB] |});
      [discriminate | reflexivity | reflexivity | reflexivity | discriminate |].
    apply walk_done.
  - discriminate.
  - simpl. lia.
  - apply (Hstatus {| StatusCode := 404; Body := "not found" |}); reflexivity.
Defined.

Section CursorFacts.

Context `{JSONDecoder}.
Variable server : Server.

(** With less fuel than pages the loop is still walking. *)
Lemma GetBookChapters_loop_short (u : string) (pages : list (list Chapter)) (u' : string) :
  indexWalk server u pages u' ->
  forall (fuel : nat) (all : list Chapter) (w : World),
  (fuel < length pages)%nat ->
  fst (GetBookChapters_loop server fuel u all w) = None.
Proof.
  induction 1 as [u | u resp payload pages u' Hu Hs Hok Hj Hne Hwalk IH];
    intros fuel all w Hfuel; simpl in Hfuel; [lia|].
  destruct fuel as [|fuel]; cbn [GetBookChapters_loop];
    destruct (String.eqb_spec u EmptyString) as [->|_]; try contradiction; [reflexivity|].
  unfold GET. rewrite Hs. unfold HandleJSONResponse_chapters. rewrite Hok, Hj. cbn [negb].
  destruct (Results payload) as [|ch0 page] eqn:Hres; [contradiction|].
  cbn [length Nat.eqb].
  assert (Hcur : match Next payload with
                 | Some next => if negb (String.eqb next EmptyString) then next else EmptyString
                 | None => EmptyString
                 end = nextCursor payload).
  { unfold nextCursor. destruct (Next payload) as [n|]; [|reflexivity]. simpl.
    destruct (String.eqb_spec n EmptyString); simpl; congruence. }
  rewrite Hcur. apply IH. lia.
Qed.

(** A cursor that comes back to a page already served is followed for
    ever: the loop has no end, whatever the fuel. *)
Lemma GetBookChapters_loop_cycle (u : string) (pages : list (list Chapter)) :
  indexWalk server u pages u -> pages <> [] ->
  forall (fuel : nat) (all : list Chapter) (w : World),
  fst (GetBookChapters_loop server fuel u all w) = None.
Proof.
  intros Hwalk Hne fuel. induction fuel as [fuel IH] using lt_wf_ind. intros all w.
  destruct (le_lt_dec (length pages) fuel) as [Hge|Hlt].
  - replace fuel with (length pages + (fuel - length pages))%nat by lia.
    destruct (GetBookChapters_loop_walk server _ _ _ Hwalk (fuel - length pages)%nat all w)
      as (w' & -> & _).
    apply IH. destruct pages; [contradiction|]. simpl in *. lia.
  - eapply GetBookChapters_loop_short; eauto.
Qed.

End CursorFacts.

(** The walk of the index has no guard against a cursor that loops:
    when, after some pages, the cursor comes back to a page already
    served, GetBookChapters does not return. *)
Theorem GetBookChapters_cursor_cycle `{JSONDecoder} (server : Server) (bookID : string)
    (before cycle : list (list Chapter)) (u : string) :
  indexWalk server (chaptersURL bookID) before u ->
  indexWalk server u cycle u ->
  cycle <> [] ->
  forall (fuel : nat) (w : World), fst (GetBookChapters server fuel bookID w) = None.
Proof.
  intros Hbefore Hcycle Hne fuel w. unfold GetBookChapters.
  destruct (le_lt_dec (length before) fuel) as [Hge|Hlt].
  - replace fuel with (length before + (fuel - length before))%nat by lia.
    destruct (GetBookChapters_loop_walk server _ _ _ Hbefore (fuel - length before)%nat [] w)
      as (w' & -> & _).
    now apply (GetBookChapters_loop_cycle server u cycle).
  - destruct before as [|page before]; [simpl in Hlt; lia|].
    eapply GetBookChapters_loop_short; eauto.
Qed.

Lemma GetBookChapters_cursor_cycle_witness :
  fst (@GetBookChapters loopDecoder S5_site 100 "1" Scenario.emptyWorld) = None.
Proof.
  apply (@GetBookChapters_cursor_cycle loopDecoder S5_site "1" [] [[chA; chB]] (chaptersURL "1")).
  - apply walk_done.
  - eapply (@walk_page loopDecoder S5_site _ _
              {| Count := 2; Next := Some (chaptersURL "1"); Results := [chA; chB] |});
      [discriminate | reflexivity | reflexivity | reflexivity | discriminate |].
    apply walk_done.
  - discriminate.
Defined.

(** ** The cover (downloader, generateCoverURLVariants and the downloads) *)

Lemma slice_from_append (a r : string) :
  strings.slice_from (a +:+ r) (String.length a) = r.
Proof.
  induction a as [|c a IH]; simpl; [destruct r; reflexivity | exact IH].
Qed.

(** Replacing a text by itself changes nothing. *)
Lemma ReplaceAll_same (s old : string) : strings.ReplaceAll s old old = s.
Proof.
  unfold strings.ReplaceAll. destruct old as [|c old].
  - induction s as [|x s IH]; simpl; [reflexivity | now rewrite IH].
  - generalize (S (String.length s)) as fuel. intros fuel. revert s.
    induction fuel as [|fuel IH]; intros s; [reflexivity|].
    cbn [strings.ReplaceAll_go].
    destruct (String.prefix (String c old) s) eqn:Hp.
    + apply prefix_true_iff in Hp as [r ->].
      rewrite slice_from_append, IH. reflexivity.
    + destruct s as [|x s]; [reflexivity|]. now rewrite IH.
Qed.

(** A cover URL that already asks for the size 600w (and for no larger
    one) gives the same URL twice: the second attempt repeats the
    first. *)
Theorem cover_variants_already_600w (coverURL : string) :
  strings.Contains coverURL "1200w" = false ->
  strings.Contains coverURL "800w" = false ->
  strings.Contains coverURL "600w" = true ->
  generateCoverURLVariants coverURL = [coverURL; coverURL].
Proof.
  intros H12 H8 H6. unfold generateCoverURLVariants, sizeVariants.
  cbn [coverVariants_loop]. rewrite H12, H8, H6. now rewrite ReplaceAll_same.
Qed.

Lemma cover_variants_already_600w_witness :
  generateCoverURLVariants "https://cdn/x/600w/cover.jpg"
  = ["https://cdn/x/600w/cover.jpg"; "https://cdn/x/600w/cover.jpg"].
Proof. apply cover_variants_already_600w; reflexivity. Defined.

Section CoverFacts.

Context `{NetURL}.
Variable server : Server.
Variable d : Downloader.

(** When an attempt gives a name, one of the variants was answered with
    a 2xx status and its body is in the cover file; when it gives none,
    no file was written. *)
Lemma tryVariants_result (variants : list string) (imagesPath : string) (w : World) :
  match tryVariants server variants imagesPath w with
  | (Some name, w') =>
      exists url resp,
        url ∈ variants /\ server url = Some resp /\ IsSuccess resp = true
        /\ name = "cover" +:+ (if strings.Contains url ".png" then ".png" else ".jpg")
        /\ fs_files w' !! path.Clean (path.Join [imagesPath; name]) = Some (Bytes (Body resp))
        /\ fs_dirs w' = fs_dirs w
  | (None, w') => fs_files w' = fs_files w /\ fs_dirs w' = fs_dirs w
  end.
Proof.
  revert w. induction variants as [|url variants IH]; intros w; cbn [tryVariants].
  - auto.
  - unfold GET.
    set (w1 := {| fs_files := fs_files w; fs_dirs := fs_dirs w; net_log := _ |}).
    assert (Hrest :
      match tryVariants server variants imagesPath w1 with
      | (Some name, w') =>
          exists url0 resp,
            url0 ∈ url :: variants /\ server url0 = Some resp /\ IsSuccess resp = true
            /\ name = "cover" +:+ (if strings.Contains url0 ".png" then ".png" else ".jpg")
            /\ fs_files w' !! path.Clean (path.Join [imagesPath; name]) = Some (Bytes (Body resp))
            /\ fs_dirs w' = fs_dirs w
      | (None, w') => fs_files w' = fs_files w /\ fs_dirs w' = fs_dirs w
      end).
    { specialize (IH w1). destruct (tryVariants server variants imagesPath w1) as [[name|] w'].
      - destruct IH as (u & r & Hu & Hr). exists u, r. split; [now right | exact Hr].
      - exact IH. }
    destruct (server url) as [resp|] eqn:Hs; [|exact Hrest].
    destruct (IsSuccess resp) eqn:Hok; cbn [negb]; [|exact Hrest].
    unfold WriteFile. destruct (_ && _); cbn [negb]; [|exact Hrest].
    exists url, resp. split; [left|]. repeat split; try assumption.
    cbn [put_file fs_files]. apply lookup_insert_eq.
Qed.

End CoverFacts.

(** downloadLargestCover returns cover.jpg, cover.png or nothing. A
    name means that a variant of the cover URL was answered with a 2xx
    status and that the cover file holds its body; the extension is png
    exactly when that variant has .png in it. Nothing means that no
    file was written. *)
Theorem downloadLargestCover_saved (server : Server) (coverURL imagesPath : string)
    (w : World) :
  let name := fst (downloadLargestCover server coverURL imagesPath w) in
  let w' := snd (downloadLargestCover server coverURL imagesPath w) in
  (name = EmptyString /\ fs_files w' = fs_files w)
  \/ (exists url resp,
        url ∈ generateCoverURLVariants coverURL
        /\ server url = Some resp /\ IsSuccess resp = true
        /\ name = "cover" +:+ (if strings.Contains url ".png" then ".png" else ".jpg")
        /\ fs_files w' !! path.Clean (path.Join [imagesPath; name]) = Some (Bytes (Body resp))).
Proof.
  cbv zeta. unfold downloadLargestCover.
  pose proof (tryVariants_result server (generateCoverURLVariants coverURL) imagesPath w) as Ht.
  destruct (tryVariants server (generateCoverURLVariants coverURL) imagesPath w)
    as [[name|] w'].
  - right. destruct Ht as (url & resp & Hu & Hs & Hok & Hn & Hf & _).
    exists url, resp. auto.
  - left. destruct Ht as [Hf _]. auto.
Qed.

Section FindCoverFacts.

Context `{NetURL}.
Variable server : Server.
Variable d : Downloader.

Lemma findCover_loop_none (rest : list Chapter) (i : nat) (chapters : list Chapter)
    (imagesPath : string) (w : World) :
  (forall j ch, rest !! j = Some ch -> (i + j < 3)%nat -> isCoverChapter ch = false) ->
  findCover_loop server d rest i chapters imagesPath w = (EmptyString, chapters, w).
Proof.
  revert i. induction rest as [|ch rest IH]; intros i Hrest; cbn [findCover_loop];
    [reflexivity|].
  destruct (i <? 3)%nat eqn:Hi; cbn [negb]; [|reflexivity].
  apply Nat.ltb_lt in Hi.
  assert (Hch : isCoverChapter ch = false) by (apply (Hrest 0%nat); [reflexivity | lia]).
  unfold isCoverChapter in Hch. rewrite orb_comm in Hch. rewrite Hch.
  apply IH. intros j c Hj Hlt. apply (Hrest (S j)); [exact Hj | lia].
Qed.

End FindCoverFacts.

(** Only the first three chapters are looked at for a cover: when none
    of them has cover in its title or file name, no cover is found and
    nothing is requested, whatever the later chapters are called. *)
Theorem findCoverInChapters_first_three `{NetURL} (server : Server) (d : Downloader)
    (chapters : list Chapter) (imagesPath : string) (w : World) :
  (forall i ch, (i < 3)%nat -> chapters !! i = Some ch -> isCoverChapter ch = false) ->
  findCoverInChapters server d chapters imagesPath w = (EmptyString, chapters, w).
Proof.
  intros Hfirst. unfold findCoverInChapters. apply findCover_loop_none.
  intros j ch Hj Hlt. now apply (Hfirst j).
Qed.

Lemma findCoverInChapters_first_three_witness :
  isCoverChapter chB = true
  /\ @findCoverInChapters Scenario.plainURL demoSite (demoDownloader false) lateCover
       "Books/T (1)/OEBPS/Images" bookWorld
     = (EmptyString, lateCover, bookWorld).
Proof.
  split; [reflexivity|].
  apply (@findCoverInChapters_first_three Scenario.plainURL).
  intros i ch Hi Hch.
  destruct i as [|[|[|i]]]; try lia; simpl in Hch; injection Hch as <-; reflexivity.
Defined.

(** ** More on the chapter workers (downloader, downloadChapter and downloadChapters) *)

Section WorkerMore.

Context `{NetURL} `{HTMLFrontEnd}.
Variable server : Server.
Variable d : Downloader.

(** The error of a worker depends on the world through its directories
    only. *)
Lemma downloadChapter_error_dirs (oebpsPath bookPath : string) (chapter : Chapter)
    (isFirst : bool) (parser : Parser) (w w1 : World) :
  fs_dirs w1 = fs_dirs w ->
  fst (fst (downloadChapter server d oebpsPath chapter isFirst parser bookPath w1))
  = fst (fst (downloadChapter server d oebpsPath chapter isFirst parser bookPath w)).
Proof.
  intros Hd. unfold downloadChapter, GET.
  destruct (server (ch_Content chapter)) as [resp|]; [|reflexivity].
  destruct (negb (IsSuccess resp)); [reflexivity|].
  destruct (snd (ParseChapter parser (set_Content (Body resp) chapter) isFirst))
    as [e|[css page]]; [reflexivity|].
  unfold WriteFile.
  set (target := path.Clean _).
  set (wa := {| fs_files := fs_files w1; fs_dirs := fs_dirs w1; net_log := _ |}).
  set (wb := {| fs_files := fs_files w; fs_dirs := fs_dirs w; net_log := _ |}).
  rewrite (is_dir_dirs wb wa (path.Dir target)) by exact Hd.
  rewrite (is_dir_dirs wb wa target) by exact Hd.
  destruct (_ && _); reflexivity.
Qed.

(** A worker that reports an error has written nothing. *)
Lemma downloadChapter_failure_files (oebpsPath bookPath : string) (chapter : Chapter)
    (isFirst : bool) (parser : Parser) (w : World) :
  fst (fst (downloadChapter server d oebpsPath chapter isFirst parser bookPath w)) <> None ->
  fs_files (snd (downloadChapter server d oebpsPath chapter isFirst parser bookPath w))
  = fs_files w.
Proof.
  unfold downloadChapter, GET.
  destruct (server (ch_Content chapter)) as [resp|]; [|reflexivity].
  destruct (negb (IsSuccess resp)); [reflexivity|].
  destruct (snd (ParseChapter parser (set_Content (Body resp) chapter) isFirst))
    as [e|[css page]]; [reflexivity|].
  unfold WriteFile. destruct (_ && _); cbn [negb fst snd]; [|reflexivity].
  intros Hn. now contradiction Hn.
Qed.

(** The first request of a worker is the content of its chapter; the
    others are images of the chapter. *)
Lemma downloadChapter_log (oebpsPath bookPath : string) (chapter : Chapter)
    (isFirst : bool) (parser : Parser) (w : World) :
  exists urls,
    net_log (snd (downloadChapter server d oebpsPath chapter isFirst parser bookPath w))
    = (net_log w ++ ch_Content chapter :: urls)%list.
Proof.
  unfold downloadChapter, GET.
  destruct (server (ch_Content chapter)) as [resp|];
    [|exists []; reflexivity].
  destruct (negb (IsSuccess resp)); [exists []; reflexivity|].
  destruct (snd (ParseChapter parser (set_Content (Body resp) chapter) isFirst))
    as [e|[css page]]; [exists []; reflexivity|].
  unfold WriteFile. destruct (_ && _); cbn [negb fst snd]; [|exists []; reflexivity].
  match goal with
  | |- context [downloadAssets server d ?c ?b ?w0] =>
      destruct (downloadAssets_requests server d c b w0) as (urls & Hlog & _)
  end.
  exists urls. rewrite Hlog. cbn [put_file net_log]. now rewrite <- app_assoc.
Qed.

(** A worker changes the content and the file name of its chapter,
    nothing else. *)
Lemma downloadChapter_meta (oebpsPath bookPath : string) (chapter : Chapter)
    (isFirst : bool) (parser : Parser) (w : World) :
  sameMeta chapter
    (snd (fst (downloadChapter server d oebpsPath chapter isFirst parser bookPath w))).
Proof.
  unfold downloadChapter, GET, sameMeta.
  destruct (server (ch_Content chapter)) as [resp|]; [|repeat split].
  destruct (negb (IsSuccess resp)); [repeat split|].
  destruct (snd (ParseChapter parser (set_Content (Body resp) chapter) isFirst))
    as [e|[css page]]; [repeat split|].
  destruct (WriteFile _ _ _) as [[|] w1]; repeat split.
Qed.

(** An error that is recorded stays: later workers do not replace it. *)
Lemma workers_error_sticky (bookPath : string) (sched : list nat) (chs : list Chapter)
    (e : error) (w : World) :
  snd (fst (workers server d bookPath sched (chs, Some e, w))) = Some e.
Proof.
  unfold workers. revert chs w. induction sched as [|i sched IH]; intros chs w;
    cbn [fold_left]; [reflexivity|].
  unfold chapterWorker at 2. destruct (chs !! i) as [ch|]; [|apply IH].
  destruct (downloadChapter _ _ _ _ _ _ _ _) as [[err ch'] w1]. apply IH.
Qed.

(** The request log only grows, and a worker whose chapter exists
    requests its content. *)
Lemma workers_log (bookPath : string) (sched : list nat) :
  forall (chs : list Chapter) (fe : option error) (w : World),
  (forall u, u ∈ net_log w -> u ∈ net_log (snd (workers server d bookPath sched (chs, fe, w))))
  /\ (NoDup sched ->
      forall i ch, i ∈ sched -> chs !! i = Some ch ->
        ch_Content ch ∈ net_log (snd (workers server d bookPath sched (chs, fe, w)))).
Proof.
  unfold workers. induction sched as [|i sched IH]; intros chs fe w; cbn [fold_left].
  - split; [auto|]. intros _ i ch Hi. inversion Hi.
  - unfold chapterWorker at 2 4.
    destruct (chs !! i) as [ch|] eqn:Hch.
    + destruct (downloadChapter_log (path.Join [bookPath; "OEBPS"]) bookPath ch (i =? 0)%nat
                  (NewParser ("https://" +:+ siteURL d) (d_kindleMode d)) w) as [urls Hlog].
      destruct (downloadChapter _ _ _ _ _ _ _ _) as [[err ch'] w1]. cbn [snd] in Hlog.
      destruct (IH (<[i := ch']> chs)
                   (match fe with None => err | Some e => Some e end) w1) as [Hmono Hall].
      split.
      * intros u Hu. apply Hmono. rewrite Hlog. apply elem_of_app. now left.
      * intros Hnd j cj Hj Hcj. apply NoDup_cons in Hnd as [Hi Hnd].
        apply elem_of_cons in Hj as [->|Hj].
        -- apply Hmono. rewrite Hlog. apply elem_of_app. right.
           assert (cj = ch) by congruence. subst. left.
        -- apply (Hall Hnd j cj Hj). rewrite list_lookup_insert_ne; [exact Hcj|].
           intros <-. contradiction.
    + destruct (IH chs fe w) as [Hmono Hall]. split; [exact Hmono|].
      intros Hnd j cj Hj Hcj. apply NoDup_cons in Hnd as [Hi Hnd].
      apply elem_of_cons in Hj as [->|Hj]; [congruence|]. now apply (Hall Hnd j cj).
Qed.

Lemma workers_meta (bookPath : string) (sched : list nat) :
  forall (chapters chs : list Chapter) (fe : option error) (w : World),
  Forall2 sameMeta chapters chs ->
  Forall2 sameMeta chapters (fst (fst (workers server d bookPath sched (chs, fe, w)))).
Proof.
  unfold workers. induction sched as [|i sched IH]; intros chapters chs fe w Hm;
    cbn [fold_left]; [exact Hm|].
  unfold chapterWorker at 2.
  destruct (chs !! i) as [ch|] eqn:Hch; [|now apply IH].
  pose proof (downloadChapter_meta (path.Join [bookPath; "OEBPS"]) bookPath ch (i =? 0)%nat
                (NewParser ("https://" +:+ siteURL d) (d_kindleMode d)) w) as Hmeta.
  destruct (downloadChapter _ _ _ _ _ _ _ _) as [[err ch'] w1]. cbn [fst snd] in Hmeta.
  apply IH.
  destruct (Forall2_lookup_r _ _ _ _ _ Hm Hch) as (c0 & Hc0 & Hc0m).
  rewrite <- (list_insert_id chapters i c0 Hc0).
  apply Forall2_insert; [exact Hm|].
  unfold sameMeta in *. intuition congruence.
Qed.

End WorkerMore.

(** A failing chapter does not stop the others: whatever the order of
    the workers and whatever fails, the content of every chapter of the
    schedule is requested. *)
Theorem downloadChapters_requests_every_chapter `{NetURL} `{HTMLFrontEnd} (server : Server)
    (d : Downloader) (sched : list nat) (bookPath : string) (chapters : list Chapter)
    (w : World) (i : nat) (ch : Chapter) :
  NoDup sched -> i ∈ sched -> chapters !! i = Some ch ->
  ch_Content ch ∈ net_log (snd (downloadChapters server d sched bookPath chapters w)).
Proof.
  intros Hnd Hi Hch.
  destruct (workers_log server d bookPath sched chapters None w) as [_ Hall].
  now apply (Hall Hnd i ch).
Qed.

Lemma downloadChapters_requests_every_chapter_witness :
  ch_Content chOne
  ∈ net_log (snd (@downloadChapters Scenario.plainURL demoFrontEnd brokenSite
                    (demoDownloader false) [0; 1]%nat "Books/T (1)" [chBroken; chOne]
                    bookWorld)).
Proof.
  apply (@downloadChapters_requests_every_chapter Scenario.plainURL demoFrontEnd brokenSite
           (demoDownloader false) [0; 1]%nat "Books/T (1)" [chBroken; chOne] bookWorld
           1%nat chOne).
  - apply (bool_decide_unpack _). exact I.
  - apply (bool_decide_unpack _). exact I.
  - reflexivity.
Defined.

(** The error returned is the one of the first worker, in the order in
    which the workers run, whose chapter cannot be processed: it is the
    error that chapter gives on its own, and later failures do not
    replace it. *)
Theorem downloadChapters_first_error `{NetURL} `{HTMLFrontEnd} (server : Server)
    (d : Downloader) (earlier later : list nat) (i : nat) (bookPath : string)
    (chapters : list Chapter) (w : World) (ch : Chapter) :
  NoDup (earlier ++ i :: later) ->
  (forall j cj, j ∈ earlier -> chapters !! j = Some cj ->
     chapterOK server d bookPath w j cj = true) ->
  chapters !! i = Some ch ->
  chapterOK server d bookPath w i ch = false ->
  exists e,
    fst (fst (downloadChapter server d (path.Join [bookPath; "OEBPS"]) ch (i =? 0)%nat
                (NewParser ("https://" +:+ siteURL d) (d_kindleMode d)) bookPath w)) = Some e
    /\ snd (fst (downloadChapters server d (earlier ++ i :: later) bookPath chapters w))
       = Some e.
Proof.
  intros Hnd Hearlier Hch Hbad.
  apply NoDup_app in Hnd as (Hnd1 & Hfresh & Hnd2).
  assert (Hi : i ∉ earlier) by (intros Hin; apply (Hfresh i Hin); left).
  unfold downloadChapters. rewrite fold_left_app.
  pose proof (workers_first_error server d bookPath chapters w earlier Hnd1 chapters None w
                eq_refl (fun _ _ => eq_refl)) as Hnone.
  destruct (workers_state server d bookPath w earlier chapters None w eq_refl) as [Hdirs Hkeep].
  cbv zeta in Hnone, Hdirs, Hkeep.
  destruct (fold_left _ earlier (chapters, None, w)) as [[chs fe] w1].
  cbn [fst snd] in Hnone, Hdirs, Hkeep.
  assert (Hfe : fe = None) by (apply Hnone; split; [reflexivity | exact Hearlier]).
  subst fe. cbn [fold_left]. unfold chapterWorker at 2. rewrite (Hkeep i Hi), Hch.
  pose proof (downloadChapter_error_dirs server d (path.Join [bookPath; "OEBPS"]) bookPath ch
                (i =? 0)%nat (NewParser ("https://" +:+ siteURL d) (d_kindleMode d)) w w1 Hdirs)
    as Herr.
  destruct (downloadChapter_alone server d bookPath ch i w w eq_refl) as [_ Hok].
  destruct (downloadChapter server d (path.Join [bookPath; "OEBPS"]) ch (i =? 0)%nat
              (NewParser ("https://" +:+ siteURL d) (d_kindleMode d)) bookPath w1)
    as [[err ch'] w2].
  cbn [fst] in Herr. rewrite <- Herr in *.
  destruct err as [e|].
  - exists e. split; [reflexivity|].
    apply (workers_error_sticky server d bookPath later).
  - rewrite (proj1 Hok eq_refl) in Hbad. discriminate.
Qed.

Lemma downloadChapters_first_error_witness :
  snd (fst (@downloadChapters Scenario.plainURL demoFrontEnd brokenSite (demoDownloader false)
              [1; 0]%nat "Books/T (1)" [chBroken; chOne] bookWorld))
  = Some (ErrChapterStatus 500).
Proof.
  destruct (@downloadChapters_first_error Scenario.plainURL demoFrontEnd brokenSite
              (demoDownloader false) [1%nat] [] 0%nat "Books/T (1)" [chBroken; chOne] bookWorld
              chBroken) as (e & He & Hr).
  - apply (bool_decide_unpack _). exact I.
  - intros j cj Hj Hcj. apply list_elem_of_singleton in Hj as ->.
    injection Hcj as <-. vm_compute. reflexivity.
  - reflexivity.
  - vm_compute. reflexivity.
  - cbn [app] in Hr. rewrite Hr, <- He. vm_compute. reflexivity.
Defined.

(** The workers leave the chapter list as long as it was and change
    nothing of a chapter but its content and its file name: titles,
    asset bases, images and stylesheets are what the index gave. *)
Theorem downloadChapters_keeps_chapters `{NetURL} `{HTMLFrontEnd} (server : Server)
    (d : Downloader) (sched : list nat) (bookPath : string) (chapters : list Chapter)
    (w : World) :
  Forall2 sameMeta chapters
    (fst (fst (downloadChapters server d sched bookPath chapters w)))
  /\ length (fst (fst (downloadChapters server d sched bookPath chapters w)))
     = length chapters.
Proof.
  assert (Hm : Forall2 sameMeta chapters
                 (fst (fst (downloadChapters server d sched bookPath chapters w)))).
  { apply (workers_meta server d bookPath sched chapters chapters None w).
    apply Forall_Forall2_diag, Forall_forall. intros ch _. repeat split. }
  split; [exact Hm|]. symmetry. eapply Forall2_length, Hm.
Qed.

(** A chapter that fails leaves no trace on disk: when downloadChapter
    returns an error, whether from the request, the status, the parser
    or the write, no file and no directory has changed. *)
Theorem downloadChapter_failure_writes_nothing `{NetURL} `{HTMLFrontEnd} (server : Server)
    (d : Downloader) (oebpsPath bookPath : string) (chapter : Chapter) (isFirst : bool)
    (parser : Parser) (w : World) (e : error) :
  fst (fst (downloadChapter server d oebpsPath chapter isFirst parser bookPath w)) = Some e ->
  fs_files (snd (downloadChapter server d oebpsPath chapter isFirst parser bookPath w))
  = fs_files w
  /\ fs_dirs (snd (downloadChapter server d oebpsPath chapter isFirst parser bookPath w))
     = fs_dirs w.
Proof.
  intros He. split.
  - apply downloadChapter_failure_files. congruence.
  - unfold downloadChapter, GET in *.
    destruct (server (ch_Content chapter)) as [resp|]; [|reflexivity].
    destruct (negb (IsSuccess resp)); [reflexivity|].
    destruct (snd (ParseChapter parser (set_Content (Body resp) chapter) isFirst))
      as [e0|[css page]]; [reflexivity|].
    unfold WriteFile in *. destruct (_ && _); cbn [negb fst snd] in *; [discriminate|].
    reflexivity.
Qed.

Lemma downloadChapter_failure_writes_nothing_witness :
  fs_files (snd (@downloadChapter Scenario.plainURL demoFrontEnd brokenSite
                   (demoDownloader false) "Books/T (1)/OEBPS" chBroken true
                   (NewParser "https://learning.oreilly.com" false) "Books/T (1)" bookWorld))
  = fs_files bookWorld.
Proof.
  apply (@downloadChapter_failure_writes_nothing Scenario.plainURL demoFrontEnd brokenSite
           (demoDownloader false) "Books/T (1)/OEBPS" "Books/T (1)" chBroken true
           (NewParser "https://learning.oreilly.com" false) bookWorld
           (ErrChapterStatus 500)).
  vm_compute. reflexivity.
Defined.

(** The asset step adds files, it never replaces one: a file that is
    there before the images of a chapter are downloaded has the same
    content after, and no directory is made or removed. *)
Theorem downloadAssets_never_overwrites `{NetURL} (server : Server) (d : Downloader)
    (chapter : Chapter) (basePath : string) (w : World) :
  (forall q c, fs_files w !! q = Some c ->
     fs_files (downloadAssets server d chapter basePath w) !! q = Some c)
  /\ fs_dirs (downloadAssets server d chapter basePath w) = fs_dirs w.
Proof.
  split.
  - intros q c Hq. now apply downloadAssets_keeps.
  - apply downloadAssets_dirs.
Qed.

(** ** The book directory on disk (downloader, createBookDirectory) *)

Lemma is_dir_mono (w w' : World) (p : string) :
  fs_dirs w ⊆ fs_dirs w' -> is_dir w p = true -> is_dir w' p = true.
Proof.
  unfold is_dir. intros Hsub Hp.
  apply orb_true_iff in Hp as [Hp|Hp]; [now rewrite Hp|].
  apply bool_decide_eq_true in Hp. apply orb_true_iff. right.
  apply bool_decide_eq_true. now apply Hsub.
Qed.

(** Making directories touches neither files nor requests and removes
    no directory; when it succeeds the directory is there. *)
Lemma MkdirAll_go_spec (fuel : nat) (p : string) (w : World) :
  fs_files (snd (MkdirAll_go fuel p w)) = fs_files w
  /\ net_log (snd (MkdirAll_go fuel p w)) = net_log w
  /\ fs_dirs w ⊆ fs_dirs (snd (MkdirAll_go fuel p w))
  /\ (fst (MkdirAll_go fuel p w) = true -> is_dir (snd (MkdirAll_go fuel p w)) p = true).
Proof.
  revert p w. induction fuel as [|fuel IH]; intros p w; cbn [MkdirAll_go].
  - destruct (is_dir w p) eqn:Hd; [cbn; auto|].
    destruct (is_file w p); cbn; repeat split; auto; discriminate.
  - destruct (is_dir w p) eqn:Hd; [cbn; auto|].
    destruct (is_file w p); [cbn; repeat split; auto; discriminate|].
    specialize (IH (path.Dir p) w).
    destruct (MkdirAll_go fuel (path.Dir p) w) as [[|] w1]; cbn [fst snd] in *.
    + destruct IH as (Hf & Hl & Hs & _). repeat split; auto.
      * set_solver.
      * intros _. unfold is_dir. cbn [fs_dirs].
        apply orb_true_iff. right. apply bool_decide_eq_true. set_solver.
    + destruct IH as (Hf & Hl & Hs & _). repeat split; auto. discriminate.
Qed.

Lemma mkdirs_spec (dirs : list string) (w : World) :
  fs_files (snd (mkdirs dirs w)) = fs_files w
  /\ net_log (snd (mkdirs dirs w)) = net_log w
  /\ fs_dirs w ⊆ fs_dirs (snd (mkdirs dirs w))
  /\ (fst (mkdirs dirs w) = None ->
      forall dir, dir ∈ dirs -> is_dir (snd (mkdirs dirs w)) (path.Clean dir) = true).
Proof.
  revert w. induction dirs as [|dir dirs IH]; intros w; cbn [mkdirs].
  - repeat split; auto. intros _ dir Hd. inversion Hd.
  - unfold MkdirAll.
    pose proof (MkdirAll_go_spec (String.length (path.Clean dir)) (path.Clean dir) w) as Hm.
    destruct (MkdirAll_go _ (path.Clean dir) w) as [[|] w1]; cbn [fst snd] in *.
    + destruct Hm as (Hf & Hl & Hs & Hd). specialize (Hd eq_refl).
      destruct (IH w1) as (Hf' & Hl' & Hs' & Hd').
      split; [congruence|]. split; [congruence|]. split; [etrans; eassumption|].
      intros Hnone x Hx. apply elem_of_cons in Hx as [->|Hx]; [|now apply Hd'].
      eapply is_dir_mono; eauto.
    + destruct Hm as (Hf & Hl & Hs & _). repeat split; auto. discriminate.
Qed.

(** createBookDirectory changes no file and removes no directory. When
    it returns a path, the book directory, OEBPS, OEBPS/Styles and
    OEBPS/Images exist. *)
Theorem createBookDirectory_creates (d : Downloader) (bookInfo : BookInfo) (w : World) :
  fs_files (snd (createBookDirectory d bookInfo w)) = fs_files w
  /\ net_log (snd (createBookDirectory d bookInfo w)) = net_log w
  /\ fs_dirs w ⊆ fs_dirs (snd (createBookDirectory d bookInfo w))
  /\ (forall bookPath,
        fst (createBookDirectory d bookInfo w) = inr bookPath ->
        forall dir,
          dir ∈ [ bookPath;
                  path.Join [bookPath; "OEBPS"];
                  path.Join [bookPath; "OEBPS"; "Styles"];
                  path.Join [bookPath; "OEBPS"; "Images"] ] ->
          is_dir (snd (createBookDirectory d bookInfo w)) (path.Clean dir) = true).
Proof.
  unfold createBookDirectory.
  set (bookPath := path.Join [booksDir d; dirName d bookInfo]).
  set (dirs := [bookPath; _; _; _]).
  destruct (mkdirs_spec dirs w) as (Hf & Hl & Hs & Hd).
  destruct (mkdirs dirs w) as [[e|] w1]; cbn [fst snd] in *.
  - repeat split; auto. discriminate.
  - repeat split; auto. intros p [= <-]. now apply Hd.
Qed.

Lemma createBookDirectory_creates_witness :
  is_dir (snd (createBookDirectory (demoDownloader false) (bookNamed "T") startWorld))
    (path.Clean (path.Join ["Books/T (1)"; "OEBPS"; "Images"])) = true.
Proof.
  destruct (createBookDirectory_creates (demoDownloader false) (bookNamed "T") startWorld)
    as (_ & _ & _ & Hd).
  apply (Hd "Books/T (1)"); [reflexivity|].
  apply (bool_decide_unpack _). exact I.
Defined.

(** ** The archive (downloader, generateEPUB) *)

Lemma ZipDirectory_archive (srcDir destZip : string) (w w' : World) :
  ZipDirectory srcDir destZip w = (true, w') ->
  exists entries,
    fs_files w' !! path.Clean destZip = Some (Archive entries)
    /\ fs_dirs w' = fs_dirs w.
Proof.
  unfold ZipDirectory, WriteFile.
  destruct (_ && _); cbn [negb]; [|discriminate].
  destruct (FileExists srcDir _); cbn [negb]; [|discriminate].
  intros [= <-]. eexists. split; [|reflexivity].
  cbn [put_file fs_files]. apply lookup_insert_eq.
Qed.

Lemma Rename_moves (old new : string) (w w' : World) :
  Rename old new w = (true, w') ->
  fs_files w' !! path.Clean new = fs_files w !! path.Clean old
  /\ (path.Clean old <> path.Clean new -> fs_files w' !! path.Clean old = None).
Proof.
  unfold Rename. destruct (fs_files w !! path.Clean old) as [c|] eqn:Hold; [|discriminate].
  destruct (_ && _); [|discriminate]. intros [= <-]. cbn [fs_files]. split.
  - apply lookup_insert_eq.
  - intros Hne. rewrite lookup_insert_ne by congruence. apply lookup_delete_eq.
Qed.

Lemma generateEPUB_result `{NetURL} (server : Server) (d : Downloader) (bookInfo : BookInfo)
    (chapters : list Chapter) (bookPath : string) (w w' : World) :
  generateEPUB server d bookInfo chapters bookPath w = (None, w') ->
  (exists entries,
     fs_files w' !! path.Clean (path.Join [bookPath; path.Base bookPath +:+ ".epub"])
     = Some (Archive entries))
  /\ (path.Clean (bookPath +:+ ".zip")
      <> path.Clean (path.Join [bookPath; path.Base bookPath +:+ ".epub"]) ->
      fs_files w' !! path.Clean (bookPath +:+ ".zip") = None).
Proof.
  unfold generateEPUB.
  destruct (if negb (String.eqb (Cover bookInfo) EmptyString) then _ else _)
    as [[coverFilename chapters'] w1].
  match goal with
  | |- context [ZipDirectory bookPath (bookPath +:+ ".zip") ?w0] =>
      destruct (ZipDirectory bookPath (bookPath +:+ ".zip") w0) as [[|] wz] eqn:Hz
  end; cbn [negb]; [|discriminate].
  destruct (Rename _ _ wz) as [[|] wr] eqn:Hr; [|discriminate].
  intros [= <-].
  apply ZipDirectory_archive in Hz as (entries & Hzip & _).
  apply Rename_moves in Hr as [Hnew Hold].
  split; [exists entries; now rewrite Hnew | exact Hold].
Qed.

(** When generateEPUB returns no error, the book directory holds
    <name>.epub, a zip archive, and the zip written beside the
    directory is gone. *)
Theorem generateEPUB_success `{NetURL} (server : Server) (d : Downloader) (bookInfo : BookInfo)
    (chapters : list Chapter) (bookPath : string) (w w' : World) :
  generateEPUB server d bookInfo chapters bookPath w = (None, w') ->
  (exists entries,
     fs_files w' !! path.Clean (path.Join [bookPath; path.Base bookPath +:+ ".epub"])
     = Some (Archive entries))
  /\ (path.Clean (bookPath +:+ ".zip")
      <> path.Clean (path.Join [bookPath; path.Base bookPath +:+ ".epub"]) ->
      fs_files w' !! path.Clean (bookPath +:+ ".zip") = None).
Proof. apply generateEPUB_result. Qed.

Lemma generateEPUB_success_witness :
  exists entries,
    fs_files (snd (@generateEPUB Scenario.plainURL demoSite (demoDownloader false)
                     (bookNamed "T") [chOne; chTwo] "Books/T (1)" chaptersWorld))
      !! "Books/T (1)/T (1).epub" = Some (Archive entries).
Proof.
  destruct (@generateEPUB_success Scenario.plainURL demoSite (demoDownloader false)
              (bookNamed "T") [chOne; chTwo] "Books/T (1)" chaptersWorld
              (snd (@generateEPUB Scenario.plainURL demoSite (demoDownloader false)
                      (bookNamed "T") [chOne; chTwo] "Books/T (1)" chaptersWorld)))
    as [Hepub _].
  - vm_compute. reflexivity.
  - exact Hepub.
Defined.

(** ** The whole run (downloader, Run) *)

Section RunFacts.

Context `{NetURL} `{HTMLFrontEnd} `{JSONDecoder}.
Variable server : Server.
Variable d : Downloader.

Lemma GetBookInfo_sameFiles (id : string) (w : World) :
  sameFiles w (snd (GetBookInfo server id w)).
Proof.
  unfold GetBookInfo, HandleJSONResponse_book, GET.
  destruct (server _) as [resp|]; [|now split].
  destruct (negb (IsSuccess resp)); [now split|].
  destruct (json_BookInfo _); now split.
Qed.

Lemma GetBookChapters_loop_sameFiles (fuel : nat) (pageURL : string) (all : list Chapter)
    (w : World) :
  sameFiles w (snd (GetBookChapters_loop server fuel pageURL all w)).
Proof.
  revert pageURL all w. induction fuel as [|fuel IH]; intros pageURL all w;
    cbn [GetBookChapters_loop].
  - destruct (String.eqb pageURL EmptyString); now split.
  - destruct (String.eqb pageURL EmptyString); [now split|].
    unfold GET. destruct (server pageURL) as [resp|]; [|now split].
    destruct (HandleJSONResponse_chapters resp) as [e|payload]; [now split|].
    destruct (length (Results payload) =? 0)%nat; [now split|].
    match goal with
    | |- sameFiles _ (snd (GetBookChapters_loop _ _ ?u ?a ?w1)) =>
        destruct (IH u a w1) as [Hf Hd]
    end.
    split; [exact Hf | exact Hd].
Qed.

(** When the book's metadata or its chapter index cannot be fetched,
    Run returns that error and has created no file and no directory. *)
Theorem Run_metadata_failure (fuel : nat) (sched : list nat) (w : World) (e : error) :
  (fst (GetBookInfo server (bookID d) w) = inl e
   \/ (exists bookInfo,
         fst (GetBookInfo server (bookID d) w) = inr bookInfo
         /\ fst (GetBookChapters server fuel (bookID d) (snd (GetBookInfo server (bookID d) w)))
            = Some (inl e))) ->
  fst (Run server d fuel sched w) = Some (Some e)
  /\ sameFiles w (snd (Run server d fuel sched w)).
Proof.
  unfold Run.
  pose proof (GetBookInfo_sameFiles (bookID d) w) as [Hf1 Hd1].
  destruct (GetBookInfo server (bookID d) w) as [[e1|bookInfo] w1]; cbn [fst snd] in *.
  - intros [[= ->]|(bi & Hbi & _)]; [|discriminate]. now split.
  - intros [Hbi|(bi & _ & Hch)]; [discriminate|].
    unfold GetBookChapters in *.
    pose proof (GetBookChapters_loop_sameFiles fuel (chaptersURL (bookID d)) [] w1) as [Hf2 Hd2].
    destruct (GetBookChapters_loop server fuel (chaptersURL (bookID d)) [] w1)
      as [[[e2|chapters]|] w2]; cbn [fst snd] in *; try discriminate.
    injection Hch as ->. split; [reflexivity|]. split; congruence.
Qed.

(** When Run returns no error, the book's directory under the books
    directory holds <name>.epub, a zip archive. *)
Theorem Run_success (fuel : nat) (sched : list nat) (w w' : World) :
  Run server d fuel sched w = (Some None, w') ->
  exists bookInfo entries,
    fst (GetBookInfo server (bookID d) w) = inr bookInfo
    /\ fs_files w'
         !! path.Clean (path.Join [path.Join [booksDir d; dirName d bookInfo];
                                   path.Base (path.Join [booksDir d; dirName d bookInfo])
                                   +:+ ".epub"])
       = Some (Archive entries).
Proof.
  unfold Run.
  destruct (GetBookInfo server (bookID d) w) as [[e1|bookInfo] w1]; [discriminate|].
  destruct (GetBookChapters server fuel (bookID d) w1) as [[[e2|chapters]|] w2];
    try discriminate.
  unfold createBookDirectory.
  destruct (mkdirs _ w2) as [[e3|] w3]; [discriminate|].
  destruct (downloadChapters server d sched _ chapters w3) as [[chapters' [e4|]] w4];
    [discriminate|].
  destruct (generateEPUB server d bookInfo chapters' _ w4) as [err w5] eqn:Hg.
  intros [= -> ->].
  apply generateEPUB_result in Hg as [[entries He] _].
  exists bookInfo, entries. split; [reflexivity | exact He].
Qed.

End RunFacts.

Lemma Run_success_witness :
  exists bookInfo entries,
    fst (@GetBookInfo demoDecoder demoSite (bookID (demoDownloader false)) startWorld)
    = inr bookInfo
    /\ fs_files (snd demoRun)
         !! path.Clean
              (path.Join [path.Join [booksDir (demoDownloader false);
                                     dirName (demoDownloader false) bookInfo];
                          path.Base (path.Join [booksDir (demoDownloader false);
                                                dirName (demoDownloader false) bookInfo])
                          +:+ ".epub"])
       = Some (Archive entries).
Proof.
  apply (@Run_success Scenario.plainURL demoFrontEnd demoDecoder demoSite
           (demoDownloader false) 5 [0; 1]%nat startWorld (snd demoRun)).
  vm_compute. reflexivity.
Defined.

Lemma Run_metadata_failure_witness :
  fst (@Run Scenario.plainURL demoFrontEnd demoDecoder (fun _ => None)
         (demoDownloader false) 5 [0; 1]%nat startWorld)
  = Some (Some (ErrRequest "API: unable to retrieve book info"))
  /\ sameFiles startWorld
       (snd (@Run Scenario.plainURL demoFrontEnd demoDecoder (fun _ => None)
               (demoDownloader false) 5 [0; 1]%nat startWorld)).
Proof.
  apply (@Run_metadata_failure Scenario.plainURL demoFrontEnd demoDecoder (fun _ => None)
           (demoDownloader false) 5 [0; 1]%nat startWorld).
  left. reflexivity.
Defined.


(** ** The rewrite of the links (parser.go, rewriteLinks) *)

Lemma rewriteAttr_Key (repl : string -> string) (a : Attribute) :
  Key (rewriteAttr repl a) = Key a.
Proof.
  unfold rewriteAttr.
  destruct (_ || _); [reflexivity|]. destruct (String.eqb _ "srcset"); reflexivity.
Qed.

Lemma rewriteAttr_other (repl : string -> string) (a : Attribute) :
  isLinkAttr (Key a) = false -> rewriteAttr repl a = a.
Proof.
  unfold isLinkAttr, rewriteAttr. intros Hk.
  apply orb_false_iff in Hk as [-> ->]. reflexivity.
Qed.

Lemma blankAttr_rewriteAttr (repl : string -> string) (a : Attribute) :
  blankAttr (rewriteAttr repl a) = blankAttr a.
Proof.
  unfold blankAttr. rewrite rewriteAttr_Key.
  destruct (isLinkAttr (Key a)) eqn:Hk; [reflexivity|].
  now apply rewriteAttr_other.
Qed.

(** rewriteLinks changes nothing but the values of the href, src, data,
    poster and srcset attributes of elements: the nodes, their types,
    their tags and texts, their children, and the names, the number
    and the order of all attributes stay as they were, whatever the
    replacement function is. *)
Theorem rewriteLinks_link_values_only (repl : string -> string) (node : Node) :
  blankLinks (rewriteLinks repl node) = blankLinks node.
Proof.
  induction node as [ty data attrs children IH] using Node_children_ind.
  cbn [rewriteLinks blankLinks]. f_equal.
  - destruct ty; try reflexivity.
    rewrite map_map. apply map_ext. intros a. apply blankAttr_rewriteAttr.
  - rewrite map_map. induction IH as [|x l Hx _ IHl]; [reflexivity|].
    cbn [map]. now rewrite Hx, IHl.
Qed.


(** ** The cookies file (utils.go, LoadCookies) *)

Lemma cookieMap_lookup (cookies : list Cookie) (name : string) :
  cookieMap cookies !! name = lastCookie name cookies.
Proof.
  unfold cookieMap, lastCookie.
  induction cookies as [|c l IH] using rev_ind; [apply lookup_empty|].
  rewrite fold_left_app, rev_app_distr. cbn [fold_left rev app List.find].
  destruct (String.eqb (c_Name c) name) eqn:Hn.
  - apply String.eqb_eq in Hn as <-. apply lookup_insert_eq.
  - apply String.eqb_neq in Hn. rewrite lookup_insert_ne by exact Hn. exact IH.
Qed.

Lemma cookieMap_nonempty (cookies : list Cookie) :
  (0 <? length cookies)%nat = true -> cookieMap cookies <> ∅.
Proof.
  intros Hlen Hempty.
  destruct cookies as [|c l] using rev_ind; [discriminate|].
  pose proof (cookieMap_lookup (l ++ [c]) (c_Name c)) as Hl.
  rewrite Hempty, lookup_empty in Hl. unfold lastCookie in Hl.
  rewrite rev_app_distr in Hl. cbn [rev app List.find] in Hl.
  rewrite String.eqb_refl in Hl. discriminate.
Qed.

Section CookieFacts.

Context `{CookieDecoder}.
Variable ReadFile : string -> option string.

(** Whatever the format of the file, the cookies that LoadCookies
    returns are never empty: a file without a cookie is an error. *)
Theorem LoadCookies_never_empty (path : string) (cookies : gmap string string) :
  LoadCookies ReadFile path = inr cookies -> cookies <> ∅.
Proof.
  unfold LoadCookies. destruct (ReadFile path) as [data|]; [|discriminate].
  assert (Hmap : match json_CookieMap data with
                 | None => inl ErrUnsupportedFormat
                 | Some m => if (size m =? 0)%nat then inl ErrEmptyCookies else inr m
                 end = inr cookies -> cookies <> ∅).
  { destruct (json_CookieMap data) as [m|]; [|discriminate].
    destruct (size m =? 0)%nat eqn:Hs; [discriminate|]. intros [= <-].
    apply Nat.eqb_neq in Hs. intros ->. now rewrite map_size_empty in Hs. }
  assert (Hbrowser : match json_BrowserCookies data with
                     | Some l => if (0 <? length l)%nat then inr (cookieMap l)
                                 else match json_CookieMap data with
                                      | None => inl ErrUnsupportedFormat
                                      | Some m => if (size m =? 0)%nat then inl ErrEmptyCookies
                                                  else inr m
                                      end
                     | None => match json_CookieMap data with
                               | None => inl ErrUnsupportedFormat
                               | Some m => if (size m =? 0)%nat then inl ErrEmptyCookies
                                           else inr m
                               end
                     end = inr cookies -> cookies <> ∅).
  { destruct (json_BrowserCookies data) as [l|]; [|exact Hmap].
    destruct (0 <? length l)%nat eqn:Hl; [|exact Hmap].
    intros [= <-]. now apply cookieMap_nonempty. }
  cbv zeta.
  destruct (json_J2TeamCookiesFile data) as [l|]; [|exact Hbrowser].
  destruct (0 <? length l)%nat eqn:Hl; [|exact Hbrowser].
  intros [= <-]. now apply cookieMap_nonempty.
Qed.

(** In the two list formats a name that occurs more than once keeps the
    value of its last cookie, and a J2Team file with a cookie is read
    as such whatever else the bytes could be read as. *)
Theorem LoadCookies_last_duplicate_wins (path data : string) (cookies : list Cookie) :
  ReadFile path = Some data ->
  cookies <> [] ->
  (json_J2TeamCookiesFile data = Some cookies
   \/ ((json_J2TeamCookiesFile data = None \/ json_J2TeamCookiesFile data = Some [])
       /\ json_BrowserCookies data = Some cookies)) ->
  exists m,
    LoadCookies ReadFile path = inr m
    /\ forall name, m !! name = lastCookie name cookies.
Proof.
  intros Hread Hne Hfmt. unfold LoadCookies. rewrite Hread. cbv zeta.
  assert (Hlen : (0 <? length cookies)%nat = true).
  { destruct cookies; [congruence | reflexivity]. }
  exists (cookieMap cookies). split; [|apply cookieMap_lookup].
  destruct Hfmt as [->|[[->| ->] ->]]; rewrite ?Hlen; reflexivity.
Qed.

End CookieFacts.

Lemma LoadCookies_never_empty_witness :
  cookieMap exportedCookies <> ∅.
Proof.
  apply (@LoadCookies_never_empty browserExport cookieFiles "cookies.json").
  reflexivity.
Defined.

Lemma LoadCookies_last_duplicate_wins_witness :
  exists m,
    @LoadCookies browserExport cookieFiles "cookies.json" = inr m
    /\ forall name, m !! name = lastCookie name exportedCookies.
Proof.
  apply (@LoadCookies_last_duplicate_wins browserExport cookieFiles "cookies.json" "export").
  - reflexivity.
  - discriminate.
  - right. split; [left|]; reflexivity.
Defined.
